(** * aptcron: a shallow embedding of [aptcron.py] and its specification

    The script is a straight-line Python 2 program: it resolves a
    [ConfigParser] object from built-in defaults, configuration files and
    command-line flags, asks APT for the pending upgrades, filters them
    against a pickled baseline (the seen-cache), prints a report into an
    in-memory buffer and finally hands that buffer to [send_mail], which
    prints or mails it and terminates the process.

    The embedding keeps that shape.  Everything the script touches outside
    of itself (the uid, APT, the SMTP relay, [pickle]) is a field of an
    environment record [Env]; everything it mutates (the captured buffer,
    the real stdout and stderr, the [context] dict, the cache directory,
    the SMTP session) is a field of [World].  Statements run in a
    state-and-exception monad whose results distinguish a normal return,
    a raised [Exception] and [SystemExit].

    Of the Python library the embedding renders what the script relies on:
    [str.format] on templates with plain [{name}] fields, and
    [ConfigParser.get] on values without [%(] reference.  Beyond that the
    two are Python's format mini-language and [%]-formatting; their results
    are taken from the environment, like the answers of [pickle], so that
    every statement holds whatever the interpreter makes of such a template
    or value. *)

From Stdlib Require Import ZArith Ascii.
From stdpp Require Import strings gmap list pretty sorting.

Open Scope string_scope.
Open Scope Z_scope.

(** ** Python strings *)

(** The whitespace characters of [str.strip()] on a Python 2 byte string. *)
Definition is_space (c : ascii) : bool :=
  match c with
  | " "%char | "009"%char | "010"%char | "011"%char | "012"%char | "013"%char => true
  | _ => false
  end.

Fixpoint lstrip (s : string) : string :=
  match s with
  | "" => ""
  | String c r => if is_space c then lstrip r else s
  end.

Fixpoint rstrip (s : string) : string :=
  match s with
  | "" => ""
  | String c r =>
      match rstrip r with
      | "" => if is_space c then "" else String c ""
      | r' => String c r'
      end
  end.

(** [s.strip()] *)
Definition strip (s : string) : string := rstrip (lstrip s).

(** ASCII lower-casing, [str.lower()]. *)
Definition lower_ascii (c : ascii) : ascii :=
  let n := nat_of_ascii c in
  if ((65 <=? n)%nat && (n <=? 90)%nat)%bool then ascii_of_nat (n + 32) else c.

Fixpoint lower (s : string) : string :=
  match s with
  | "" => ""
  | String c r => String (lower_ascii c) (lower r)
  end.

(** The line feed that [print] appends. *)
Definition nl : string := String "010"%char "".

(** [repr] of a Python 2 byte string: double quotes when the string holds a
    single quote and no double quote, single quotes otherwise; a backslash
    before the quote and the backslash; the two-character escapes of tab,
    line feed and carriage return; a hexadecimal escape for every other byte
    outside of the printable ASCII range. *)
Fixpoint has_char (c : ascii) (s : string) : bool :=
  match s with
  | "" => false
  | String d r => Ascii.eqb c d || has_char c r
  end.

Definition hex_digit (n : nat) : ascii :=
  ascii_of_nat (if (n <? 10)%nat then 48 + n else 87 + n).

Definition repr_char (quote c : ascii) : string :=
  let n := nat_of_ascii c in
  let backslash := "092"%char in
  if (Ascii.eqb c quote || Ascii.eqb c backslash)%bool then String backslash (String c "")
  else if Ascii.eqb c "009"%char then String backslash "t"
  else if Ascii.eqb c "010"%char then String backslash "n"
  else if Ascii.eqb c "013"%char then String backslash "r"
  else if ((n <? 32)%nat || (127 <=? n)%nat)%bool
    then String backslash
           (String "x" (String (hex_digit (n / 16)) (String (hex_digit (n mod 16)) "")))
  else String c "".

Fixpoint repr_chars (quote : ascii) (s : string) : string :=
  match s with
  | "" => String quote ""
  | String c r => repr_char quote c +:+ repr_chars quote r
  end.

Definition repr (s : string) : string :=
  let quote := if (has_char "'" s && negb (has_char "034" s))%bool
               then "034"%char else "'"%char in
  String quote (repr_chars quote s).

(** [hostname.split('.')[0]] *)
Fixpoint split_dot_head (s : string) : string :=
  match s with
  | "" => ""
  | String c r => if Ascii.eqb c "."%char then "" else String c (split_dot_head r)
  end.

(** Python truthiness of an optional string ([None] and [''] are false). *)
Definition truthy (o : option string) : bool :=
  match o with
  | Some s => negb (String.eqb s "")
  | None => false
  end.

(** Python truthiness of an optional integer ([None] and [0] are false). *)
Definition truthy_int (o : option Z) : bool :=
  match o with
  | Some n => negb (n =? 0)
  | None => false
  end.

(** ** Exceptions *)

(** A raised exception: the name of its class, whether the class derives from
    [smtplib.SMTPException], and [str(e)]. *)
Record exn := Exn { exn_type : string; exn_smtp : bool; exn_msg : string }.

Definition NoSectionError (section : string) : exn :=
  Exn "NoSectionError" false ("No section: " +:+ repr section).
Definition NoOptionError (option section : string) : exn :=
  Exn "NoOptionError" false
      ("No option " +:+ repr option +:+ " in section: " +:+ repr section).
Definition ValueError (msg : string) : exn := Exn "ValueError" false msg.
Definition KeyError (key : string) : exn := Exn "KeyError" false (repr key).
Definition RuntimeError (msg : string) : exn := Exn "RuntimeError" false msg.

(** ['%s: %s' % (type(e).__name__, e)] *)
Definition describe (e : exn) : string := exn_type e +:+ ": " +:+ exn_msg e.

(** ** The context dict and [str.format] *)

Inductive ctxval := CStr (s : string) | CInt (n : Z).

Definition str (v : ctxval) : string :=
  match v with
  | CStr s => s
  | CInt n => pretty n
  end.

(** The characters of a plain keyword name: letters, digits, underscore. *)
Definition is_name_char (c : ascii) : bool :=
  let n := nat_of_ascii c in
  (((65 <=? n)%nat && (n <=? 90)%nat) || ((97 <=? n)%nat && (n <=? 122)%nat)
   || ((48 <=? n)%nat && (n <=? 57)%nat) || Ascii.eqb c "_"%char)%bool.

Definition is_digit (c : ascii) : bool :=
  let n := nat_of_ascii c in ((48 <=? n)%nat && (n <=? 57)%nat)%bool.

(** A field name that [str.format] looks up among the keyword arguments
    without more ado: not empty and not starting with a digit. *)
Definition is_keyword (name : string) : bool :=
  match name with
  | "" => false
  | String c _ => negb (is_digit c)
  end.

(** [template.format] on the context dict, for the templates that need nothing but
    keyword lookups: text without braces and fields [{name}] whose name is
    made of letters, digits and underscores.  The template is rendered from
    left to right, so that the first missing key raises.  [None]: the
    template holds something else (an escaped or lone brace, a conversion, a
    format specification, an attribute, an index, a positional field).  The
    second argument is the field being read, if any. *)
Fixpoint format_plain (t : string) (field : option string)
    (context : gmap string ctxval) : option (exn + string) :=
  match field with
  | None =>
      match t with
      | "" => Some (inr "")
      | String "{" r => format_plain r (Some "") context
      | String "}" _ => None
      | String c r =>
          match format_plain r None context with
          | Some (inr s) => Some (inr (String c s))
          | other => other
          end
      end
  | Some name =>
      match t with
      | "" => None
      | String "}" r =>
          if is_keyword name then
            match context !! name with
            | None => Some (inl (KeyError name))
            | Some v =>
                match format_plain r None context with
                | Some (inr s) => Some (inr (str v +:+ s))
                | other => other
                end
            end
          else None
      | String c r =>
          if is_name_char c then format_plain r (Some (name +:+ String c "")) context
          else None
      end
  end.

(** ** ConfigParser *)

(** A [ConfigParser.ConfigParser] of Python 2: the defaults, the sections,
    and its method [_interpolate(section, option, rawval, vars)] on values
    that hold a reference, which is Python's [%]-formatting and is left to
    the interpreter. *)
Record ConfigParser := {
  defaults : gmap string string;
  sections : gmap string (gmap string string);
  interpolate : string -> string -> string -> gmap string string -> exn + string
}.

Definition DEFAULTSECT : string := "DEFAULT".

(** [optionxform]: option names are lower-cased. *)
Definition optionxform (option : string) : string := lower option.

(** [config.get(section, option, raw=True)]: the value as stored, the
    section's own, else the default. *)
Definition get_raw (config : ConfigParser) (section option : string) : exn + string :=
  let option := optionxform option in
  match sections config !! section with
  | Some d =>
      match d !! option with
      | Some v => inr v
      | None =>
          match defaults config !! option with
          | Some v => inr v
          | None => inl (NoOptionError option section)
          end
      end
  | None =>
      if String.eqb section DEFAULTSECT then
        match defaults config !! option with
        | Some v => inr v
        | None => inl (NoOptionError option section)
        end
      else inl (NoSectionError section)
  end.

(** ["%(" in value] *)
Fixpoint has_reference (value : string) : bool :=
  match value with
  | "" => false
  | String c r =>
      (Ascii.eqb c "%"%char && match r with String "(" _ => true | _ => false end)
      || has_reference r
  end.

(** The mapping that the references of a value are resolved in: the options
    of the section over the defaults. *)
Definition vars (config : ConfigParser) (section : string) : gmap string string :=
  default ∅ (sections config !! section) ∪ defaults config.

(** [config.get(section, option)]: the stored value, interpolated when it
    holds a reference. *)
Definition get (config : ConfigParser) (section option : string) : exn + string :=
  match get_raw config section option with
  | inl e => inl e
  | inr value =>
      if has_reference value
      then interpolate config section (optionxform option) value (vars config section)
      else inr value
  end.

(** [config.set(section, option, value)] *)
Definition set (config : ConfigParser) (section option value : string)
    : exn + ConfigParser :=
  let option := optionxform option in
  if (String.eqb section "" || String.eqb section DEFAULTSECT)%bool then
    inr {| defaults := <[option := value]> (defaults config);
           sections := sections config;
           interpolate := interpolate config |}
  else
    match sections config !! section with
    | Some d =>
        inr {| defaults := defaults config;
               sections := <[section := <[option := value]> d]> (sections config);
               interpolate := interpolate config |}
    | None => inl (NoSectionError section)
    end.

Definition boolean_states (v : string) : option bool :=
  if String.eqb v "1" then Some true
  else if String.eqb v "yes" then Some true
  else if String.eqb v "true" then Some true
  else if String.eqb v "on" then Some true
  else if String.eqb v "0" then Some false
  else if String.eqb v "no" then Some false
  else if String.eqb v "false" then Some false
  else if String.eqb v "off" then Some false
  else None.

(** [config.getboolean(section, option)] *)
Definition getboolean (config : ConfigParser) (section option : string) : exn + bool :=
  match get config section option with
  | inl e => inl e
  | inr v =>
      match boolean_states (lower v) with
      | Some b => inr b
      | None => inl (ValueError ("Not a boolean: " +:+ v))
      end
  end.

Definition digit_value (c : ascii) : option Z :=
  let n := nat_of_ascii c in
  if ((48 <=? n)%nat && (n <=? 57)%nat)%bool then Some (Z.of_nat (n - 48)) else None.

Fixpoint digits_value (s : string) (acc : Z) : option Z :=
  match s with
  | "" => Some acc
  | String c r =>
      match digit_value c with
      | Some d => digits_value r (10 * acc + d)
      | None => None
      end
  end.

(** [int(v)] on a decimal literal with optional sign and surrounding blanks. *)
Definition int (v : string) : exn + Z :=
  let bad := inl (ValueError ("invalid literal for int() with base 10: " +:+ repr v)) in
  match strip v with
  | "" => bad
  | String "-" ((String _ _) as d) =>
      match digits_value d 0 with Some n => inr (- n) | None => bad end
  | String "+" ((String _ _) as d) =>
      match digits_value d 0 with Some n => inr n | None => bad end
  | d => match digits_value d 0 with Some n => inr n | None => bad end
  end.

(** [config.getint(section, option)] *)
Definition getint (config : ConfigParser) (section option : string) : exn + Z :=
  match get config section option with
  | inl e => inl e
  | inr v => int v
  end.

(** ** Data, environment and state *)

(** One pending upgrade, the tuple built at line 191:
    [(p.name, p.versions[1].version, p.versions[0].version)]. *)
Abbreviation PackageUpdate := (string * string * string)%type.

(** The arguments namespace produced by [parser.parse_args()]. *)
Record Args := {
  no_update : bool;
  only_new : bool;
  no_mail : bool;
  force : bool;
  section : string;
  config_file : option string;
  mail_from : option string;
  mail_to : option string;
  mail_subject : option string;
  smtp_host : option string;
  smtp_port : option Z;
  smtp_user : option string;
  smtp_password : option string;
  smtp_starttls : option string
}.

(** What the world outside of the script answers during one run. *)
Record Env := {
  hostname : string;                               (* socket.gethostname() *)
  getuid : Z;                                      (* os.getuid() *)
  apt_Cache : option exn;                          (* apt.Cache() *)
  apt_update : option exn;                         (* cache.update() *)
  apt_changes : exn + list PackageUpdate;          (* lines 188-191 *)
  pickle_dump : list PackageUpdate -> string;      (* pickle.dump, as file content *)
  pickle_load : string -> exn + list PackageUpdate;(* pickle.load of a file content *)
  str_format : string -> gmap string ctxval -> exn + string;
                                       (* template.format, beyond plain fields *)
  ConfigParser_interpolate : string -> string -> string -> gmap string string -> exn + string;
                                       (* ConfigParser._interpolate *)
  SMTP : string -> Z -> option exn;                (* smtplib.SMTP(host, port) *)
  starttls : option exn;                           (* s.starttls() *)
  login : string -> string -> option exn;          (* s.login(user, password) *)
  sendmail : option exn;                           (* s.sendmail(...) *)
  quit : option exn                                (* s.quit() *)
}.

(** [template.format] on the context dict: plain templates are rendered
    here, the others by the interpreter. *)
Definition format (env : Env) (t : string) (context : gmap string ctxval)
    : exn + string :=
  match format_plain t None context with
  | Some r => r
  | None => str_format env t context
  end.

(** The contract of the [pickle] library for the values the script stores. *)
Definition pickle_roundtrip (env : Env) : Prop :=
  forall v, pickle_load env (pickle_dump env v) = inr v.

(** [/var/cache/aptcron] and the file [seen] in it. *)
Inductive cache_fs :=
  | NoDir
  | Dir (seen_cache : option string).

Definition exists_SEEN_CACHE (fs : cache_fs) : bool :=
  match fs with
  | Dir (Some _) => true
  | _ => false
  end.

Definition exists_CACHE_DIR (fs : cache_fs) : bool :=
  match fs with
  | Dir _ => true
  | NoDir => false
  end.

(** The message handed to [s.sendmail]. *)
Record message := {
  Subject : string;
  From : string;
  To : string;
  X_AptCron : string;
  X_AptCron_Host : string;
  payload : string
}.

Inductive smtp_call :=
  | CallSMTP (host : string) (port : Z)
  | CallStarttls
  | CallLogin (user password : string)
  | CallSendmail (from_addr : string) (to_addrs : list string) (msg : message)
  | CallQuit.

Inductive apt_call := CallCache | CallUpdate | CallChanges.

(** Everything a run mutates. *)
Record World := {
  sys_stdout : string;              (* the StringIO bound to sys.stdout/sys.stderr *)
  stdout : string;                  (* _stdout, the real standard output *)
  stderr : string;                  (* _stderr, the real standard error *)
  context : gmap string ctxval;
  fs : cache_fs;
  smtp_calls : list smtp_call;      (* in call order *)
  apt_calls : list apt_call         (* in call order *)
}.

(** The state at line 175: empty buffers, [context] as built at lines 73-76. *)
Definition initial_world (env : Env) (fs0 : cache_fs) : World :=
  {| sys_stdout := ""; stdout := ""; stderr := "";
     context := <["host" := CStr (hostname env)]>
                  (<["shorthost" := CStr (split_dot_head (hostname env))]> ∅);
     fs := fs0; smtp_calls := []; apt_calls := [] |}.

(** ** The monad of statements *)

Inductive result (A : Type) :=
  | Ok (a : A)          (* falls through to the next statement *)
  | Raise (e : exn)     (* an [Exception] propagates *)
  | Exit (code : Z).    (* [SystemExit], which [except Exception] lets pass *)
Arguments Ok {A} a.
Arguments Raise {A} e.
Arguments Exit {A} code.

Definition M (A : Type) : Type := World -> World * result A.

Definition ret {A} (a : A) : M A := fun w => (w, Ok a).

Definition bind {A B} (m : M A) (k : A -> M B) : M B :=
  fun w =>
    match m w with
    | (w', Ok a) => k a w'
    | (w', Raise e) => (w', Raise e)
    | (w', Exit c) => (w', Exit c)
    end.

Notation "x <- m ;; k" := (bind m (fun x => k))
  (at level 100, m at next level, right associativity).
Notation "m ;; k" := (bind m (fun _ => k))
  (at level 100, right associativity).

Definition raise {A} (e : exn) : M A := fun w => (w, Raise e).

(** [sys.exit(code)] *)
Definition sys_exit {A} (code : Z) : M A := fun w => (w, Exit code).

(** A call that either raises or returns. *)
Definition call {A} (r : exn + A) : M A :=
  match r with
  | inl e => raise e
  | inr a => ret a
  end.

(** A call that either raises or returns nothing. *)
Definition call_ (r : option exn) : M unit :=
  match r with
  | Some e => raise e
  | None => ret tt
  end.

(** [try: m except Exception as e: handler e] *)
Definition try_except {A} (m : M A) (handler : exn -> M A) : M A :=
  fun w =>
    match m w with
    | (w', Raise e) => handler e w'
    | r => r
    end.

(** The exit status the operating system sees: falling off the end of the
    script is 0, an uncaught exception is a traceback and 1. *)
Definition exit_status (r : result unit) : Z :=
  match r with
  | Ok _ => 0
  | Raise _ => 1
  | Exit c => c
  end.


(** ** Primitive statements *)

Definition set_sys_stdout (s : string) (w : World) : World :=
  {| sys_stdout := s; stdout := stdout w; stderr := stderr w; context := context w;
     fs := fs w; smtp_calls := smtp_calls w; apt_calls := apt_calls w |}.
Definition set_stdout (s : string) (w : World) : World :=
  {| sys_stdout := sys_stdout w; stdout := s; stderr := stderr w; context := context w;
     fs := fs w; smtp_calls := smtp_calls w; apt_calls := apt_calls w |}.
Definition set_stderr (s : string) (w : World) : World :=
  {| sys_stdout := sys_stdout w; stdout := stdout w; stderr := s; context := context w;
     fs := fs w; smtp_calls := smtp_calls w; apt_calls := apt_calls w |}.
Definition set_context (c : gmap string ctxval) (w : World) : World :=
  {| sys_stdout := sys_stdout w; stdout := stdout w; stderr := stderr w; context := c;
     fs := fs w; smtp_calls := smtp_calls w; apt_calls := apt_calls w |}.
Definition set_fs (f : cache_fs) (w : World) : World :=
  {| sys_stdout := sys_stdout w; stdout := stdout w; stderr := stderr w;
     context := context w; fs := f; smtp_calls := smtp_calls w; apt_calls := apt_calls w |}.
Definition set_smtp_calls (l : list smtp_call) (w : World) : World :=
  {| sys_stdout := sys_stdout w; stdout := stdout w; stderr := stderr w;
     context := context w; fs := fs w; smtp_calls := l; apt_calls := apt_calls w |}.
Definition set_apt_calls (l : list apt_call) (w : World) : World :=
  {| sys_stdout := sys_stdout w; stdout := stdout w; stderr := stderr w;
     context := context w; fs := fs w; smtp_calls := smtp_calls w; apt_calls := l |}.

(** [print(s)]: one line into the captured buffer. *)
Definition print (s : string) : M unit := fun w =>
  (set_sys_stdout (sys_stdout w +:+ s +:+ nl) w, Ok tt).

(** [print(s, file=stdout)] and [print(s, file=stderr)] on the real channels. *)
Definition print_stdout (s : string) : M unit := fun w =>
  (set_stdout (stdout w +:+ s +:+ nl) w, Ok tt).
Definition print_stderr (s : string) : M unit := fun w =>
  (set_stderr (stderr w +:+ s +:+ nl) w, Ok tt).

(** [sys.stdout.getvalue()] *)
Definition getvalue : M string := fun w => (w, Ok (sys_stdout w)).

(** [context[key]] and [context[key] = v] *)
Definition context_get (key : string) : M ctxval := fun w =>
  match context w !! key with
  | Some v => (w, Ok v)
  | None => (w, Raise (KeyError key))
  end.
Definition context_set (key : string) (v : ctxval) : M unit := fun w =>
  (set_context (<[key := v]> (context w)) w, Ok tt).
Definition the_context : M (gmap string ctxval) := fun w => (w, Ok (context w)).

(** A call into python-apt, recorded. *)
Definition apt {A} (c : apt_call) (r : exn + A) : M A := fun w =>
  call r (set_apt_calls (apt_calls w ++ [c]) w).

(** A call on the SMTP session, recorded. *)
Definition smtp (c : smtp_call) (r : option exn) : M unit := fun w =>
  call_ r (set_smtp_calls (smtp_calls w ++ [c]) w).

(** [os.path.exists(SEEN_CACHE)], [os.path.exists(CACHE_DIR)] *)
Definition path_exists_SEEN_CACHE : M bool := fun w => (w, Ok (exists_SEEN_CACHE (fs w))).
Definition path_exists_CACHE_DIR : M bool := fun w => (w, Ok (exists_CACHE_DIR (fs w))).

Definition OSError (msg : string) : exn := Exn "OSError" false msg.
Definition IOError (msg : string) : exn := Exn "IOError" false msg.

(** [os.makedirs(CACHE_DIR)] *)
Definition makedirs_CACHE_DIR : M unit := fun w =>
  match fs w with
  | NoDir => (set_fs (Dir None) w, Ok tt)
  | Dir _ => (w, Raise (OSError "[Errno 17] File exists: '/var/cache/aptcron'"))
  end.

(** [os.remove(SEEN_CACHE)] *)
Definition remove_SEEN_CACHE : M unit := fun w =>
  match fs w with
  | Dir (Some _) => (set_fs (Dir None) w, Ok tt)
  | _ => (w, Raise (OSError "[Errno 2] No such file or directory: '/var/cache/aptcron/seen'"))
  end.

(** [pickle.load(open(SEEN_CACHE))] *)
Definition load_SEEN_CACHE (env : Env) : M (list PackageUpdate) := fun w =>
  match fs w with
  | Dir (Some content) => call (pickle_load env content) w
  | _ => (w, Raise (IOError "[Errno 2] No such file or directory: '/var/cache/aptcron/seen'"))
  end.

(** [pickle.dump(v, open(SEEN_CACHE, 'w'))] *)
Definition dump_SEEN_CACHE (env : Env) (v : list PackageUpdate) : M unit := fun w =>
  match fs w with
  | Dir _ => (set_fs (Dir (Some (pickle_dump env v))) w, Ok tt)
  | NoDir => (w, Raise (IOError "[Errno 2] No such file or directory: '/var/cache/aptcron/seen'"))
  end.

(** [try: m except C: handler], where [catches] tells the instances of [C]. *)
Definition try_except_class {A} (catches : exn -> bool) (m : M A) (handler : exn -> M A)
    : M A :=
  fun w =>
    match m w with
    | (w', Raise e) => if catches e then handler e w' else (w', Raise e)
    | r => r
    end.

(** ** Configuration (lines 79-126) *)

(** The defaults handed to the [ConfigParser] constructor (lines 79-94). *)
Definition builtin_defaults (env : Env) : ConfigParser :=
  {| defaults := list_to_map [
       ("no-update", "no"); ("only-new", "no"); ("force", "no"); ("no-mail", "no");
       ("mail-from", "root@" +:+ hostname env);
       ("mail-to", "root@" +:+ hostname env);
       ("mail-subject", "[aptcron] {shorthost}: {num} APT updates");
       ("smtp-host", "localhost"); ("smtp-port", "25");
       ("smtp-user", ""); ("smtp-password", ""); ("smtp-starttls", "force") ];
     sections := ∅;
     interpolate := ConfigParser_interpolate env |}.

(** A parsed configuration file, as the parser of [config.read] takes it in:
    its section blocks in file order, each with its options in file order,
    the names lower-cased by [optionxform], the values as they are stored. *)
Abbreviation parsed_file := (list (string * list (string * string))).

Definition assign (d : gmap string string) (kv : string * string) : gmap string string :=
  <[kv.1 := kv.2]> d.

(** One section block of a file being read: a [DEFAULT] block updates the
    defaults, any other block its section, created on first sight with its
    name under [__name__]. *)
Definition read_block (config : ConfigParser) (blk : string * list (string * string))
    : ConfigParser :=
  if String.eqb blk.1 DEFAULTSECT then
    {| defaults := foldl assign (defaults config) blk.2;
       sections := sections config;
       interpolate := interpolate config |}
  else
    {| defaults := defaults config;
       sections := <[blk.1 := foldl assign
                                (default {["__name__" := blk.1]} (sections config !! blk.1))
                                blk.2]>
                     (sections config);
       interpolate := interpolate config |}.

(** [config.read(configfiles)] over the files that exist, in list order. *)
Definition read (config : ConfigParser) (files : list parsed_file) : ConfigParser :=
  foldl (foldl read_block) config files.

(** [if flag: config.set(args.section, option, value)] *)
Definition set_if (flag : bool) (args : Args) (option value : string)
    (config : ConfigParser) : M ConfigParser :=
  if flag then call (set config (section args) option value) else ret config.

(** Lines 102-126. *)
Definition cli_overrides (args : Args) (config : ConfigParser) : M ConfigParser :=
  config <- set_if (no_update args) args "no-update" "yes" config ;;
  config <- set_if (only_new args) args "only-new" "yes" config ;;
  config <- set_if (force args) args "force" "yes" config ;;
  config <- set_if (no_mail args) args "no-mail" "yes" config ;;
  config <- set_if (truthy (mail_from args)) args "mail-from"
              (default "" (mail_from args)) config ;;
  config <- set_if (truthy (mail_to args)) args "mail-to"
              (default "" (mail_to args)) config ;;
  config <- set_if (truthy (mail_subject args)) args "mail-subject"
              (default "" (mail_subject args)) config ;;
  config <- set_if (truthy (smtp_host args)) args "smtp-host"
              (default "" (smtp_host args)) config ;;
  config <- set_if (truthy_int (smtp_port args)) args "smtp-port"
              (pretty (default 0 (smtp_port args))) config ;;
  config <- set_if (truthy (smtp_user args)) args "smtp-user"
              (default "" (smtp_user args)) config ;;
  config <- set_if (truthy (smtp_password args)) args "smtp-password"
              (default "" (smtp_password args)) config ;;
  set_if (truthy (smtp_starttls args)) args "smtp-starttls"
         (default "" (smtp_starttls args)) config.

(** ** Delivery (lines 128-167) *)

Definition STARTTLS_FORCED : string := "STARTTLS forced but not supported by SMTP-server.".

(** Lines 134-146: the message is composed and the relay contacted.  [None]
    is the bare [return] of line 136. *)
Definition compose_message (env : Env) (config : ConfigParser) (args : Args)
    : M (option message) :=
  captured <- getvalue ;;
  let body := strip captured in
  if String.eqb body "" then ret None
  else
    context <- the_context ;;
    subject_tpl <- call (get config (section args) "mail-subject") ;;
    subject <- call (format env subject_tpl context) ;;
    from_tpl <- call (get config (section args) "mail-from") ;;
    from_addr <- call (format env from_tpl context) ;;
    to_tpl <- call (get config (section args) "mail-to") ;;
    to_addr <- call (format env to_tpl context) ;;
    host <- context_get "host" ;;
    smtp_host <- call (get config (section args) "smtp-host") ;;
    smtp_port <- call (getint config (section args) "smtp-port") ;;
    smtp (CallSMTP smtp_host smtp_port) (SMTP env smtp_host smtp_port) ;;
    ret (Some {| Subject := subject; From := from_addr; To := to_addr;
                 X_AptCron := "yes"; X_AptCron_Host := str host; payload := body |}).

(** Lines 148-154: the STARTTLS policy. *)
Definition negotiate (env : Env) (config : ConfigParser) (args : Args) : M unit :=
  mode <- call (get config (section args) "smtp-starttls") ;;
  if (String.eqb mode "yes" || String.eqb mode "force")%bool then
    try_except_class exn_smtp
      (smtp CallStarttls (starttls env))
      (fun _ => if String.eqb mode "force"
                then raise (RuntimeError STARTTLS_FORCED)
                else ret tt)
  else ret tt.

(** Lines 156-162: optional login, then the message is handed over. *)
Definition transmit (env : Env) (config : ConfigParser) (args : Args) (msg : message)
    : M unit :=
  user <- call (get config (section args) "smtp-user") ;;
  password <- call (get config (section args) "smtp-password") ;;
  (if (negb (String.eqb user "") && negb (String.eqb password ""))%bool then
     smtp (CallLogin user password) (login env user password)
   else ret tt) ;;
  smtp (CallSendmail (From msg) [To msg] msg) (sendmail env) ;;
  smtp CallQuit (quit env).

(** Lines 134-162, the body of the [try] in [send_mail]; [Some code] falls
    through to [sys.exit(code)]. *)
Definition deliver (env : Env) (config : ConfigParser) (args : Args) (code : Z)
    : M (option Z) :=
  composed <- compose_message env config args ;;
  match composed with
  | None => ret None
  | Some msg =>
      negotiate env config args ;;
      transmit env config args msg ;;
      ret (Some code)
  end.

(** [send_mail(config, args, _stdout, _stderr, context, code)] *)
Definition send_mail (env : Env) (config : ConfigParser) (args : Args) (code : Z)
    : M unit :=
  if no_mail args then
    captured <- getvalue ;;
    print_stdout (strip captured) ;;
    sys_exit code
  else
    code <- try_except (deliver env config args code)
              (fun e => print_stderr (describe e) ;; ret (Some 2)) ;;
    match code with
    | None => ret tt
    | Some code => sys_exit code
    end.

(** ** The run (lines 175-226) *)

(** Line 197: [[p for p in packages if p not in seen]]. *)
Definition filter_new (packages seen : list PackageUpdate) : list PackageUpdate :=
  filter (fun p => p ∉ seen) packages.

(** Lines 194-197: the baseline and the packages left to report. *)
Definition load (env : Env) (config : ConfigParser) (args : Args)
    (packages : list PackageUpdate) : M (list PackageUpdate * list PackageUpdate) :=
  only <- call (getboolean config (section args) "only-new") ;;
  there <- (if only then path_exists_SEEN_CACHE else ret false) ;;
  if there then
    seen <- load_SEEN_CACHE env ;;
    ret (seen, filter_new packages seen)
  else ret ([], packages).

(** Lines 199-206: the header. *)
Definition print_header (env : Env) (config : ConfigParser) (args : Args)
    (seen packages : list PackageUpdate) : M unit :=
  match packages with
  | _ :: _ =>
      only <- call (getboolean config (section args) "only-new") ;;
      if (only && negb (bool_decide (seen = [])))%bool then
        num <- context_get "num" ;;
        line <- call (format env "{num} available update(s), new since the last mail:"
                             {["num" := num]}) ;;
        print line
      else
        num <- context_get "num" ;;
        line <- call (format env "{num} available update(s):" {["num" := num]}) ;;
        print line
  | [] =>
      forced <- call (getboolean config (section args) "force") ;;
      if forced then print "No packages found." else ret tt
  end.

(** Line 209: ['* %s: %s -> %s' % (name, new, old)]. *)
Definition update_line (p : PackageUpdate) : string :=
  "* " +:+ p.1.1 +:+ ": " +:+ p.1.2 +:+ " -> " +:+ p.2.

(** Lines 208-209. *)
Fixpoint print_updates (packages : list PackageUpdate) : M unit :=
  match packages with
  | [] => ret tt
  | p :: rest => print (update_line p) ;; print_updates rest
  end.

Definition is_zero (v : ctxval) : bool :=
  match v with
  | CInt n => n =? 0
  | CStr _ => false
  end.

(** Lines 211-217: the seen-cache is reset or rewritten. *)
Definition commit (env : Env) (config : ConfigParser) (args : Args)
    (seen packages : list PackageUpdate) : M unit :=
  only <- call (getboolean config (section args) "only-new") ;;
  if only then
    there <- path_exists_CACHE_DIR ;;
    (if negb there then makedirs_CACHE_DIR else ret tt) ;;
    num <- context_get "num" ;;
    stale <- (if is_zero num then path_exists_SEEN_CACHE else ret false) ;;
    if stale then remove_SEEN_CACHE
    else dump_SEEN_CACHE env (seen ++ packages)
  else ret tt.

Definition REMINDER : string := "Please update all packages at your earliest convenience.".

(** Lines 219-220. *)
Definition print_trailer (packages : list PackageUpdate) : M unit :=
  match packages with
  | _ :: _ => print (nl +:+ REMINDER)
  | [] => ret tt
  end.

(** Lines 180-220: everything in the [try] before the final [send_mail]. *)
Definition report (env : Env) (config : ConfigParser) (args : Args) : M unit :=
  apt CallCache (match apt_Cache env with Some e => inl e | None => inr tt end) ;;
  skip <- call (getboolean config (section args) "no-update") ;;
  (if negb skip
   then apt CallUpdate (match apt_update env with Some e => inl e | None => inr tt end)
   else ret tt) ;;
  packages <- apt CallChanges (apt_changes env) ;;
  context_set "num" (CInt (Z.of_nat (length packages))) ;;
  loaded <- load env config args packages ;;
  let seen := loaded.1 in
  let packages := loaded.2 in
  print_header env config args seen packages ;;
  print_updates packages ;;
  commit env config args seen packages ;;
  print_trailer packages.

Definition ROOT_REQUIRED : string := "aptcron requires root-privileges to run.".

(** Lines 175-226. *)
Definition main (env : Env) (config : ConfigParser) (args : Args) : M unit :=
  (if negb (getuid env =? 0)
   then print ROOT_REQUIRED ;; send_mail env config args 1
   else ret tt) ;;
  try_except
    (report env config args ;; send_mail env config args 0)
    (fun e => print (describe e) ;; send_mail env config args 1).

(** The whole script: the configuration is resolved (lines 79-126) outside of
    any [try], then the run starts on empty buffers. *)
Definition aptcron (env : Env) (args : Args) (files : list parsed_file) : M unit :=
  config <- cli_overrides args (read (builtin_defaults env) files) ;;
  main env config args.

(** ** Configuration files (lines 95-100) *)

(** [sorted(names)] on a list of paths. *)
Definition sorted (names : list string) : list string := merge_sort String.le names.

(** Lines 95-99: the files to read, in reading order.  [etc_d] and [local_d]
    are what [glob.glob] finds under [/etc/aptcron.d] and [aptcron.d]. *)
Definition configfiles (args : Args) (etc_d local_d : list string) : list string :=
  if truthy (config_file args) then [default "" (config_file args)]
  else (("/etc/aptcron.conf" :: sorted etc_d) ++ ("aptcron.conf" :: sorted local_d))%list.

(** What opening and parsing a path gives: nothing when the file cannot be
    opened, else a parse error or the blocks of the file. *)
Abbreviation file_system := (string -> option (exn + parsed_file)).

(** One file of [config.read]: skipped when it cannot be opened. *)
Definition read_file (parse : file_system) (config : ConfigParser) (name : string)
    : exn + ConfigParser :=
  match parse name with
  | None => inr config
  | Some (inl e) => inl e
  | Some (inr blocks) => inr (foldl read_block config blocks)
  end.

(** Line 100: [config.read(configfiles)]. *)
Fixpoint read_files (parse : file_system) (config : ConfigParser) (names : list string)
    : exn + ConfigParser :=
  match names with
  | [] => inr config
  | name :: rest =>
      match read_file parse config name with
      | inl e => inl e
      | inr config => read_files parse config rest
      end
  end.

(** The script from line 79 on, on the files of the host. *)
Definition script (env : Env) (args : Args) (etc_d local_d : list string)
    (parse : file_system) : M unit :=
  config <- call (read_files parse (builtin_defaults env)
                    (configfiles args etc_d local_d)) ;;
  config <- cli_overrides args config ;;
  main env config args.

(** ** Auxiliary notions used by the statements *)

(** A string of whitespace only: exactly the strings that [strip] empties. *)
Fixpoint blank (s : string) : bool :=
  match s with
  | "" => true
  | String c r => is_space c && blank r
  end.

(** [m] never ends in [SystemExit]. *)
Definition no_exit {A} (m : M A) : Prop :=
  forall w w' c, m w ≠ (w', Exit c).

(** Whatever [m] returns satisfies [P]. *)
Definition yields {A} (P : A -> Prop) (m : M A) : Prop :=
  forall w w' a, m w = (w', Ok a) -> P a.

(** A template without replacement fields. *)
Fixpoint no_braces (t : string) : bool :=
  match t with
  | "" => true
  | String c r =>
      negb (Ascii.eqb c "{"%char) && negb (Ascii.eqb c "}"%char) && no_braces r
  end.

(** The baseline a run works with (lines 194-196): the unpickled seen-cache
    in only-new mode when the file exists, else the empty list. *)
Definition baseline (env : Env) (only : bool) (f : cache_fs) : exn + list PackageUpdate :=
  match f with
  | Dir (Some content) => if only then pickle_load env content else inr []
  | _ => inr []
  end.

(** The lines of the updates, one per update, in list order. *)
Fixpoint update_lines (updates : list PackageUpdate) : string :=
  match updates with
  | [] => ""
  | p :: rest => update_line p +:+ nl +:+ update_lines rest
  end.

(** The report as the specification words it (section 4.4): header by the
    four-way rule, one line per update, blank line and reminder. *)
Definition report_text (only forced had_prior : bool) (num : Z)
    (updates : list PackageUpdate) : string :=
  match updates with
  | [] => if forced then "No packages found." +:+ nl else ""
  | _ :: _ =>
      (if (only && had_prior)%bool
       then pretty num +:+ " available update(s), new since the last mail:"
       else pretty num +:+ " available update(s):") +:+ nl
      +:+ update_lines updates
      +:+ nl +:+ REMINDER +:+ nl
  end.

(** The seen-cache after commit as the specification words it (section 4.3):
    reset when nothing at all is pending and a baseline file exists, else
    rewritten with the baseline followed by the reported updates. *)
Definition committed (env : Env) (total : Z) (seen updates : list PackageUpdate)
    (f : cache_fs) : cache_fs :=
  if ((total =? 0) && exists_SEEN_CACHE f)%bool then Dir None
  else Dir (Some (pickle_dump env (seen ++ updates))).

(** The world right after line 220, when nothing raised. *)
Definition reported (env : Env) (skip only forced : bool)
    (pk seen : list PackageUpdate) (w : World) : World :=
  let total := Z.of_nat (length pk) in
  let updates := filter_new pk seen in
  {| sys_stdout := sys_stdout w +:+
       report_text only forced (negb (bool_decide (seen = []))) total updates;
     stdout := stdout w;
     stderr := stderr w;
     context := <["num" := CInt total]> (context w);
     fs := if only then committed env total seen updates (fs w) else fs w;
     smtp_calls := smtp_calls w;
     apt_calls := apt_calls w ++ [CallCache] ++ (if skip then [] else [CallUpdate])
                    ++ [CallChanges] |}.

(** A run fails before the report is dispatched: either the privilege check
    of line 175 fails and its notice is the line printed, or a statement of
    the guarded block (lines 180-220) raises and line 225 prints the
    exception's type name and message. *)
Inductive failed_before_dispatch (env : Env) (config : ConfigParser) (args : Args)
    (w : World) : World -> string -> Prop :=
  | not_root :
      getuid env ≠ 0 ->
      failed_before_dispatch env config args w w ROOT_REQUIRED
  | raised (w' : World) (e : exn) :
      getuid env = 0 ->
      report env config args w = (w', Raise e) ->
      failed_before_dispatch env config args w w' (describe e).

(** What the command line supplies for an option, as lines 103-126 see it:
    a flag that is set, a string that is not empty, a port that is not 0. *)
Definition supplied (args : Args) (name : string) : option string :=
  if String.eqb name "no-update" then (if no_update args then Some "yes" else None)
  else if String.eqb name "only-new" then (if only_new args then Some "yes" else None)
  else if String.eqb name "force" then (if force args then Some "yes" else None)
  else if String.eqb name "no-mail" then (if no_mail args then Some "yes" else None)
  else if String.eqb name "mail-from"
    then (if truthy (mail_from args) then mail_from args else None)
  else if String.eqb name "mail-to"
    then (if truthy (mail_to args) then mail_to args else None)
  else if String.eqb name "mail-subject"
    then (if truthy (mail_subject args) then mail_subject args else None)
  else if String.eqb name "smtp-host"
    then (if truthy (smtp_host args) then smtp_host args else None)
  else if String.eqb name "smtp-port"
    then (if truthy_int (smtp_port args) then pretty <$> smtp_port args else None)
  else if String.eqb name "smtp-user"
    then (if truthy (smtp_user args) then smtp_user args else None)
  else if String.eqb name "smtp-password"
    then (if truthy (smtp_password args) then smtp_password args else None)
  else if String.eqb name "smtp-starttls"
    then (if truthy (smtp_starttls args) then smtp_starttls args else None)
  else None.

(** The selected section can be read and written: it is [DEFAULT], or a
    section that some file declared.  No file declares a section named
    [DEFAULT] or with an empty name. *)
Definition selectable (config : ConfigParser) (section : string) : Prop :=
  sections config !! DEFAULTSECT = None
  ∧ (section = DEFAULTSECT ∨ (section ≠ "" ∧ is_Some (sections config !! section))).

(** The world once [s.starttls()] has been called. *)
Definition started (w : World) : World :=
  set_smtp_calls (smtp_calls w ++ [CallStarttls]) w.

(** [m] leaves the part [f] of the world as it is, however it ends. *)
Definition preserves {A X} (f : World -> X) (m : M A) : Prop :=
  forall w, f (m w).1 = f w.

(** [m] does not look at the cache directory: run on another one, it does
    the same and leaves that one in place. *)
Definition ignores_fs {A} (m : M A) : Prop :=
  forall f w, m (set_fs f w) = (set_fs f (m w).1, (m w).2).

(** The world once the call [c] has been made on the SMTP session. *)
Definition called (c : smtp_call) (w : World) : World :=
  set_smtp_calls (smtp_calls w ++ [c]) w.

(** Line 158: [user and password]. *)
Definition authenticates (user password : string) : bool :=
  negb (String.eqb user "") && negb (String.eqb password "").

(** Lines 192-220: what the guarded block does once APT has listed the
    pending [packages]. *)
Definition after_listing (env : Env) (config : ConfigParser) (args : Args)
    (packages : list PackageUpdate) : M unit :=
  context_set "num" (CInt (Z.of_nat (length packages))) ;;
  loaded <- load env config args packages ;;
  let seen := loaded.1 in
  let packages := loaded.2 in
  print_header env config args seen packages ;;
  print_updates packages ;;
  commit env config args seen packages ;;
  print_trailer packages.

(** The string holds a dot. *)
Fixpoint has_dot (s : string) : bool :=
  match s with
  | "" => false
  | String c r => Ascii.eqb c "."%char || has_dot r
  end.

(** The value that the [DEFAULT] blocks of a file leave for the option
    [name], over the value [before]. *)
Definition default_after (blocks : parsed_file) (name : string)
    (before : option string) : option string :=
  foldl (fun acc blk =>
           if String.eqb blk.1 DEFAULTSECT
           then foldl (fun a kv => if String.eqb kv.1 name then Some kv.2 else a)
                      acc blk.2
           else acc)
        before blocks.

(** The blocks of the listed files that exist, in reading order. *)
Definition readable (parse : file_system) (names : list string) : list parsed_file :=
  omap (fun name => match parse name with
                    | Some (inr blocks) => Some blocks
                    | _ => None
                    end) names.

(** No listed file has a parse error. *)
Definition parses (parse : file_system) (names : list string) : bool :=
  forallb (fun name => match parse name with
                       | Some (inl _) => false
                       | _ => true
                       end) names.

(** ** A reference environment

    Concrete collaborators on which the statements below are exercised: a
    length-prefixed serialization standing in for [pickle], a relay that
    accepts everything, and APT reporting a fixed list. *)

Module Reference.

Fixpoint ones (n : nat) : string :=
  match n with
  | O => "0"
  | S n => String "1" (ones n)
  end.

(** A string as its length in unary, then its characters. *)
Definition dump_str (s : string) : string := ones (String.length s) +:+ s.

Definition dump_update (p : PackageUpdate) : string :=
  dump_str p.1.1 +:+ dump_str p.1.2 +:+ dump_str p.2.

Fixpoint dump_updates (l : list PackageUpdate) : string :=
  match l with
  | [] => ""
  | p :: rest => dump_update p +:+ dump_updates rest
  end.

Definition dumps (l : list PackageUpdate) : string :=
  ones (length l) +:+ dump_updates l.

Fixpoint read_ones (s : string) : option (nat * string) :=
  match s with
  | String "0" r => Some (O, r)
  | String "1" r =>
      match read_ones r with
      | Some (n, t) => Some (S n, t)
      | None => None
      end
  | _ => None
  end.

Fixpoint take (n : nat) (s : string) : option (string * string) :=
  match n with
  | O => Some ("", s)
  | S n =>
      match s with
      | "" => None
      | String c r =>
          match take n r with
          | Some (a, b) => Some (String c a, b)
          | None => None
          end
      end
  end.

Definition load_str (s : string) : option (string * string) :=
  match read_ones s with
  | Some (n, r) => take n r
  | None => None
  end.

Fixpoint load_updates (n : nat) (s : string) : option (list PackageUpdate) :=
  match n with
  | O => if String.eqb s "" then Some [] else None
  | S n =>
      match load_str s with
      | Some (a, s1) =>
          match load_str s1 with
          | Some (b, s2) =>
              match load_str s2 with
              | Some (c, s3) =>
                  match load_updates n s3 with
                  | Some l => Some ((a, b, c) :: l)
                  | None => None
                  end
              | None => None
              end
          | None => None
          end
      | None => None
      end
  end.

Definition UnpicklingError : exn := Exn "UnpicklingError" false "invalid load key".

Definition loads (s : string) : exn + list PackageUpdate :=
  match read_ones s with
  | Some (n, r) =>
      match load_updates n r with
      | Some l => inr l
      | None => inl UnpicklingError
      end
  | None => inl UnpicklingError
  end.

(** The reference interpreter.  The reference runs use plain templates
    only, so that it is never asked to format one and refuses to.  It
    interpolates the values whose [%] are all of the form [%(name)s], for an
    option that exists, or [%%], in at most ten passes as [_interpolate]
    does, and refuses the others. *)
Definition NotImplementedError : exn := Exn "NotImplementedError" false "".

Definition no_str_format (t : string) (context : gmap string ctxval) : exn + string :=
  inl NotImplementedError.

(** The name up to the closing parenthesis, and what follows it. *)
Fixpoint until_paren (s : string) : option (string * string) :=
  match s with
  | "" => None
  | String ")" r => Some ("", r)
  | String c r =>
      match until_paren r with
      | Some (name, rest) => Some (String c name, rest)
      | None => None
      end
  end.

(** One pass of [value % vars]. *)
Fixpoint percent (fuel : nat) (value : string) (vars : gmap string string)
    : option string :=
  match fuel with
  | O => None
  | S fuel =>
      match value with
      | "" => Some ""
      | String "%" (String "%" r) => String "%"%char <$> percent fuel r vars
      | String "%" (String "(" r) =>
          match until_paren r with
          | Some (name, String "s" rest) =>
              if has_char "("%char name then None
              else match vars !! optionxform name with
                   | Some v => String.append v <$> percent fuel rest vars
                   | None => None
                   end
          | _ => None
          end
      | String "%" _ => None
      | String c r => String c <$> percent fuel r vars
      end
  end.

Fixpoint passes (depth : nat) (value : string) (vars : gmap string string)
    : option string :=
  if has_reference value then
    match depth with
    | O => None
    | S depth =>
        match percent (S (String.length value)) value vars with
        | Some value => passes depth value vars
        | None => None
        end
    end
  else Some value.

Definition some_interpolate (section option rawval : string) (vars : gmap string string)
    : exn + string :=
  match passes 10 rawval vars with
  | Some value => inr value
  | None => inl NotImplementedError
  end.

Definition foo : PackageUpdate := ("foo", "2.0", "1.0").
Definition bar : PackageUpdate := ("bar", "1.1", "1.0").

(** Root on [mail.example.org], APT reporting [changes], a relay that
    accepts every step. *)
Definition env (changes : list PackageUpdate) : Env :=
  {| hostname := "mail.example.org"; getuid := 0;
     apt_Cache := None; apt_update := None; apt_changes := inr changes;
     pickle_dump := dumps; pickle_load := loads;
     str_format := no_str_format; ConfigParser_interpolate := some_interpolate;
     SMTP := fun _ _ => None; starttls := None; login := fun _ _ => None;
     sendmail := None; quit := None |}.

(** The same, not as root. *)
Definition user_env (changes : list PackageUpdate) : Env :=
  {| hostname := "mail.example.org"; getuid := 1000;
     apt_Cache := None; apt_update := None; apt_changes := inr changes;
     pickle_dump := dumps; pickle_load := loads;
     str_format := no_str_format; ConfigParser_interpolate := some_interpolate;
     SMTP := fun _ _ => None; starttls := None; login := fun _ _ => None;
     sendmail := None; quit := None |}.

(** As root, with a relay that refuses the connection. *)
Definition dead_relay_env (changes : list PackageUpdate) : Env :=
  {| hostname := "mail.example.org"; getuid := 0;
     apt_Cache := None; apt_update := None; apt_changes := inr changes;
     pickle_dump := dumps; pickle_load := loads;
     str_format := no_str_format; ConfigParser_interpolate := some_interpolate;
     SMTP := fun _ _ => Some (Exn "error" false "[Errno 111] Connection refused");
     starttls := None; login := fun _ _ => None;
     sendmail := None; quit := None |}.

(** As root, with a relay that accepts mail but knows no STARTTLS. *)
Definition plain_relay_env (changes : list PackageUpdate) : Env :=
  {| hostname := "mail.example.org"; getuid := 0;
     apt_Cache := None; apt_update := None; apt_changes := inr changes;
     pickle_dump := dumps; pickle_load := loads;
     str_format := no_str_format; ConfigParser_interpolate := some_interpolate;
     SMTP := fun _ _ => None;
     starttls := Some (Exn "SMTPException" true
                         "STARTTLS extension not supported by server.");
     login := fun _ _ => None; sendmail := None; quit := None |}.

(** A command line: [--only-new], [--no-mail], [--section] and
    [--smtp-user], nothing else. *)
Definition command_line (new_only print_only : bool) (sec : string)
    (user : option string) : Args :=
  {| no_update := false; only_new := new_only; no_mail := print_only; force := false;
     section := sec; config_file := None;
     mail_from := None; mail_to := None; mail_subject := None;
     smtp_host := None; smtp_port := None; smtp_user := user;
     smtp_password := None; smtp_starttls := None |}.

(** No flag given on the command line. *)
Definition args : Args :=
  {| no_update := false; only_new := false; no_mail := false; force := false;
     section := "DEFAULT"; config_file := None;
     mail_from := None; mail_to := None; mail_subject := None;
     smtp_host := None; smtp_port := None; smtp_user := None;
     smtp_password := None; smtp_starttls := None |}.

(** A configuration file that turns only-new mode on. *)
Definition only_new_conf : parsed_file := [("DEFAULT", [("only-new", "yes")])].

(** A configuration file whose recipient is the sender. *)
Definition reply_conf : parsed_file := [("DEFAULT", [("mail-to", "%(mail-from)s")])].

(** A configuration file that names an SMTP account. *)
Definition account_conf : parsed_file :=
  [("DEFAULT", [("smtp-user", "bob"); ("smtp-password", "secret")])].

(** As root, with an index that cannot be refreshed. *)
Definition FetchFailed : exn := Exn "FetchFailedException" false "Could not resolve host".

Definition offline_env (changes : list PackageUpdate) : Env :=
  {| hostname := "mail.example.org"; getuid := 0;
     apt_Cache := None; apt_update := Some FetchFailed; apt_changes := inr changes;
     pickle_dump := dumps; pickle_load := loads;
     str_format := no_str_format; ConfigParser_interpolate := some_interpolate;
     SMTP := fun _ _ => None; starttls := None; login := fun _ _ => None;
     sendmail := None; quit := None |}.

(** As root, with a relay that hangs up once it has accepted the mail. *)
Definition Disconnected : exn :=
  Exn "SMTPServerDisconnected" true "Connection unexpectedly closed".

Definition hangup_env (changes : list PackageUpdate) : Env :=
  {| hostname := "mail.example.org"; getuid := 0;
     apt_Cache := None; apt_update := None; apt_changes := inr changes;
     pickle_dump := dumps; pickle_load := loads;
     str_format := no_str_format; ConfigParser_interpolate := some_interpolate;
     SMTP := fun _ _ => None; starttls := None; login := fun _ _ => None;
     sendmail := None; quit := Some Disconnected |}.

(** The mail that reports [foo] from [mail.example.org] at the defaults. *)
Definition foo_mail : message :=
  {| Subject := "[aptcron] mail: 1 APT updates";
     From := "root@mail.example.org"; To := "root@mail.example.org";
     X_AptCron := "yes"; X_AptCron_Host := "mail.example.org";
     payload := "1 available update(s):" +:+ nl +:+ "* foo: 2.0 -> 1.0" +:+ nl
                +:+ nl +:+ REMINDER |}.

(** A command line with [--config path] alone. *)
Definition config_line (path : string) : Args :=
  {| no_update := false; only_new := false; no_mail := false; force := false;
     section := "DEFAULT"; config_file := Some path;
     mail_from := None; mail_to := None; mail_subject := None;
     smtp_host := None; smtp_port := None; smtp_user := None;
     smtp_password := None; smtp_starttls := None |}.

(** Configuration files that skip the refresh, that spell the STARTTLS mode
    as a boolean, and that make STARTTLS optional. *)
Definition no_update_conf : parsed_file := [("DEFAULT", [("no-update", "yes")])].
Definition starttls_yes_conf : parsed_file := [("DEFAULT", [("smtp-starttls", "yes")])].
Definition starttls_true_conf : parsed_file := [("DEFAULT", [("smtp-starttls", "true")])].

(** The configuration files of a host: a system file and a local file that
    both name a recipient, two local drop-ins that each name a relay, and a
    system drop-in without section header. *)
Definition system_conf : parsed_file := [("DEFAULT", [("mail-to", "admin@example.org")])].
Definition local_conf : parsed_file := [("DEFAULT", [("mail-to", "me@example.org")])].
Definition relay_conf : parsed_file := [("DEFAULT", [("smtp-host", "relay.example.org")])].
Definition backup_conf : parsed_file := [("DEFAULT", [("smtp-host", "backup.example.org")])].

Definition MissingSectionHeaderError : exn :=
  Exn "MissingSectionHeaderError" false "File contains no section headers.".

Definition host_files : file_system := fun name =>
  if String.eqb name "/etc/aptcron.conf" then Some (inr system_conf)
  else if String.eqb name "aptcron.conf" then Some (inr local_conf)
  else if String.eqb name "aptcron.d/10-relay.conf" then Some (inr relay_conf)
  else if String.eqb name "aptcron.d/20-backup.conf" then Some (inr backup_conf)
  else if String.eqb name "/etc/aptcron.d/broken.conf"
    then Some (inl MissingSectionHeaderError)
  else None.

End Reference.

(** Configurations and worlds of the runs on which the statements are exercised. *)
Module Runs.
Import Reference.

(** The defaults alone, and the defaults with only-new mode turned on. *)
Definition plain (e : Env) : ConfigParser := read (builtin_defaults e) [].
Definition tracking (e : Env) : ConfigParser := read (builtin_defaults e) [only_new_conf].

(** A world in which a total of [n] pending updates has been counted. *)
Definition counted (e : Env) (f : cache_fs) (n : Z) : World :=
  set_context (<["num" := CInt n]> (context (initial_world e f))) (initial_world e f).

(** The defaults with an SMTP account, without the refresh, with the
    STARTTLS mode spelled as a boolean, and with STARTTLS optional. *)
Definition with_account (e : Env) : ConfigParser :=
  read (builtin_defaults e) [account_conf].
Definition without_refresh (e : Env) : ConfigParser :=
  read (builtin_defaults e) [no_update_conf].
Definition starttls_true (e : Env) : ConfigParser :=
  read (builtin_defaults e) [starttls_true_conf].
Definition starttls_yes (e : Env) : ConfigParser :=
  read (builtin_defaults e) [starttls_yes_conf].

(** The world after the guarded block of a run at the defaults, from empty
    buffers and without cache directory. *)
Definition after_report (e : Env) : World :=
  (report e (plain e) args (initial_world e NoDir)).1.

End Runs.

(** * Properties *)

(** ** Strings *)

Lemma append_cons (c : ascii) (a b : string) : String c a +:+ b = String c (a +:+ b).
Proof. reflexivity. Qed.

Lemma append_nil_l (b : string) : "" +:+ b = b.
Proof. reflexivity. Qed.

Lemma append_assoc (a b c : string) : (a +:+ b) +:+ c = a +:+ b +:+ c.
Proof.
  induction a as [|x a IH]; [done |].
  rewrite !append_cons. by rewrite IH.
Qed.

Lemma append_nil_r (a : string) : a +:+ "" = a.
Proof.
  induction a as [|x a IH]; [done |].
  rewrite append_cons. by rewrite IH.
Qed.

Lemma blank_append (a b : string) : blank (a +:+ b) = blank a && blank b.
Proof.
  induction a as [|x a IH]; [done |].
  rewrite append_cons. simpl. rewrite IH. by destruct (is_space x).
Qed.

Lemma lstrip_blank (s : string) : blank (lstrip s) = blank s.
Proof.
  induction s as [|c r IH]; simpl; [done |].
  destruct (is_space c) eqn:Hc; simpl; [done | by rewrite Hc].
Qed.

Lemma rstrip_empty (s : string) : rstrip s = "" <-> blank s = true.
Proof.
  induction s as [|c r IH]; simpl; [done |].
  destruct (rstrip r) eqn:Hr.
  - destruct IH as [IH _]. rewrite IH by done.
    destruct (is_space c); simpl; split; congruence.
  - destruct (blank r) eqn:Hb.
    + destruct IH as [_ IH]. discriminate IH. done.
    + rewrite andb_false_r. split; congruence.
Qed.

Lemma strip_empty (s : string) : strip s = "" <-> blank s = true.
Proof. unfold strip. by rewrite rstrip_empty, lstrip_blank. Qed.

Lemma strip_eqb (s : string) : String.eqb (strip s) "" = blank s.
Proof.
  destruct (blank s) eqn:Hb.
  - apply String.eqb_eq. by apply strip_empty.
  - apply String.eqb_neq. rewrite strip_empty. congruence.
Qed.

Lemma blank_describe (e : exn) : blank (describe e) = false.
Proof.
  unfold describe. rewrite !blank_append. simpl. by rewrite andb_false_r.
Qed.

(** ** The header templates *)

Lemma format_literal (t : string) (context : gmap string ctxval) :
  no_braces t = true -> format_plain t None context = Some (inr t).
Proof.
  induction t as [|c r IH]; [done |].
  simpl no_braces. intros [Hc Hr]%andb_true_iff. apply IH in Hr.
  destruct c as [[] [] [] [] [] [] [] []]; try discriminate Hc;
    simpl; rewrite Hr; reflexivity.
Qed.

Lemma format_num_in env (tail : string) (context : gmap string ctxval) (v : ctxval) :
  context !! "num" = Some v ->
  no_braces tail = true ->
  format env ("{num}" +:+ tail) context = inr (str v +:+ tail).
Proof.
  intros Hv Hc. unfold format.
  change (format_plain ("{num}" +:+ tail) None context)
    with (match context !! "num" with
          | None => Some (inl (KeyError "num"))
          | Some v =>
              match format_plain tail None context with
              | Some (inr s) => Some (inr (str v +:+ s))
              | other => other
              end
          end).
  by rewrite Hv, format_literal.
Qed.

Lemma format_num env (tail : string) (v : ctxval) :
  no_braces tail = true ->
  format env ("{num}" +:+ tail) {["num" := v]} = inr (str v +:+ tail).
Proof. apply format_num_in, lookup_singleton_eq. Qed.

(** ** The only-new filter *)

Lemma filter_new_nil_r (S : list PackageUpdate) : filter_new S [] = S.
Proof.
  unfold filter_new. induction S as [|p S IH]; [done |].
  rewrite filter_cons_True by set_solver. by rewrite IH.
Qed.

Lemma filter_new_self (S : list PackageUpdate) : filter_new S S = [].
Proof.
  unfold filter_new. destruct (filter _ S) as [|p l] eqn:Hf; [done |].
  assert (Hp : p ∈ filter (fun p => p ∉ S) S) by (rewrite Hf; left).
  apply list_elem_of_filter in Hp as [Hn Hp]. by destruct Hn.
Qed.

(** C6: [filter_new] is the difference of the current updates and the
    baseline: it keeps exactly the elements of [S] that are not in [B], so
    filtering a set against itself leaves nothing and filtering against the
    empty baseline leaves everything. *)
Theorem filter_new_is_difference (S B : list PackageUpdate) :
  (forall p, p ∈ filter_new S B <-> p ∈ S ∧ p ∉ B)
  ∧ filter_new S S = []
  ∧ filter_new S [] = S.
Proof.
  split; [| split].
  - intros p. unfold filter_new. rewrite list_elem_of_filter. tauto.
  - apply filter_new_self.
  - apply filter_new_nil_r.
Qed.

(** ** Outcomes of statements *)

(** The statements of the monad, unfolded together. *)
Ltac unfold_monad :=
  cbv beta iota zeta delta
    [bind ret raise sys_exit call call_ try_except try_except_class
     getvalue the_context context_get context_set smtp apt
     print print_stdout print_stderr
     path_exists_SEEN_CACHE path_exists_CACHE_DIR
     makedirs_CACHE_DIR remove_SEEN_CACHE load_SEEN_CACHE dump_SEEN_CACHE] in *.

Lemma bind_ok {A B} (m : M A) (k : A -> M B) w w1 a :
  m w = (w1, Ok a) -> bind m k w = k a w1.
Proof. intros H. unfold bind. by rewrite H. Qed.

Lemma bind_raise {A B} (m : M A) (k : A -> M B) w w1 e :
  m w = (w1, Raise e) -> bind m k w = (w1, Raise e).
Proof. intros H. unfold bind. by rewrite H. Qed.

Create HintDb outcome discriminated.

Lemma no_exit_ret {A} (a : A) : no_exit (ret a).
Proof. intros w w' c. unfold ret. congruence. Qed.

Lemma no_exit_raise {A} (e : exn) : no_exit (@raise A e).
Proof. intros w w' c. unfold raise. congruence. Qed.

Lemma no_exit_call {A} (r : exn + A) : no_exit (call r).
Proof. destruct r; [apply no_exit_raise | apply no_exit_ret]. Qed.

Lemma no_exit_bind {A B} (m : M A) (k : A -> M B) :
  no_exit m -> (forall a, no_exit (k a)) -> no_exit (bind m k).
Proof.
  intros Hm Hk w w' c. unfold bind.
  destruct (m w) as [w1 [a|e|c1]] eqn:Heq; [apply Hk | congruence |].
  by destruct (Hm w w1 c1).
Qed.

Lemma no_exit_try {A} (catches : exn -> bool) (m : M A) (h : exn -> M A) :
  no_exit m -> (forall e, no_exit (h e)) -> no_exit (try_except_class catches m h).
Proof.
  intros Hm Hh w w' c. unfold try_except_class.
  destruct (m w) as [w1 [a|e|c1]] eqn:Heq; [congruence | | by destruct (Hm w w1 c1)].
  destruct (catches e); [apply Hh | congruence].
Qed.

Lemma no_exit_getvalue : no_exit getvalue.
Proof. intros w w' c. unfold getvalue. congruence. Qed.

Lemma no_exit_the_context : no_exit the_context.
Proof. intros w w' c. unfold the_context. congruence. Qed.

Lemma no_exit_context_get key : no_exit (context_get key).
Proof. intros w w' c. unfold context_get. case_match; congruence. Qed.

Lemma no_exit_context_set key v : no_exit (context_set key v).
Proof. intros w w' c. unfold context_set. congruence. Qed.

Lemma no_exit_smtp c r : no_exit (smtp c r).
Proof. intros w w' x. unfold smtp, call_, raise, ret. case_match; congruence. Qed.

Lemma no_exit_apt {A} c (r : exn + A) : no_exit (apt c r).
Proof. intros w w' x. unfold apt. apply no_exit_call. Qed.

Lemma no_exit_print s : no_exit (print s).
Proof. intros w w' c. unfold print. congruence. Qed.

Lemma no_exit_exists_SEEN_CACHE : no_exit path_exists_SEEN_CACHE.
Proof. intros w w' c. unfold path_exists_SEEN_CACHE. congruence. Qed.

Lemma no_exit_exists_CACHE_DIR : no_exit path_exists_CACHE_DIR.
Proof. intros w w' c. unfold path_exists_CACHE_DIR. congruence. Qed.

Lemma no_exit_makedirs : no_exit makedirs_CACHE_DIR.
Proof. intros w w' c. unfold makedirs_CACHE_DIR. case_match; congruence. Qed.

Lemma no_exit_remove : no_exit remove_SEEN_CACHE.
Proof. intros w w' c. unfold remove_SEEN_CACHE. repeat case_match; congruence. Qed.

Lemma no_exit_load_SEEN_CACHE env : no_exit (load_SEEN_CACHE env).
Proof.
  intros w w' c. unfold load_SEEN_CACHE.
  repeat case_match; try congruence. apply no_exit_call.
Qed.

Lemma no_exit_dump env v : no_exit (dump_SEEN_CACHE env v).
Proof. intros w w' c. unfold dump_SEEN_CACHE. case_match; congruence. Qed.

#[global] Hint Resolve no_exit_ret no_exit_raise no_exit_call no_exit_getvalue
  no_exit_the_context no_exit_context_get no_exit_context_set no_exit_smtp
  no_exit_apt no_exit_print no_exit_exists_SEEN_CACHE no_exit_exists_CACHE_DIR
  no_exit_makedirs no_exit_remove no_exit_load_SEEN_CACHE no_exit_dump : outcome.

(** Splits a statement along its binds, handlers and branches. *)
Ltac no_exit_steps :=
  repeat first
    [ apply no_exit_bind; [| intros ?]
    | apply no_exit_try; [| intros ?]
    | solve [auto with outcome]
    | match goal with
      | |- no_exit (if ?b then _ else _) => destruct b
      | |- no_exit (match ?x with _ => _ end) => destruct x
      end ].

Lemma yields_ret {A} (P : A -> Prop) (a : A) : P a -> yields P (ret a).
Proof. intros H w w' b. unfold ret. congruence. Qed.

Lemma yields_bind {A B} (P : B -> Prop) (m : M A) (k : A -> M B) :
  (forall a, yields P (k a)) -> yields P (bind m k).
Proof.
  intros Hk w w' b. unfold bind.
  destruct (m w) as [w1 [a|e|c1]]; [apply Hk | congruence | congruence].
Qed.

Lemma yields_bind_elim {A B} (P : B -> Prop) (m : M A) (k : A -> M B) w w' b :
  (forall a, yields P (k a)) -> bind m k w = (w', Ok b) -> P b.
Proof. intros Hk H. by apply (yields_bind P m k Hk w w' b). Qed.

(** ** Dispatch *)

Lemma compose_blank env config args w :
  blank (sys_stdout w) = true -> compose_message env config args w = (w, Ok None).
Proof.
  intros Hb. unfold compose_message, bind at 1, getvalue. by rewrite strip_eqb, Hb.
Qed.

Lemma compose_not_blank env config args w w' :
  blank (sys_stdout w) = false -> compose_message env config args w ≠ (w', Ok None).
Proof.
  intros Hb H. unfold compose_message, bind at 1, getvalue in H. cbv beta iota in H.
  rewrite strip_eqb, Hb in H.
  apply (yields_bind_elim (fun r => r ≠ None)) in H; [done |].
  intros ?. repeat (apply yields_bind; intros ?). by apply yields_ret.
Qed.

Lemma no_exit_compose env config args : no_exit (compose_message env config args).
Proof. unfold compose_message. no_exit_steps. Qed.

Lemma no_exit_negotiate env config args : no_exit (negotiate env config args).
Proof. unfold negotiate. no_exit_steps. Qed.

Lemma no_exit_transmit env config args msg : no_exit (transmit env config args msg).
Proof. unfold transmit. no_exit_steps. Qed.

Lemma no_exit_deliver env config args code : no_exit (deliver env config args code).
Proof.
  unfold deliver. apply no_exit_bind; [apply no_exit_compose |].
  intros [msg|]; [| auto with outcome].
  apply no_exit_bind; [apply no_exit_negotiate | intros _].
  apply no_exit_bind; [apply no_exit_transmit | auto with outcome].
Qed.

Lemma deliver_yields env config args code :
  yields (fun r => r = None ∨ r = Some code) (deliver env config args code).
Proof.
  unfold deliver. apply yields_bind. intros [msg|].
  - repeat (apply yields_bind; intros ?). apply yields_ret. by right.
  - apply yields_ret. by left.
Qed.

Lemma deliver_not_blank env config args code w w' :
  blank (sys_stdout w) = false -> deliver env config args code w ≠ (w', Ok None).
Proof.
  intros Hb. unfold deliver, bind at 1.
  destruct (compose_message env config args w) as [w1 [[msg|]|e|c]] eqn:Hc; try congruence.
  - intros H. apply (yields_bind_elim (fun r => r ≠ None)) in H; [done |].
    intros ?. apply yields_bind. intros ?. by apply yields_ret.
  - by apply compose_not_blank in Hc.
Qed.

(** [deliver] returns early, falls through with the caller's code, or raises. *)
Lemma deliver_result env config args code w w' r :
  deliver env config args code w = (w', r) ->
  r = Ok None ∨ r = Ok (Some code) ∨ exists e, r = Raise e.
Proof.
  intros H. destruct r as [a|e|c].
  - destruct (deliver_yields _ _ _ _ _ _ _ H) as [-> | ->]; auto.
  - eauto.
  - by destruct (no_exit_deliver env config args code w w' c).
Qed.

(** [send_mail] without [--no-mail], by the outcome of [deliver]. *)
Lemma send_mail_by_mail env config args code w :
  no_mail args = false ->
  send_mail env config args code w =
    match deliver env config args code w with
    | (w1, Ok None) => (w1, Ok tt)
    | (w1, Raise e) => (set_stderr (stderr w1 +:+ describe e +:+ nl) w1, Exit 2)
    | (w1, _) => (w1, Exit code)
    end.
Proof.
  intros Hn. unfold send_mail. rewrite Hn. unfold bind at 1, try_except.
  destruct (deliver env config args code w) as [w1 r] eqn:Hd.
  destruct (deliver_result _ _ _ _ _ _ _ Hd) as [-> | [-> | [e ->]]]; reflexivity.
Qed.

(** [send_mail] with [--no-mail]: the stripped buffer goes to the real stdout. *)
Lemma send_mail_by_print env config args code w :
  no_mail args = true ->
  send_mail env config args code w =
    (set_stdout (stdout w +:+ strip (sys_stdout w) +:+ nl) w, Exit code).
Proof. intros Hn. unfold send_mail. by rewrite Hn. Qed.

(** [send_mail] never lets an exception escape: it returns or exits. *)
Lemma send_mail_no_raise env config args code w w' e :
  send_mail env config args code w ≠ (w', Raise e).
Proof.
  destruct (no_mail args) eqn:Hn.
  - rewrite send_mail_by_print by done. congruence.
  - rewrite send_mail_by_mail by done.
    destruct (deliver env config args code w) as [w1 [[c|]|e1|c]]; congruence.
Qed.

(** On a report that is not blank [send_mail] exits: with the caller's code,
    or with 2 when the delivery raised. *)
Lemma send_mail_exits env config args code w :
  blank (sys_stdout w) = false ->
  exists w' c, send_mail env config args code w = (w', Exit c)
    ∧ (c = code ∨ c = 2)
    ∧ (no_mail args = true -> c = code)
    ∧ (no_mail args = false ->
         (forall w1 e, deliver env config args code w = (w1, Raise e) -> c = 2)
         ∧ ((forall w1 e, deliver env config args code w ≠ (w1, Raise e)) -> c = code)).
Proof.
  intros Hb. destruct (no_mail args) eqn:Hn.
  - rewrite send_mail_by_print by done. eexists _, _.
    split; [reflexivity |]. split; [by left |]. split; [done | congruence].
  - rewrite send_mail_by_mail by done.
    destruct (deliver env config args code w) as [w1 r] eqn:Hd.
    destruct (deliver_result _ _ _ _ _ _ _ Hd) as [-> | [-> | [e ->]]].
    + by apply deliver_not_blank in Hd.
    + eexists _, _. split; [reflexivity |]. split; [by left |]. split; [done |].
      intros _. split; [congruence | done].
    + eexists _, _. split; [reflexivity |]. split; [by right |]. split; [done |].
      intros _. split; [done |]. intros H. by destruct (H w1 e).
Qed.

(** ** The report *)

Lemma set_sys_stdout_same w : set_sys_stdout (sys_stdout w) w = w.
Proof. by destruct w. Qed.

Lemma print_updates_run (l : list PackageUpdate) w :
  print_updates l w = (set_sys_stdout (sys_stdout w +:+ update_lines l) w, Ok tt).
Proof.
  revert w. induction l as [|p l IH]; intros w; simpl.
  - by rewrite append_nil_r, set_sys_stdout_same.
  - unfold bind, print. rewrite IH. simpl.
    by rewrite !append_assoc.
Qed.

Lemma format_header_plain env (v : ctxval) :
  format env "{num} available update(s):" {["num" := v]}
  = inr (str v +:+ " available update(s):").
Proof.
  by apply (format_num env " available update(s):").
Qed.

Lemma format_header_new env (v : ctxval) :
  format env "{num} available update(s), new since the last mail:" {["num" := v]}
  = inr (str v +:+ " available update(s), new since the last mail:").
Proof.
  by apply (format_num env " available update(s), new since the last mail:").
Qed.

Lemma load_run env config args pk w only seen :
  getboolean config (section args) "only-new" = inr only ->
  baseline env only (fs w) = inr seen ->
  load env config args pk w = (w, Ok (seen, filter_new pk seen)).
Proof.
  intros Ho Hb. unfold load, baseline in *. rewrite Ho. unfold_monad.
  unfold exists_SEEN_CACHE.
  destruct only; destruct (fs w) as [|[content|]] eqn:Hf; simplify_eq;
    cbv beta iota; rewrite ?Hf, ?filter_new_nil_r; try done.
  by rewrite Hb.
Qed.

Lemma print_header_run env config args seen updates w only forced num :
  getboolean config (section args) "only-new" = inr only ->
  getboolean config (section args) "force" = inr forced ->
  context w !! "num" = Some (CInt num) ->
  print_header env config args seen updates w =
    (set_sys_stdout
       (sys_stdout w +:+
          match updates with
          | [] => if forced then "No packages found." +:+ nl else ""
          | _ :: _ =>
              (if (only && negb (bool_decide (seen = [])))%bool
               then pretty num +:+ " available update(s), new since the last mail:"
               else pretty num +:+ " available update(s):") +:+ nl
          end) w, Ok tt).
Proof.
  intros Ho Hf Hn. unfold print_header. destruct updates as [|p l].
  - rewrite Hf. unfold_monad. destruct forced; [done |].
    by rewrite append_nil_r, set_sys_stdout_same.
  - rewrite Ho. unfold_monad.
    destruct (only && negb (bool_decide (seen = [])))%bool; rewrite Hn.
    + rewrite format_header_new. by rewrite !append_assoc.
    + rewrite format_header_plain. by rewrite !append_assoc.
Qed.

Lemma commit_run env config args seen updates w num :
  getboolean config (section args) "only-new" = inr true ->
  context w !! "num" = Some (CInt num) ->
  commit env config args seen updates w =
    (set_fs (committed env num seen updates (fs w)) w, Ok tt).
Proof.
  intros Ho Hn. unfold commit, committed. rewrite Ho.
  destruct w as [so o e ctx f sc ac]. simpl in Hn.
  unfold_monad. unfold exists_CACHE_DIR, exists_SEEN_CACHE.
  destruct f as [|[content|]]; simpl; rewrite Hn; simpl;
    destruct (num =? 0); reflexivity.
Qed.

Lemma commit_skipped env config args seen updates w :
  getboolean config (section args) "only-new" = inr false ->
  commit env config args seen updates w = (w, Ok tt).
Proof. intros Ho. unfold commit. rewrite Ho. by unfold_monad. Qed.

Lemma print_trailer_run updates w :
  print_trailer updates w =
    (set_sys_stdout
       (sys_stdout w +:+
          match updates with [] => "" | _ :: _ => nl +:+ REMINDER +:+ nl end) w, Ok tt).
Proof.
  destruct updates; simpl.
  - by rewrite append_nil_r, set_sys_stdout_same.
  - unfold print. by rewrite !append_assoc.
Qed.

Lemma apt_ok {A} c (a : A) w :
  apt c (inr a) w = (set_apt_calls (apt_calls w ++ [c]) w, Ok a).
Proof. reflexivity. Qed.

Lemma report_run env config args w skip only forced pk seen :
  apt_Cache env = None ->
  getboolean config (section args) "no-update" = inr skip ->
  (skip = false -> apt_update env = None) ->
  apt_changes env = inr pk ->
  getboolean config (section args) "only-new" = inr only ->
  getboolean config (section args) "force" = inr forced ->
  baseline env only (fs w) = inr seen ->
  report env config args w = (reported env skip only forced pk seen w, Ok tt).
Proof.
  intros Hc Hs Hu Hp Ho Hf Hb. unfold report. rewrite Hc, Hs, Hp.
  rewrite (bind_ok _ _ _ _ _ (apt_ok _ _ _)).
  rewrite (bind_ok (call (inr skip)) _ _ _ skip eq_refl).
  set (w1 := set_apt_calls _ w).
  set (w2 := if skip then w1 else set_apt_calls (apt_calls w1 ++ [CallUpdate]) w1).
  assert (Hupd : (if negb skip
            then apt CallUpdate match apt_update env with
                                | Some e => inl e
                                | None => inr ()
                                end
            else ret ()) w1 = (w2, Ok tt)).
  { subst w2. destruct skip; [done |]. simpl. by rewrite Hu. }
  rewrite (bind_ok _ _ _ _ _ Hupd). clear Hupd.
  rewrite (bind_ok _ _ _ _ _ (apt_ok _ _ _)).
  set (w3 := set_apt_calls _ w2).
  rewrite (bind_ok (context_set _ _) _ w3 _ tt eq_refl).
  set (w4 := set_context _ w3).
  assert (Hb4 : baseline env only (fs w4) = inr seen).
  { subst w4 w3 w2 w1. by destruct skip. }
  rewrite (bind_ok _ _ _ _ _ (load_run env config args pk w4 only seen Ho Hb4)).
  cbn [fst snd].
  assert (Hn : context w4 !! "num" = Some (CInt (Z.of_nat (length pk)))).
  { subst w4. apply lookup_insert_eq. }
  rewrite (bind_ok _ _ _ _ _ (print_header_run _ _ _ _ _ _ _ _ _ Ho Hf Hn)).
  rewrite (bind_ok _ _ _ _ _ (print_updates_run _ _)).
  set (w6 := set_sys_stdout _ (set_sys_stdout _ w4)).
  assert (Hcm : commit env config args seen (filter_new pk seen) w6 =
    (set_fs (if only
             then committed env (Z.of_nat (length pk)) seen (filter_new pk seen) (fs w6)
             else fs w6) w6, Ok tt)).
  { destruct only.
    - by apply commit_run.
    - rewrite commit_skipped by done. by destruct w6. }
  rewrite (bind_ok _ _ _ _ _ Hcm). rewrite print_trailer_run.
  f_equal. subst w6 w4 w3 w2 w1. unfold reported, report_text.
  destruct w as [so o e ctx f sc ac].
  destruct skip, (filter_new pk seen) as [|p l]; cbn -[committed update_lines];
    rewrite ?append_assoc, ?append_nil_r, <-?(assoc_L (++)); reflexivity.
Qed.

Lemma bind_ok_inv {A B} (m : M A) (k : A -> M B) w w' b :
  bind m k w = (w', Ok b) -> exists w1 a, m w = (w1, Ok a) ∧ k a w1 = (w', Ok b).
Proof.
  unfold bind. destruct (m w) as [w1 [a|e|c]]; [eauto | congruence | congruence].
Qed.

Lemma bind_call_inv {A B} (r : exn + A) (k : A -> M B) w w' b :
  bind (call r) k w = (w', Ok b) -> exists a, r = inr a ∧ k a w = (w', Ok b).
Proof. destruct r as [e|a]; unfold bind, call, raise, ret; [congruence | eauto]. Qed.


(** ** The report and the seen-cache *)

(** C3: the report printed by a run follows the four-way header rule of the
    specification, the prior baseline counting when it holds an update: with
    updates left to report, only-new enabled and a non-empty prior baseline
    the header reads
    "{num} available update(s), new since the last mail:"; with updates
    otherwise "{num} available update(s):"; without updates but force enabled
    "No packages found."; otherwise nothing is printed.  Every update is one
    line "* name: new -> old", and after a non-empty list come a blank line
    and the reminder. *)
Theorem report_follows_header_rule env config args w skip only forced pk seen :
  apt_Cache env = None ->
  getboolean config (section args) "no-update" = inr skip ->
  (skip = false -> apt_update env = None) ->
  apt_changes env = inr pk ->
  getboolean config (section args) "only-new" = inr only ->
  getboolean config (section args) "force" = inr forced ->
  baseline env only (fs w) = inr seen ->
  let updates := filter_new pk seen in
  let num := pretty (Z.of_nat (length pk)) in
  exists w' text,
    report env config args w = (w', Ok tt)
    ∧ sys_stdout w' = sys_stdout w +:+ text
    ∧ text = report_text only forced (negb (bool_decide (seen = [])))
               (Z.of_nat (length pk)) updates
    ∧ (updates ≠ [] -> only = true -> seen ≠ [] ->
         text = num +:+ " available update(s), new since the last mail:" +:+ nl
                +:+ update_lines updates +:+ nl
                +:+ "Please update all packages at your earliest convenience." +:+ nl)
    ∧ (updates ≠ [] -> only = false ∨ seen = [] ->
         text = num +:+ " available update(s):" +:+ nl
                +:+ update_lines updates +:+ nl
                +:+ "Please update all packages at your earliest convenience." +:+ nl)
    ∧ (updates = [] -> forced = true -> text = "No packages found." +:+ nl)
    ∧ (updates = [] -> forced = false -> text = "")
    ∧ (forall name new old rest,
         update_lines ((name, new, old) :: rest) =
           "* " +:+ name +:+ ": " +:+ new +:+ " -> " +:+ old +:+ nl
           +:+ update_lines rest).
Proof.
  intros Hc Hs Hu Hp Ho Hf Hb updates num.
  eexists _, _. split; [by eapply report_run |].
  split; [reflexivity |]. split; [reflexivity |].
  unfold report_text, REMINDER. fold updates. fold num.
  repeat split.
  - intros Hne -> Hse. destruct updates; [done |].
    rewrite bool_decide_eq_false_2 by done. simpl. by rewrite !append_assoc.
  - intros Hne Hcase. destruct updates; [done |].
    destruct Hcase as [-> | ->]; simpl; rewrite ?andb_false_r, ?append_assoc; done.
  - intros -> ->. done.
  - intros -> ->. done.
  - intros name new old rest. simpl. unfold update_line. simpl.
    by rewrite !append_assoc.
Qed.


(** C10: in only-new mode, a run that finds no pending update at all and no
    baseline file creates the cache directory and writes a baseline file
    holding the empty sequence; the store does not stay without baseline. *)
Theorem empty_run_creates_empty_baseline env config args w skip forced :
  apt_Cache env = None ->
  getboolean config (section args) "no-update" = inr skip ->
  (skip = false -> apt_update env = None) ->
  apt_changes env = inr [] ->
  getboolean config (section args) "only-new" = inr true ->
  getboolean config (section args) "force" = inr forced ->
  exists_SEEN_CACHE (fs w) = false ->
  exists w',
    report env config args w = (w', Ok tt)
    ∧ fs w' = Dir (Some (pickle_dump env []))
    ∧ exists_CACHE_DIR (fs w') = true
    ∧ exists_SEEN_CACHE (fs w') = true.
Proof.
  intros Hc Hs Hu Hp Ho Hf He.
  assert (Hb : baseline env true (fs w) = inr []).
  { unfold baseline. by destruct (fs w) as [|[c|]]. }
  eexists. split; [by eapply report_run |].
  unfold reported, committed. cbn [fs]. rewrite He. done.
Qed.

(** C4: commit in only-new mode.  When no update at all is pending and a
    baseline file exists, the file is deleted and the next load finds an
    empty baseline; in every other case the file is rewritten with the
    baseline followed by the reported updates, nothing being dropped. *)
Theorem commit_resets_or_rewrites env config args seen updates w total :
  getboolean config (section args) "only-new" = inr true ->
  context w !! "num" = Some (CInt total) ->
  exists w',
    commit env config args seen updates w = (w', Ok tt)
    ∧ (total = 0 -> exists_SEEN_CACHE (fs w) = true ->
         fs w' = Dir None
         ∧ exists_SEEN_CACHE (fs w') = false
         ∧ forall pk, load env config args pk w' = (w', Ok ([], pk)))
    ∧ (total ≠ 0 ∨ exists_SEEN_CACHE (fs w) = false ->
         fs w' = Dir (Some (pickle_dump env (seen ++ updates)))
         ∧ length (seen ++ updates) = (length seen + length updates)%nat).
Proof.
  intros Ho Hn. eexists. split; [by apply commit_run |].
  unfold committed. cbn [fs]. split.
  - intros -> ->. split; [done |]. split; [done |]. intros pk.
    erewrite load_run; [| done | reflexivity]. by rewrite filter_new_nil_r.
  - intros Hcase. split; [| apply length_app].
    destruct Hcase as [Hz | ->]; [| by rewrite andb_false_r].
    apply Z.eqb_neq in Hz. by rewrite Hz.
Qed.

(** X28: accumulation in the seen-cache.  With a [pickle] that gives back
    what it was given, commit on a run with pending updates followed by load
    returns exactly the baseline followed by the new updates, which holds
    every element of the old baseline and of the current updates. *)
Theorem commit_then_load_accumulates env config args B S w total :
  pickle_roundtrip env ->
  getboolean config (section args) "only-new" = inr true ->
  context w !! "num" = Some (CInt total) ->
  total > 0 ->
  exists w',
    commit env config args B (filter_new S B) w = (w', Ok tt)
    ∧ forall pk, exists loaded,
        load env config args pk w' = (w', Ok (loaded, filter_new pk loaded))
        ∧ loaded = (B ++ filter_new S B)%list
        ∧ (forall p, p ∈ B ∨ p ∈ S -> p ∈ loaded).
Proof.
  intros Hrt Ho Hn Ht. eexists. split; [by apply commit_run |].
  intros pk. exists (B ++ filter_new S B)%list.
  assert (Hz : (total =? 0) = false) by (apply Z.eqb_neq; lia).
  split; [| split; [done |]].
  - apply (load_run _ _ _ _ _ true); [done |]. unfold committed. cbn [fs set_fs].
    rewrite Hz. cbn [andb baseline]. apply Hrt.
  - intros p Hp. apply elem_of_app.
    destruct (decide (p ∈ B)) as [|Hnb]; [by left | right].
    destruct Hp as [|Hp]; [done |]. unfold filter_new.
    by apply list_elem_of_filter.
Qed.

(** ** The run as a whole *)

Lemma bind_exit {A B} (m : M A) (k : A -> M B) w w1 c :
  m w = (w1, Exit c) -> bind m k w = (w1, Exit c).
Proof. intros H. unfold bind. by rewrite H. Qed.

Lemma no_exit_load env config args pk : no_exit (load env config args pk).
Proof. unfold load. no_exit_steps. Qed.

Lemma no_exit_print_header env config args seen updates :
  no_exit (print_header env config args seen updates).
Proof. unfold print_header. no_exit_steps. Qed.

Lemma no_exit_print_updates updates : no_exit (print_updates updates).
Proof. intros w w' c. rewrite print_updates_run. congruence. Qed.

Lemma no_exit_commit env config args seen updates :
  no_exit (commit env config args seen updates).
Proof. unfold commit. no_exit_steps. Qed.

Lemma no_exit_print_trailer updates : no_exit (print_trailer updates).
Proof. intros w w' c. rewrite print_trailer_run. congruence. Qed.

(** The guarded block itself never exits: only [send_mail] does. *)
Lemma no_exit_report env config args : no_exit (report env config args).
Proof.
  unfold report.
  repeat first
    [ apply no_exit_bind; [| intros ?]
    | apply no_exit_load | apply no_exit_print_header | apply no_exit_print_updates
    | apply no_exit_commit | apply no_exit_print_trailer
    | solve [auto with outcome]
    | match goal with
      | |- no_exit (if ?b then _ else _) => destruct b
      end ].
Qed.

(** As root, after a report that printed without raising. *)
Lemma main_reported env config args w w' :
  getuid env = 0 ->
  report env config args w = (w', Ok tt) ->
  main env config args w = send_mail env config args 0 w'.
Proof.
  intros Hu Hr. unfold main. rewrite Hu. cbn [Z.eqb negb].
  rewrite (bind_ok (ret tt) _ w w tt eq_refl).
  unfold try_except. rewrite (bind_ok _ _ _ _ _ Hr).
  destruct (send_mail env config args 0 w') as [w1 [[]|e|c]] eqn:Hs; try done.
  by apply send_mail_no_raise in Hs.
Qed.

(** As root, after a statement of the guarded block raised. *)
Lemma main_raised env config args w w' e :
  getuid env = 0 ->
  report env config args w = (w', Raise e) ->
  main env config args w =
    send_mail env config args 1 (set_sys_stdout (sys_stdout w' +:+ describe e +:+ nl) w').
Proof.
  intros Hu Hr. unfold main. rewrite Hu. cbn [Z.eqb negb].
  rewrite (bind_ok (ret tt) _ w w tt eq_refl).
  unfold try_except. rewrite (bind_raise _ _ _ _ _ Hr).
  by rewrite (bind_ok (print (describe e)) _ w' _ tt eq_refl).
Qed.

(** Not as root: the notice is dispatched and the guarded block never starts. *)
Lemma main_not_root env config args w :
  getuid env ≠ 0 ->
  main env config args w =
    send_mail env config args 1 (set_sys_stdout (sys_stdout w +:+ ROOT_REQUIRED +:+ nl) w).
Proof.
  intros Hu. unfold main. apply Z.eqb_neq in Hu. rewrite Hu. cbn [negb].
  set (w1 := set_sys_stdout _ w).
  destruct (send_mail_exits env config args 1 w1) as (w2 & c & Hs & _).
  { subst w1. cbn [sys_stdout set_sys_stdout]. rewrite !blank_append.
    by rewrite andb_false_r. }
  assert (Hp : (print ROOT_REQUIRED ;; send_mail env config args 1) w = (w2, Exit c)).
  { by rewrite (bind_ok (print ROOT_REQUIRED) _ w w1 tt eq_refl). }
  by rewrite (bind_exit _ _ _ _ _ Hp).
Qed.

(** ** STARTTLS *)

(** A composed message left the world as it was, but for the connection. *)
Lemma compose_calls env config args w w1 msg :
  compose_message env config args w = (w1, Ok (Some msg)) ->
  exists host port, w1 = set_smtp_calls (smtp_calls w ++ [CallSMTP host port]) w.
Proof.
  unfold compose_message. intros H.
  apply bind_ok_inv in H as (w2 & captured & Hg & H).
  unfold getvalue in Hg. injection Hg as <- <-.
  destruct (String.eqb _ _); [unfold ret in H; congruence |].
  apply bind_ok_inv in H as (w2 & ctx & Hg & H).
  unfold the_context in Hg. injection Hg as <- <-.
  do 6 apply bind_call_inv in H as (? & _ & H).
  apply bind_ok_inv in H as (w2 & ? & Hg & H).
  unfold context_get in Hg. destruct (context w !! "host"); [| congruence].
  injection Hg as <- <-.
  apply bind_call_inv in H as (host & _ & H).
  apply bind_call_inv in H as (port & _ & H).
  apply bind_ok_inv in H as (w2 & ? & Hg & H).
  unfold ret in H. injection H as <- _. exists host, port.
  unfold smtp, call_ in Hg. destruct (SMTP env host port); unfold raise, ret in Hg;
    congruence.
Qed.

(** ** Policy resolution *)

Lemma read_block_default config blk :
  sections config !! DEFAULTSECT = None ->
  sections (read_block config blk) !! DEFAULTSECT = None.
Proof.
  intros H. unfold read_block. destruct (String.eqb blk.1 DEFAULTSECT) eqn:Hb; [done |].
  apply String.eqb_neq in Hb. cbn [sections]. by rewrite lookup_insert_ne.
Qed.

Lemma read_default env files :
  sections (read (builtin_defaults env) files) !! DEFAULTSECT = None.
Proof.
  unfold read.
  assert (H : sections (builtin_defaults env) !! DEFAULTSECT = None) by done.
  revert H. generalize (builtin_defaults env).
  induction files as [|f files IH]; intros c Hc; [done |].
  simpl. apply IH. clear IH. revert c Hc.
  induction f as [|blk f IH]; intros c Hc; [done |].
  simpl. apply IH. by apply read_block_default.
Qed.

(** A stored value without reference is what [config.get] returns. *)
Lemma get_plain config section option v :
  get_raw config section option = inr v -> has_reference v = false ->
  get config section option = inr v.
Proof. intros Hr Hv. unfold get. by rewrite Hr, Hv. Qed.

(** One guarded [config.set] on a section that can be written. *)
Lemma set_if_spec flag args opt v config :
  optionxform opt = opt ->
  selectable config (section args) ->
  exists config',
    (forall w, set_if flag args opt v config w = (w, Ok config'))
    ∧ selectable config' (section args)
    ∧ (flag = false -> config' = config)
    ∧ forall name, get_raw config' (section args) name =
        if (flag && String.eqb (optionxform name) opt)%bool then inr v
        else get_raw config (section args) name.
Proof.
  intros Hopt [Hd Hsel]. unfold set_if.
  destruct flag; [| exists config; by repeat split].
  unfold set. rewrite Hopt. cbv zeta. destruct Hsel as [Hs | [Hne [d Hs]]].
  - rewrite Hs. cbn [String.eqb orb]. rewrite String.eqb_refl, orb_true_r.
    eexists. split; [done |]. split; [split; [done | by left] |].
    split; [done |]. intros name. unfold get_raw. cbn [sections defaults].
    rewrite Hd, String.eqb_refl. cbn [andb].
    destruct (String.eqb_spec (optionxform name) opt) as [-> | Hn].
    + by rewrite lookup_insert_eq.
    + by rewrite lookup_insert_ne.
  - assert (Hnd : section args ≠ DEFAULTSECT) by (intros Heq; congruence).
    apply String.eqb_neq in Hne, Hnd. rewrite Hne, Hnd, Hs. cbn [orb].
    apply String.eqb_neq in Hne, Hnd.
    eexists. split; [done |]. split.
    { split; cbn [sections]; [by rewrite lookup_insert_ne |].
      right. split; [done |]. rewrite lookup_insert_eq. by eexists. }
    split; [done |]. intros name. unfold get_raw. cbn [sections defaults andb].
    rewrite lookup_insert_eq, Hs.
    destruct (String.eqb_spec (optionxform name) opt) as [-> | Hn].
    + by rewrite lookup_insert_eq.
    + by rewrite lookup_insert_ne.
Qed.

Ltac option_cases name :=
  repeat match goal with
  | |- context [String.eqb name ?k] =>
      destruct (String.eqb_spec name k) as [-> | ?];
        [ cbn [String.eqb Ascii.eqb Bool.eqb andb]; rewrite ?andb_true_r, ?andb_false_r
        | cbn [andb]; rewrite ?andb_false_r ]
  end.

(** From "nothing is supplied": the guard of the option [k] is off. *)
Ltac flag_off Hnone k :=
  let Hk := fresh "Hk" in
  pose proof (Hnone k) as Hk; revert Hk; unfold supplied;
  cbn [String.eqb Ascii.eqb Bool.eqb];
  match goal with
  | |- context [if ?f then _ else _] => destruct f eqn:?; [| done]
  end;
  try done; try (intros Hk; rewrite Hk in *; done).

(** C8: precedence of policy resolution.  On the configuration merged from
    the built-in defaults and the files, the value stored for every option
    that the command line supplies (a flag that is set, a non-empty string, a
    non-zero port) is the supplied one, and [config.get] returns it as it is
    unless it holds a [%(] reference; the value stored for every other option
    is the merged one; and a command line that supplies nothing leaves the
    merged configuration as it is. *)
Theorem cli_overrides_precedence env args files :
  let merged := read (builtin_defaults env) files in
  section args = DEFAULTSECT
    ∨ (section args ≠ "" ∧ is_Some (sections merged !! section args)) ->
  exists config,
    (forall w, cli_overrides args merged w = (w, Ok config))
    ∧ (forall name, get_raw config (section args) name =
         match supplied args (optionxform name) with
         | Some v => inr v
         | None => get_raw merged (section args) name
         end)
    ∧ (forall name v, supplied args (optionxform name) = Some v ->
         has_reference v = false -> get config (section args) name = inr v)
    ∧ ((forall name, supplied args name = None) -> config = merged).
Proof.
  intros merged Hsec.
  assert (Hsel : selectable merged (section args)).
  { split; [apply read_default | done]. }
  clearbody merged. clear Hsec.
  destruct (set_if_spec (no_update args) args "no-update" "yes" merged eq_refl Hsel)
    as (c1 & R1 & S1 & E1 & G1).
  destruct (set_if_spec (only_new args) args "only-new" "yes" c1 eq_refl S1)
    as (c2 & R2 & S2 & E2 & G2).
  destruct (set_if_spec (force args) args "force" "yes" c2 eq_refl S2)
    as (c3 & R3 & S3 & E3 & G3).
  destruct (set_if_spec (no_mail args) args "no-mail" "yes" c3 eq_refl S3)
    as (c4 & R4 & S4 & E4 & G4).
  destruct (set_if_spec (truthy (mail_from args)) args "mail-from"
              (default "" (mail_from args)) c4 eq_refl S4) as (c5 & R5 & S5 & E5 & G5).
  destruct (set_if_spec (truthy (mail_to args)) args "mail-to"
              (default "" (mail_to args)) c5 eq_refl S5) as (c6 & R6 & S6 & E6 & G6).
  destruct (set_if_spec (truthy (mail_subject args)) args "mail-subject"
              (default "" (mail_subject args)) c6 eq_refl S6) as (c7 & R7 & S7 & E7 & G7).
  destruct (set_if_spec (truthy (smtp_host args)) args "smtp-host"
              (default "" (smtp_host args)) c7 eq_refl S7) as (c8 & R8 & S8 & E8 & G8).
  destruct (set_if_spec (truthy_int (smtp_port args)) args "smtp-port"
              (pretty (default 0 (smtp_port args))) c8 eq_refl S8) as (c9 & R9 & S9 & E9 & G9).
  destruct (set_if_spec (truthy (smtp_user args)) args "smtp-user"
              (default "" (smtp_user args)) c9 eq_refl S9) as (c10 & R10 & S10 & E10 & G10).
  destruct (set_if_spec (truthy (smtp_password args)) args "smtp-password"
              (default "" (smtp_password args)) c10 eq_refl S10)
    as (c11 & R11 & S11 & E11 & G11).
  destruct (set_if_spec (truthy (smtp_starttls args)) args "smtp-starttls"
              (default "" (smtp_starttls args)) c11 eq_refl S11)
    as (c12 & R12 & S12 & E12 & G12).
  assert (Hraw : forall name, get_raw c12 (section args) name =
            match supplied args (optionxform name) with
            | Some v => inr v
            | None => get_raw merged (section args) name
            end).
  { intros name. rewrite G12, G11, G10, G9, G8, G7, G6, G5, G4, G3, G2, G1.
    generalize (get_raw merged (section args) name).
    generalize (optionxform name). clear. intros key stored.
    unfold supplied. option_cases key.
    all: try match goal with
         | |- context [truthy ?o] => destruct o as [s|]; cbn [truthy default negb];
             try destruct (String.eqb s ""); cbn [negb]
         | |- context [truthy_int ?o] => destruct o as [port|];
             cbn [truthy_int default negb fmap option_fmap option_map];
             [destruct (port =? 0) |]; cbn [negb]
         | |- context [if ?f then _ else _] => destruct f
         end; try reflexivity. }
  exists c12. split; [| split; [exact Hraw | split]].
  - intros w. unfold cli_overrides.
    rewrite (bind_ok _ _ _ _ _ (R1 w)), (bind_ok _ _ _ _ _ (R2 w)),
      (bind_ok _ _ _ _ _ (R3 w)), (bind_ok _ _ _ _ _ (R4 w)),
      (bind_ok _ _ _ _ _ (R5 w)), (bind_ok _ _ _ _ _ (R6 w)),
      (bind_ok _ _ _ _ _ (R7 w)), (bind_ok _ _ _ _ _ (R8 w)),
      (bind_ok _ _ _ _ _ (R9 w)), (bind_ok _ _ _ _ _ (R10 w)),
      (bind_ok _ _ _ _ _ (R11 w)). apply R12.
  - intros name v Hsup Href. apply get_plain; [| done].
    by rewrite Hraw, Hsup.
  - intros Hnone.
    rewrite E12, E11, E10, E9, E8, E7, E6, E5, E4, E3, E2, E1; first [done | idtac].
    + flag_off Hnone "no-update".
    + flag_off Hnone "only-new".
    + flag_off Hnone "force".
    + flag_off Hnone "no-mail".
    + flag_off Hnone "mail-from".
    + flag_off Hnone "mail-to".
    + flag_off Hnone "mail-subject".
    + flag_off Hnone "smtp-host".
    + flag_off Hnone "smtp-port". by destruct (smtp_port args).
    + flag_off Hnone "smtp-user".
    + flag_off Hnone "smtp-password".
    + flag_off Hnone "smtp-starttls".
Qed.

(** ** What a stage leaves alone *)

Lemma preserves_bind {A B X} (f : World -> X) (m : M A) (k : A -> M B) :
  preserves f m -> (forall a, preserves f (k a)) -> preserves f (bind m k).
Proof.
  intros Hm Hk w. unfold bind. specialize (Hm w).
  destruct (m w) as [w1 [a|e|c]]; cbn [fst] in *; [| done | done].
  by rewrite Hk.
Qed.

Lemma preserves_try {A X} (f : World -> X) (catches : exn -> bool) (m : M A)
    (h : exn -> M A) :
  preserves f m -> (forall e, preserves f (h e)) ->
  preserves f (try_except_class catches m h).
Proof.
  intros Hm Hh w. unfold try_except_class. specialize (Hm w).
  destruct (m w) as [w1 [a|e|c]]; cbn [fst] in *; [done | | done].
  destruct (catches e); [| done]. by rewrite Hh.
Qed.

Lemma preserves_print_updates {X} (f : World -> X) updates :
  (forall s w, f (set_sys_stdout s w) = f w) -> preserves f (print_updates updates).
Proof. intros Hf w. rewrite print_updates_run. apply Hf. Qed.

(** Projections of updated worlds, computed. *)
Ltac world_simpl :=
  cbn [sys_stdout stdout stderr context fs smtp_calls apt_calls
       set_sys_stdout set_stdout set_stderr set_context set_fs
       set_smtp_calls set_apt_calls fst snd] in *.

(** A primitive statement, by computation. *)
Ltac preserves_leaf :=
  let w := fresh "w" in
  intros w; unfold_monad; repeat case_match; first [reflexivity | assumption].

(** Splits a statement along its binds, handlers and branches; [known]
    closes the statements that have a lemma of their own. *)
Ltac preserves_with known :=
  repeat first
    [ known
    | apply preserves_bind; [| intros ?]
    | apply preserves_try; [| intros ?]
    | match goal with
      | |- preserves _ (if ?b then _ else _) => destruct b
      | |- preserves _ (match ?x with _ => _ end) => destruct x
      end
    | solve [preserves_leaf] ].

Ltac preserves_steps := preserves_with fail.


Lemma report_keeps_stdout env config args : preserves stdout (report env config args).
Proof.
  unfold report, print_header, print_trailer.
  preserves_with ltac:(apply preserves_print_updates; reflexivity).
Qed.

Lemma report_keeps_stderr env config args : preserves stderr (report env config args).
Proof.
  unfold report, print_header, print_trailer.
  preserves_with ltac:(apply preserves_print_updates; reflexivity).
Qed.

Lemma report_keeps_smtp_calls env config args :
  preserves smtp_calls (report env config args).
Proof.
  unfold report, print_header, print_trailer.
  preserves_with ltac:(apply preserves_print_updates; reflexivity).
Qed.

(** X1: the guarded block only ever prints into the capture buffer: whatever
    it does and however it ends, the real standard output and error are
    untouched and no call is made on an SMTP session. *)
Theorem report_is_captured env config args w :
  stdout (report env config args w).1 = stdout w
  ∧ stderr (report env config args w).1 = stderr w
  ∧ smtp_calls (report env config args w).1 = smtp_calls w.
Proof.
  split; [apply report_keeps_stdout |].
  split; [apply report_keeps_stderr | apply report_keeps_smtp_calls].
Qed.

(** X29: an empty report is not mailed (lines 134-136).  When the guarded
    block went through and left nothing but whitespace in the buffer, and
    [--no-mail] is not given, dispatch does nothing at all: no connection,
    no output, the world stays as the guarded block left it and the script
    falls off its end with status 0, whatever the configuration says. *)
Theorem empty_report_is_not_mailed env config args w w' :
  getuid env = 0 ->
  no_mail args = false ->
  report env config args w = (w', Ok tt) ->
  strip (sys_stdout w') = "" ->
  (forall code, send_mail env config args code w' = (w', Ok tt))
  ∧ main env config args w = (w', Ok tt)
  ∧ exit_status (main env config args w).2 = 0
  ∧ smtp_calls (main env config args w).1 = smtp_calls w.
Proof.
  intros Hu Hn Hr Hs.
  assert (Hsm : forall code, send_mail env config args code w' = (w', Ok tt)).
  { intros code. rewrite send_mail_by_mail by done. unfold deliver.
    by rewrite (bind_ok _ _ _ _ _ (compose_blank env config args w'
                 (proj1 (strip_empty _) Hs))). }
  split; [done |]. rewrite (main_reported _ _ _ _ _ Hu Hr), Hsm.
  split; [done |]. split; [done |]. cbn [fst].
  pose proof (report_keeps_smtp_calls env config args w) as H.
  by rewrite Hr in H.
Qed.

Lemma ignores_fs_bind {A B} (m : M A) (k : A -> M B) :
  ignores_fs m -> (forall a, ignores_fs (k a)) -> ignores_fs (bind m k).
Proof.
  intros Hm Hk f w. unfold bind. rewrite Hm.
  destruct (m w) as [w1 [a|e|c]]; cbn [fst snd]; [| done | done].
  rewrite Hk. by destruct (k a w1).
Qed.

Ltac ignores_fs_leaf :=
  let f := fresh "f" in
  let w := fresh "w" in
  intros f w; unfold_monad; world_simpl; repeat case_match; reflexivity.

Ltac ignores_fs_with known :=
  repeat first
    [ known
    | apply ignores_fs_bind; [| intros ?]
    | match goal with
      | |- ignores_fs (if ?b then _ else _) => destruct b
      | |- ignores_fs (match ?x with _ => _ end) => destruct x
      end
    | solve [ignores_fs_leaf] ].

Lemma ignores_fs_print_updates updates : ignores_fs (print_updates updates).
Proof. intros f w. by rewrite !print_updates_run. Qed.

Lemma ignores_fs_load env config args pk :
  getboolean config (section args) "only-new" ≠ inr true ->
  ignores_fs (load env config args pk).
Proof.
  intros Ho f w. unfold load.
  by destruct (getboolean config (section args) "only-new") as [e|[]].
Qed.

Lemma ignores_fs_commit env config args seen updates :
  getboolean config (section args) "only-new" ≠ inr true ->
  ignores_fs (commit env config args seen updates).
Proof.
  intros Ho f w. unfold commit.
  by destruct (getboolean config (section args) "only-new") as [e|[]].
Qed.

(** X2: unless only-new mode is on, the seen-cache is out of the picture: the
    guarded block runs the same way whatever the cache directory holds, be it
    a file that does not unpickle, and leaves it exactly as it was. *)
Theorem seen_cache_ignored_without_only_new env config args w :
  getboolean config (section args) "only-new" ≠ inr true ->
  (forall f, report env config args (set_fs f w) =
     (set_fs f (report env config args w).1, (report env config args w).2))
  ∧ fs (report env config args w).1 = fs w.
Proof.
  intros Ho.
  assert (H : ignores_fs (report env config args)).
  { unfold report, print_header, print_trailer.
    ignores_fs_with ltac:(first [ apply ignores_fs_print_updates
                                | by apply ignores_fs_load
                                | by apply ignores_fs_commit ]). }
  split; [intros f; apply H |].
  specialize (H (fs w) w). replace (set_fs (fs w) w) with w in H by by destruct w.
  rewrite H at 1. reflexivity.
Qed.

Lemma preserves_try_except {A X} (f : World -> X) (m : M A) (h : exn -> M A) :
  preserves f m -> (forall e, preserves f (h e)) -> preserves f (try_except m h).
Proof.
  intros Hm Hh w. unfold try_except. specialize (Hm w).
  destruct (m w) as [w1 [a|e|c]]; cbn [fst] in *; [done | | done].
  by rewrite Hh.
Qed.

(** The stages of [deliver] keep [f] when the calls on the session do. *)
Lemma smtp_preserves {X} (f : World -> X) c r :
  (forall l w, f (set_smtp_calls l w) = f w) -> preserves f (smtp c r).
Proof. intros Hs w. unfold smtp, call_. destruct r; apply Hs. Qed.

Lemma call_preserves {A X} (f : World -> X) (r : exn + A) : preserves f (call r).
Proof. intros w. by destruct r. Qed.

Lemma compose_preserves {X} (f : World -> X) env config args :
  (forall l w, f (set_smtp_calls l w) = f w) ->
  preserves f (compose_message env config args).
Proof.
  intros Hs. unfold compose_message.
  preserves_with ltac:(first [by apply smtp_preserves | apply call_preserves]).
Qed.

Lemma negotiate_preserves {X} (f : World -> X) env config args :
  (forall l w, f (set_smtp_calls l w) = f w) ->
  preserves f (negotiate env config args).
Proof.
  intros Hs. unfold negotiate.
  preserves_with ltac:(first [by apply smtp_preserves | apply call_preserves]).
Qed.

Lemma transmit_preserves {X} (f : World -> X) env config args msg :
  (forall l w, f (set_smtp_calls l w) = f w) ->
  preserves f (transmit env config args msg).
Proof.
  intros Hs. unfold transmit.
  preserves_with ltac:(first [by apply smtp_preserves | apply call_preserves]).
Qed.

(** [send_mail] keeps [f] when the writes on the real channels and on the
    SMTP session do. *)
Lemma send_mail_preserves {X} (f : World -> X) env config args code :
  (forall s w, f (set_stdout s w) = f w) ->
  (forall s w, f (set_stderr s w) = f w) ->
  (forall l w, f (set_smtp_calls l w) = f w) ->
  preserves f (send_mail env config args code).
Proof.
  intros Ho He Hs.
  unfold send_mail. destruct (no_mail args).
  - intros w. unfold bind, getvalue, print_stdout, sys_exit. cbn [fst]. apply Ho.
  - apply preserves_bind.
    + apply preserves_try_except.
      * unfold deliver. apply preserves_bind; [by apply compose_preserves |].
        intros [msg|]; [| done].
        apply preserves_bind; [by apply negotiate_preserves | intros _].
        apply preserves_bind; [by apply transmit_preserves | done].
      * intros e. apply preserves_bind; [| done].
        intros w. unfold print_stderr. cbn [fst]. apply He.
    + intros [c|]; done.
Qed.

(** X3: dispatch is the last stage and acts on the outside only: whatever
    happens in [send_mail], the captured report, the context dict, the cache
    directory and the record of APT calls are as they were before. *)
Theorem send_mail_only_delivers env config args code w :
  sys_stdout (send_mail env config args code w).1 = sys_stdout w
  ∧ context (send_mail env config args code w).1 = context w
  ∧ fs (send_mail env config args code w).1 = fs w
  ∧ apt_calls (send_mail env config args code w).1 = apt_calls w.
Proof.
  repeat split; by apply send_mail_preserves.
Qed.

(** X4: without root privileges nothing of the run proper happens: APT is not
    called, the seen-cache and the context are not touched, and the captured
    output is the privilege notice alone. *)
Theorem not_root_does_nothing env config args w :
  getuid env ≠ 0 ->
  apt_calls (main env config args w).1 = apt_calls w
  ∧ fs (main env config args w).1 = fs w
  ∧ context (main env config args w).1 = context w
  ∧ sys_stdout (main env config args w).1 = sys_stdout w +:+ ROOT_REQUIRED +:+ nl.
Proof.
  intros Hu. rewrite (main_not_root _ _ _ _ Hu).
  rewrite !send_mail_preserves by done. done.
Qed.

(** [send_mail] returns, or exits with the caller's code or with 2. *)
Lemma send_mail_outcome env config args code w :
  (send_mail env config args code w).2 = Ok tt
  ∨ (send_mail env config args code w).2 = Exit code
  ∨ (send_mail env config args code w).2 = Exit 2.
Proof.
  destruct (no_mail args) eqn:Hn.
  - rewrite send_mail_by_print by done. auto.
  - rewrite send_mail_by_mail by done.
    destruct (deliver env config args code w) as [w1 r] eqn:Hd.
    destruct (deliver_result _ _ _ _ _ _ _ Hd) as [-> | [-> | [e ->]]]; auto.
Qed.

(** A run that failed before dispatch exits with 1 or 2. *)
Lemma main_failed_exits env config args w w' line :
  failed_before_dispatch env config args w w' line ->
  (main env config args w).2 = Exit 1 ∨ (main env config args w).2 = Exit 2.
Proof.
  intros Hf.
  assert (Hm : main env config args w = send_mail env config args 1
                 (set_sys_stdout (sys_stdout w' +:+ line +:+ nl) w')).
  { destruct Hf; [by apply main_not_root | by apply main_raised]. }
  rewrite Hm.
  destruct (send_mail_exits env config args 1
              (set_sys_stdout (sys_stdout w' +:+ line +:+ nl) w'))
    as (w1 & c & -> & [-> | ->] & _); auto.
  cbn [sys_stdout set_sys_stdout]. rewrite !blank_append.
  destruct Hf; [| rewrite blank_describe]; by rewrite ?andb_false_r.
Qed.

(** A run ends by falling off the end of the script or by an exit with
    0, 1 or 2. *)
Lemma main_outcome env config args w :
  (main env config args w).2 = Ok tt
  ∨ (main env config args w).2 = Exit 0
  ∨ (main env config args w).2 = Exit 1
  ∨ (main env config args w).2 = Exit 2.
Proof.
  destruct (decide (getuid env = 0)) as [Hu | Hu].
  - destruct (report env config args w) as [w' [[]|e|c]] eqn:Hr.
    + rewrite (main_reported _ _ _ _ _ Hu Hr).
      destruct (send_mail_outcome env config args 0 w') as [-> | [-> | ->]]; auto.
    + destruct (main_failed_exits env config args w w' (describe e)) as [-> | ->];
        [by apply raised | auto ..].
    + by destruct (no_exit_report env config args w w' c).
  - destruct (main_failed_exits env config args w w ROOT_REQUIRED) as [-> | ->];
      [by apply not_root | auto ..].
Qed.

(** X5: the exit-code contract of a run.  From the privilege check on, the
    script never ends by an uncaught exception: it falls off its end (status
    0) or exits with 0, 1 or 2; it exits with 0 only after the guarded block
    went through, and as an ordinary user only with 1 or 2. *)
Theorem main_exit_codes env config args w :
  ((main env config args w).2 = Ok tt
   ∨ (main env config args w).2 = Exit 0
   ∨ (main env config args w).2 = Exit 1
   ∨ (main env config args w).2 = Exit 2)
  ∧ (exit_status (main env config args w).2 = 0 ->
       getuid env = 0 ∧ exists w', report env config args w = (w', Ok tt))
  ∧ (getuid env ≠ 0 ->
       (main env config args w).2 = Exit 1 ∨ (main env config args w).2 = Exit 2).
Proof.
  split; [apply main_outcome |]. split.
  - intros Hz. destruct (decide (getuid env = 0)) as [Hu | Hu].
    + split; [done |].
      destruct (report env config args w) as [w' [[]|e|c]] eqn:Hr;
        [by eauto | | by destruct (no_exit_report env config args w w' c)].
      destruct (main_failed_exits env config args w w' (describe e)) as [H | H];
        [by apply raised | rewrite H in Hz; discriminate ..].
    + destruct (main_failed_exits env config args w w ROOT_REQUIRED) as [H | H];
        [by apply not_root | rewrite H in Hz; discriminate ..].
  - intros Hu. by apply (main_failed_exits env config args w w ROOT_REQUIRED), not_root.
Qed.

(** ** Transmission *)

(** Lines 156-162, step by step. *)
Lemma transmit_run env config args msg w u p :
  get config (section args) "smtp-user" = inr u ->
  get config (section args) "smtp-password" = inr p ->
  transmit env config args msg w =
    let w1 := if authenticates u p then called (CallLogin u p) w else w in
    match (if authenticates u p then login env u p else None) with
    | Some e => (w1, Raise e)
    | None =>
        let w2 := called (CallSendmail (From msg) [To msg] msg) w1 in
        match sendmail env with
        | Some e => (w2, Raise e)
        | None =>
            match quit env with
            | Some e => (called CallQuit w2, Raise e)
            | None => (called CallQuit w2, Ok tt)
            end
        end
    end.
Proof.
  intros Hu Hp. unfold transmit, authenticates. rewrite Hu, Hp. unfold_monad.
  destruct (negb (String.eqb u "") && negb (String.eqb p ""))%bool;
    [destruct (login env u p) |]; cbv zeta;
    destruct (sendmail env), (quit env); reflexivity.
Qed.

(** X6: authentication (lines 156-159).  The relay is logged into exactly when
    both a user and a password are configured; with either one empty no login
    is attempted and the message goes out unauthenticated; and when the login
    is refused the message is never handed over. *)
Theorem login_policy env config args msg w u p :
  get config (section args) "smtp-user" = inr u ->
  get config (section args) "smtp-password" = inr p ->
  (u = "" ∨ p = "" ->
     exists rest,
       smtp_calls (transmit env config args msg w).1 =
         (smtp_calls w ++ CallSendmail (From msg) [To msg] msg :: rest)%list)
  ∧ (u ≠ "" -> p ≠ "" ->
     exists rest,
       smtp_calls (transmit env config args msg w).1 =
         (smtp_calls w ++ CallLogin u p :: rest)%list
       ∧ forall e, login env u p = Some e ->
           rest = [] ∧ (transmit env config args msg w).2 = Raise e).
Proof.
  intros Hu Hp. rewrite (transmit_run _ _ _ _ _ _ _ Hu Hp). split.
  - intros Hemp.
    assert (Ha : authenticates u p = false).
    { unfold authenticates. destruct Hemp as [-> | ->]; [done |].
      by rewrite andb_false_r. }
    rewrite Ha. cbv zeta.
    destruct (sendmail env), (quit env); unfold called; world_simpl;
      rewrite <-?(assoc_L (++)); eexists; reflexivity.
  - intros Hne1 Hne2.
    assert (Ha : authenticates u p = true).
    { unfold authenticates.
      apply String.eqb_neq in Hne1, Hne2. by rewrite Hne1, Hne2. }
    rewrite Ha. cbv zeta.
    destruct (login env u p) as [e|] eqn:Hl.
    + exists []. split; [done |]. intros e' [= <-]. done.
    + destruct (sendmail env), (quit env); unfold called; world_simpl;
        rewrite <-?(assoc_L (++)); eexists; (split; [reflexivity | done]).
Qed.

(** [deliver] once the message is composed and STARTTLS settled. *)
Lemma deliver_after_negotiation env config args code w0 w w1 msg :
  compose_message env config args w0 = (w, Ok (Some msg)) ->
  negotiate env config args w = (w1, Ok tt) ->
  deliver env config args code w0 =
    (transmit env config args msg ;; ret (Some code)) w1.
Proof.
  intros Hc Hn. unfold deliver.
  by rewrite (bind_ok _ _ _ _ _ Hc), (bind_ok _ _ _ _ _ Hn).
Qed.

Lemma before_transmission {X} (f : World -> X) env config args w0 w w1 msg :
  (forall l w, f (set_smtp_calls l w) = f w) ->
  compose_message env config args w0 = (w, Ok (Some msg)) ->
  negotiate env config args w = (w1, Ok tt) ->
  f w1 = f w0.
Proof.
  intros Hs Hc Hn.
  pose proof (negotiate_preserves f env config args Hs w) as H1.
  pose proof (compose_preserves f env config args Hs w0) as H2.
  rewrite Hn in H1. rewrite Hc in H2. cbn [fst] in *. congruence.
Qed.

(** C5: the STARTTLS policy of dispatch.  With smtp-starttls "no" nothing is
    attempted on the connection; with "yes" STARTTLS is attempted and a relay
    that does not support it is tolerated: the delivery goes on on the plain
    connection, the session seeing after the attempt the login (with an
    account configured), the message handed over and [quit], and the process
    exits with the code of the caller; with "force" such a relay makes the
    delivery raise a RuntimeError, which [send_mail] reports on stderr before
    exiting with code 2, no message having been handed over. *)
Theorem starttls_policy env config args w mode :
  get config (section args) "smtp-starttls" = inr mode ->
  (mode = "no" -> negotiate env config args w = (w, Ok tt))
  ∧ (mode = "yes" ∨ mode = "force" ->
       starttls env = None -> negotiate env config args w = (started w, Ok tt))
  ∧ (mode = "yes" -> forall e, starttls env = Some e -> exn_smtp e = true ->
       negotiate env config args w = (started w, Ok tt)
       ∧ forall w0 msg code u p,
           no_mail args = false ->
           compose_message env config args w0 = (w, Ok (Some msg)) ->
           get config (section args) "smtp-user" = inr u ->
           get config (section args) "smtp-password" = inr p ->
           (authenticates u p = true -> login env u p = None) ->
           sendmail env = None ->
           quit env = None ->
           exists final,
             send_mail env config args code w0 = (final, Exit code)
             ∧ smtp_calls final =
                 (smtp_calls w ++ [CallStarttls]
                    ++ (if authenticates u p then [CallLogin u p] else [])
                    ++ [CallSendmail (From msg) [To msg] msg; CallQuit])%list
             ∧ stderr final = stderr w0)
  ∧ (mode = "force" -> forall e, starttls env = Some e -> exn_smtp e = true ->
       negotiate env config args w =
         (started w,
          Raise (RuntimeError "STARTTLS forced but not supported by SMTP-server."))
       ∧ forall w0 msg code,
           no_mail args = false ->
           compose_message env config args w0 = (w, Ok (Some msg)) ->
           send_mail env config args code w0 =
             (set_stderr
                (stderr w
                 +:+ "RuntimeError: STARTTLS forced but not supported by SMTP-server."
                 +:+ nl)
                (started w), Exit 2)
           ∧ forall from_addr to_addrs m,
               CallSendmail from_addr to_addrs m
                 ∈ smtp_calls (send_mail env config args code w0).1 ->
               CallSendmail from_addr to_addrs m ∈ smtp_calls w0).
Proof.
  intros Hm.
  assert (Hyes : forall e, mode = "yes" -> starttls env = Some e -> exn_smtp e = true ->
            negotiate env config args w = (started w, Ok tt)).
  { intros e -> He Hs. unfold negotiate. rewrite Hm. unfold_monad.
    by rewrite He, Hs. }
  assert (Hforce : forall e, mode = "force" -> starttls env = Some e ->
            exn_smtp e = true ->
            negotiate env config args w =
              (started w, Raise (RuntimeError STARTTLS_FORCED))).
  { intros e -> He Hs. unfold negotiate. rewrite Hm. unfold_monad.
    by rewrite He, Hs. }
  split; [| split; [| split]].
  - intros ->. unfold negotiate. rewrite Hm. by unfold_monad.
  - intros Hmode He. unfold negotiate. rewrite Hm.
    destruct Hmode as [-> | ->]; unfold_monad; by rewrite He.
  - intros -> e He Hs. pose proof (Hyes e eq_refl He Hs) as Hneg. split; [done |].
    intros w0 msg code u p Hn Hc Hu Hp Hl Hsend Hq.
    rewrite send_mail_by_mail by done.
    rewrite (deliver_after_negotiation _ _ _ _ _ _ _ _ Hc Hneg).
    unfold bind at 1. rewrite (transmit_run _ _ _ _ _ _ _ Hu Hp), Hsend, Hq. cbv zeta.
    assert (Hlogin : (if authenticates u p then login env u p else None) = None).
    { destruct (authenticates u p); [by apply Hl | done]. }
    rewrite Hlogin. eexists. split; [reflexivity |].
    unfold called, started. world_simpl.
    split; [destruct (authenticates u p); world_simpl; by rewrite <-?(assoc_L (++)) |].
    destruct (authenticates u p); world_simpl;
      by eapply (before_transmission stderr env config args w0 w (started w) msg).
  - intros -> e He Hs. split; [by eapply Hforce |].
    intros w0 msg code Hn Hc.
    assert (Hd : deliver env config args code w0 =
                   (started w, Raise (RuntimeError STARTTLS_FORCED))).
    { unfold deliver. rewrite (bind_ok _ _ _ _ _ Hc).
      by rewrite (bind_raise _ _ _ _ _ (Hforce e eq_refl He Hs)). }
    rewrite send_mail_by_mail, Hd by done. split; [done |].
    intros from_addr to_addrs m. cbn [fst smtp_calls set_stderr started set_smtp_calls].
    apply compose_calls in Hc as (host & port & ->). cbn [smtp_calls set_smtp_calls].
    rewrite !elem_of_app, !list_elem_of_singleton. intros [[|]|]; [done | done | done].
Qed.

(** X7: a delivery that goes through (lines 145-167).  After the connection
    and the STARTTLS step, the session sees the login (if an account is
    configured), then one [sendmail] with the From address, the To address
    as the only recipient and the message, then [quit]; nothing is written
    to the real channels and the process exits with the code of the caller,
    so that a run that failed before dispatch still exits with 1. *)
Theorem delivery_goes_through env config args code w0 w w1 msg u p :
  no_mail args = false ->
  compose_message env config args w0 = (w, Ok (Some msg)) ->
  negotiate env config args w = (w1, Ok tt) ->
  get config (section args) "smtp-user" = inr u ->
  get config (section args) "smtp-password" = inr p ->
  (authenticates u p = true -> login env u p = None) ->
  sendmail env = None ->
  quit env = None ->
  exists final,
    send_mail env config args code w0 = (final, Exit code)
    ∧ smtp_calls final =
        (smtp_calls w1 ++ (if authenticates u p then [CallLogin u p] else [])
           ++ [CallSendmail (From msg) [To msg] msg; CallQuit])%list
    ∧ stdout final = stdout w0
    ∧ stderr final = stderr w0.
Proof.
  intros Hn Hc Hneg Hu Hp Hl Hs Hq.
  rewrite send_mail_by_mail by done.
  rewrite (deliver_after_negotiation _ _ _ _ _ _ _ _ Hc Hneg).
  unfold bind at 1. rewrite (transmit_run _ _ _ _ _ _ _ Hu Hp), Hs, Hq. cbv zeta.
  assert (Hlogin : (if authenticates u p then login env u p else None) = None).
  { destruct (authenticates u p); [by apply Hl | done]. }
  rewrite Hlogin. eexists. split; [reflexivity |].
  unfold called. world_simpl.
  split; [destruct (authenticates u p); world_simpl; by rewrite <-?(assoc_L (++)) |].
  split; destruct (authenticates u p); world_simpl;
    by eapply (before_transmission _ env config args w0 w w1 msg).
Qed.

(** X8: when [quit] fails after the message was accepted (line 162), the
    exit code is 2 and the error is on stderr although the mail has been
    handed over: code 2 does not tell that no mail was sent. *)
Theorem quit_failure_after_sending env config args code w0 w w1 msg u p e :
  no_mail args = false ->
  compose_message env config args w0 = (w, Ok (Some msg)) ->
  negotiate env config args w = (w1, Ok tt) ->
  get config (section args) "smtp-user" = inr u ->
  get config (section args) "smtp-password" = inr p ->
  (authenticates u p = true -> login env u p = None) ->
  sendmail env = None ->
  quit env = Some e ->
  exists final,
    send_mail env config args code w0 = (final, Exit 2)
    ∧ CallSendmail (From msg) [To msg] msg ∈ smtp_calls final
    ∧ stderr final = stderr w0 +:+ describe e +:+ nl.
Proof.
  intros Hn Hc Hneg Hu Hp Hl Hs Hq.
  rewrite send_mail_by_mail by done.
  rewrite (deliver_after_negotiation _ _ _ _ _ _ _ _ Hc Hneg).
  unfold bind at 1. rewrite (transmit_run _ _ _ _ _ _ _ Hu Hp), Hs, Hq. cbv zeta.
  assert (Hlogin : (if authenticates u p then login env u p else None) = None).
  { destruct (authenticates u p); [by apply Hl | done]. }
  rewrite Hlogin. eexists. split; [reflexivity |].
  unfold called. world_simpl. split.
  - rewrite !elem_of_app, !list_elem_of_singleton. auto.
  - destruct (authenticates u p); world_simpl;
      by rewrite (before_transmission stderr env config args w0 w w1 msg).
Qed.

(** X9: a failed STARTTLS that is not tolerated (lines 148-154).  With
    "force" every exception of [starttls], and with "yes" every exception
    that is no [SMTPException], ends the delivery at once: no login and no
    [sendmail] follow, so that no credentials and no report travel on the
    connection, and the exit code is 2. *)
Theorem starttls_failure_aborts env config args code w0 w msg mode e :
  no_mail args = false ->
  compose_message env config args w0 = (w, Ok (Some msg)) ->
  get config (section args) "smtp-starttls" = inr mode ->
  starttls env = Some e ->
  mode = "force" ∨ (mode = "yes" ∧ exn_smtp e = false) ->
  let error := if exn_smtp e then RuntimeError STARTTLS_FORCED else e in
  send_mail env config args code w0 =
    (set_stderr (stderr w0 +:+ describe error +:+ nl) (called CallStarttls w), Exit 2)
  ∧ exists host port,
      smtp_calls (send_mail env config args code w0).1 =
        (smtp_calls w0 ++ [CallSMTP host port; CallStarttls])%list.
Proof.
  intros Hn Hc Hm He Hcase error.
  assert (Hneg : negotiate env config args w = (called CallStarttls w, Raise error)).
  { unfold negotiate. rewrite Hm. subst error.
    destruct Hcase as [-> | [-> Hs]]; unfold_monad; rewrite He;
      [by destruct (exn_smtp e) | by rewrite Hs]. }
  assert (Hd : deliver env config args code w0 = (called CallStarttls w, Raise error)).
  { unfold deliver. rewrite (bind_ok _ _ _ _ _ Hc).
    by rewrite (bind_raise _ _ _ _ _ Hneg). }
  rewrite send_mail_by_mail, Hd by done.
  pose proof (compose_preserves stderr env config args (fun _ _ => eq_refl) w0) as Hst.
  rewrite Hc in Hst. cbn [fst] in Hst.
  split; [unfold called; world_simpl; by rewrite Hst |].
  apply compose_calls in Hc as (host & port & ->). exists host, port.
  unfold called. world_simpl. by rewrite <-(assoc_L (++)).
Qed.

(** X10: the value of smtp-starttls is compared literally (line 149): every
    value other than "yes" and "force", such as "true" or "Force" in a file,
    means that STARTTLS is not attempted, without any complaint. *)
Theorem other_starttls_values_disable_tls env config args w mode :
  get config (section args) "smtp-starttls" = inr mode ->
  mode ≠ "yes" -> mode ≠ "force" ->
  negotiate env config args w = (w, Ok tt)
  ∧ forall msg code w0,
      compose_message env config args w0 = (w, Ok (Some msg)) ->
      deliver env config args code w0 =
        (transmit env config args msg ;; ret (Some code)) w.
Proof.
  intros Hm Hy Hf.
  assert (Hneg : negotiate env config args w = (w, Ok tt)).
  { unfold negotiate. rewrite Hm. apply String.eqb_neq in Hy, Hf.
    unfold_monad. by rewrite Hy, Hf. }
  split; [done |]. intros msg code w0 Hc.
  by apply (deliver_after_negotiation _ _ _ _ w0 w w msg).
Qed.

(** ** Composition *)

Lemma bind_call_raise_inv {A B} (r : exn + A) (k : A -> M B) w w' e :
  bind (call r) k w = (w', Raise e) ->
  (r = inl e ∧ w' = w) ∨ exists a, r = inr a ∧ k a w = (w', Raise e).
Proof.
  destruct r as [e0|a]; unfold bind, call, raise, ret; [| eauto].
  intros [= <- <-]. by left.
Qed.

(** A failure while composing happens before the relay is contacted, or is
    the failure of the connection itself. *)
Lemma compose_raise_inv env config args w w1 e :
  compose_message env config args w = (w1, Raise e) ->
  w1 = w ∨ exists host port, w1 = called (CallSMTP host port) w
                             ∧ SMTP env host port = Some e.
Proof.
  unfold compose_message. intros H.
  unfold bind at 1, getvalue in H. cbv beta iota in H.
  destruct (String.eqb _ _); [unfold ret in H; congruence |].
  unfold bind at 1, the_context in H. cbv beta iota in H.
  do 6 (apply bind_call_raise_inv in H as [[_ ->] | (? & _ & H)]; [by left |]).
  unfold bind at 1, context_get in H.
  destruct (context w !! "host"); [| injection H as <- _; by left].
  apply bind_call_raise_inv in H as [[_ ->] | (host & _ & H)]; [by left |].
  apply bind_call_raise_inv in H as [[_ ->] | (port & _ & H)]; [by left |].
  right. exists host, port. unfold bind, smtp, call_ in H.
  destruct (SMTP env host port) as [e'|]; unfold raise, ret in H; [| congruence].
  by injection H as <- <-.
Qed.

(** X11: a failure while the message is composed (lines 138-146): a template
    that does not format, a port that is no number, a refused connection.
    The error goes to stderr, the exit code is 2, and the session has seen
    at most the connection attempt: no STARTTLS, no login, no [sendmail]. *)
Theorem composing_failure_sends_nothing env config args code w w1 e :
  no_mail args = false ->
  compose_message env config args w = (w1, Raise e) ->
  send_mail env config args code w =
    (set_stderr (stderr w +:+ describe e +:+ nl) w1, Exit 2)
  ∧ (w1 = w ∨ exists host port, w1 = called (CallSMTP host port) w
                                ∧ SMTP env host port = Some e).
Proof.
  intros Hn Hc.
  pose proof (compose_raise_inv _ _ _ _ _ _ Hc) as Hw.
  split; [| done].
  rewrite send_mail_by_mail by done. unfold deliver.
  rewrite (bind_raise _ _ _ _ _ Hc).
  by destruct Hw as [-> | (host & port & -> & _)].
Qed.

(** The fields of a composed message. *)
Lemma compose_fields env config args w w1 msg :
  compose_message env config args w = (w1, Ok (Some msg)) ->
  payload msg = strip (sys_stdout w)
  ∧ payload msg ≠ ""
  ∧ X_AptCron msg = "yes"
  ∧ (exists host, context w !! "host" = Some host ∧ X_AptCron_Host msg = str host)
  ∧ (exists tpl, get config (section args) "mail-subject" = inr tpl
       ∧ format env tpl (context w) = inr (Subject msg))
  ∧ (exists tpl, get config (section args) "mail-from" = inr tpl
       ∧ format env tpl (context w) = inr (From msg))
  ∧ (exists tpl, get config (section args) "mail-to" = inr tpl
       ∧ format env tpl (context w) = inr (To msg)).
Proof.
  unfold compose_message. intros H.
  apply bind_ok_inv in H as (w2 & captured & Hg & H).
  unfold getvalue in Hg. injection Hg as <- <-.
  destruct (String.eqb_spec (strip (sys_stdout w)) "") as [|Hne];
    [unfold ret in H; congruence |].
  apply bind_ok_inv in H as (w2 & ctx & Hg & H).
  unfold the_context in Hg. injection Hg as <- <-.
  apply bind_call_inv in H as (stpl & Hstpl & H).
  apply bind_call_inv in H as (subject & Hsub & H).
  apply bind_call_inv in H as (ftpl & Hftpl & H).
  apply bind_call_inv in H as (from_addr & Hfrom & H).
  apply bind_call_inv in H as (ttpl & Httpl & H).
  apply bind_call_inv in H as (to_addr & Hto & H).
  apply bind_ok_inv in H as (w2 & host & Hg & H).
  unfold context_get in Hg. destruct (context w !! "host") as [h|] eqn:Hh; [| congruence].
  injection Hg as <- <-.
  do 2 apply bind_call_inv in H as (? & _ & H).
  apply bind_ok_inv in H as (w2 & ? & _ & H).
  unfold ret in H. injection H as _ <-. cbn [payload X_AptCron X_AptCron_Host Subject From To].
  repeat split; eauto.
Qed.

(** The calls that negotiation and transmission make on the session. *)
Lemma negotiate_calls env config args w :
  (negotiate env config args w).1 = w ∨ (negotiate env config args w).1 = started w.
Proof.
  unfold negotiate. destruct (get config (section args) "smtp-starttls") as [e|mode];
    [by left |].
  rewrite (bind_ok (call (inr mode)) _ _ _ mode eq_refl).
  destruct (_ || _)%bool; [| by left]. right.
  unfold try_except_class, smtp, call_, started.
  destruct (starttls env) as [e|]; [| done]. unfold raise.
  destruct (exn_smtp e); [| done]. by destruct (String.eqb mode "force").
Qed.

Lemma transmit_calls env config args msg w c :
  c ∈ smtp_calls (transmit env config args msg w).1 ->
  c ∈ smtp_calls w ∨ c = CallQuit ∨ (exists u p, c = CallLogin u p)
  ∨ c = CallSendmail (From msg) [To msg] msg.
Proof.
  destruct (get config (section args) "smtp-user") as [e|u] eqn:Hu.
  { unfold transmit. rewrite Hu. by left. }
  destruct (get config (section args) "smtp-password") as [e|p] eqn:Hp.
  { unfold transmit. rewrite Hu, Hp. by left. }
  rewrite (transmit_run _ _ _ _ _ _ _ Hu Hp).
  destruct (authenticates u p); [destruct (login env u p) |]; cbv zeta;
    destruct (sendmail env), (quit env); unfold called; world_simpl;
    rewrite ?elem_of_app, ?list_elem_of_singleton; intuition eauto.
Qed.

(** What [deliver] adds to the session: the connection, the STARTTLS
    attempt, a login, [quit], and the composed message handed over. *)
Lemma deliver_calls env config args code w c :
  c ∈ smtp_calls (deliver env config args code w).1 ->
  c ∈ smtp_calls w
  ∨ (forall f t m, c ≠ CallSendmail f t m)
  ∨ exists w1 msg, compose_message env config args w = (w1, Ok (Some msg))
                   ∧ c = CallSendmail (From msg) [To msg] msg.
Proof.
  unfold deliver.
  destruct (compose_message env config args w) as [w1 [[msg|]|e|x]] eqn:Hc.
  - rewrite (bind_ok _ _ _ _ _ Hc).
    destruct (compose_calls _ _ _ _ _ _ Hc) as (host & port & Hw1).
    assert (Hneg : forall d, d ∈ smtp_calls (negotiate env config args w1).1 ->
              d ∈ smtp_calls w ∨ forall f t m, d ≠ CallSendmail f t m).
    { intros d. destruct (negotiate_calls env config args w1) as [-> | ->];
        rewrite Hw1; unfold started; world_simpl;
        rewrite ?elem_of_app, ?list_elem_of_singleton;
        intuition (subst; auto; right; discriminate). }
    destruct (negotiate env config args w1) as [w2 [[]|e|x]] eqn:Hn; cbn [fst] in Hneg.
    + rewrite (bind_ok _ _ _ _ _ Hn). unfold bind at 1.
      intros Hin.
      assert (Hin' : c ∈ smtp_calls (transmit env config args msg w2).1).
      { by destruct (transmit env config args msg w2) as [w3 [[]|e|x]]. }
      apply transmit_calls in Hin' as [Hin' | [-> | [(u & p & ->) | ->]]];
        [ destruct (Hneg c Hin'); auto | right; left; done .. | ].
      right. right. by exists w1, msg.
    + rewrite (bind_raise _ _ _ _ _ Hn). cbn [fst]. intros Hin.
      destruct (Hneg c Hin); auto.
    + rewrite (bind_exit _ _ _ _ _ Hn). cbn [fst]. intros Hin.
      destruct (Hneg c Hin); auto.
  - rewrite (bind_ok _ _ _ _ _ Hc). cbn [fst].
    destruct (blank (sys_stdout w)) eqn:Hb.
    + rewrite compose_blank in Hc by done. injection Hc as <-. by left.
    + by apply compose_not_blank in Hc.
  - rewrite (bind_raise _ _ _ _ _ Hc). cbn [fst].
    destruct (compose_raise_inv _ _ _ _ _ _ Hc) as [-> | (host & port & -> & _)];
      [by left |].
    unfold called. world_simpl. rewrite elem_of_app, list_elem_of_singleton.
    intros [? | ->]; [by left | right; left; done].
  - by destruct (no_exit_compose env config args w w1 x).
Qed.

(** X12: what is mailed (lines 130-162).  Whatever [send_mail] does and
    however it ends, a message that it hands to the relay is the report: it
    goes from the From address to the To address as the only recipient; its
    body is the captured output with the surrounding whitespace stripped,
    and is not empty; Subject, From and To are what [config.get] returns for
    mail-subject, mail-from and mail-to, formatted against the context; and
    the two marker headers are "yes" and the host entry of the context. *)
Theorem every_mail_is_the_report env config args code w f t m :
  CallSendmail f t m ∈ smtp_calls (send_mail env config args code w).1 ->
  CallSendmail f t m ∉ smtp_calls w ->
  no_mail args = false
  ∧ f = From m
  ∧ t = [To m]
  ∧ payload m = strip (sys_stdout w)
  ∧ payload m ≠ ""
  ∧ X_AptCron m = "yes"
  ∧ (exists host, context w !! "host" = Some host ∧ X_AptCron_Host m = str host)
  ∧ (exists tpl, get config (section args) "mail-subject" = inr tpl
       ∧ format env tpl (context w) = inr (Subject m))
  ∧ (exists tpl, get config (section args) "mail-from" = inr tpl
       ∧ format env tpl (context w) = inr (From m))
  ∧ (exists tpl, get config (section args) "mail-to" = inr tpl
       ∧ format env tpl (context w) = inr (To m)).
Proof.
  intros Hin Hnew. destruct (no_mail args) eqn:Hn.
  { rewrite send_mail_by_print in Hin by done. by destruct Hnew. }
  split; [done |].
  assert (Hd : CallSendmail f t m ∈ smtp_calls (deliver env config args code w).1).
  { rewrite send_mail_by_mail in Hin by done.
    by destruct (deliver env config args code w) as [w1 [[?|]|e|x]]. }
  apply deliver_calls in Hd as [Hd | [Hd | (w1 & msg & Hc & [= -> -> ->])]];
    [done | by destruct (Hd f t m) |].
  split; [done |]. split; [done |]. by eapply compose_fields.
Qed.

(** ** Failures in the guarded block *)

Lemma report_listing env config args :
  report env config args =
    (apt CallCache (match apt_Cache env with Some e => inl e | None => inr tt end) ;;
     skip <- call (getboolean config (section args) "no-update") ;;
     (if negb skip
      then apt CallUpdate (match apt_update env with Some e => inl e | None => inr tt end)
      else ret tt) ;;
     packages <- apt CallChanges (apt_changes env) ;;
     after_listing env config args packages).
Proof. reflexivity. Qed.

Lemma after_listing_keeps_apt_calls env config args pk :
  preserves apt_calls (after_listing env config args pk).
Proof.
  unfold after_listing, print_header, print_trailer.
  preserves_with ltac:(apply preserves_print_updates; reflexivity).
Qed.

(** X13: the refresh of the package index (lines 184-185).  With no-update on,
    [cache.update()] is never called, whatever else happens in the run: APT
    sees the opening of the cache and, if that went well, the listing. *)
Theorem no_update_skips_refresh env config args w :
  getboolean config (section args) "no-update" = inr true ->
  apt_calls (report env config args w).1 =
    (apt_calls w ++ CallCache :: match apt_Cache env with
                                 | Some _ => []
                                 | None => [CallChanges]
                                 end)%list.
Proof.
  intros Hs. rewrite report_listing, Hs.
  destruct (apt_Cache env) as [e|]; [reflexivity |].
  rewrite (bind_ok _ _ _ _ _ (apt_ok _ _ _)).
  rewrite (bind_ok (call (inr true)) _ _ _ true eq_refl). cbn [negb].
  rewrite (bind_ok (ret tt) _ _ _ tt eq_refl).
  destruct (apt_changes env) as [e|pk].
  - unfold bind, apt, call, raise. world_simpl. by rewrite <-(assoc_L (++)).
  - rewrite (bind_ok _ _ _ _ _ (apt_ok _ _ _)).
    rewrite after_listing_keeps_apt_calls. world_simpl. by rewrite <-(assoc_L (++)).
Qed.

(** X14: a refresh that fails is fatal to the run (line 185): the pending
    updates are never listed, nothing is printed, the context and the
    seen-cache stay as they were, and the run goes to dispatch with the
    error as its report and code 1. *)
Theorem refresh_failure_is_fatal env config args w e :
  getuid env = 0 ->
  apt_Cache env = None ->
  getboolean config (section args) "no-update" = inr false ->
  apt_update env = Some e ->
  report env config args w =
    (set_apt_calls (apt_calls w ++ [CallCache; CallUpdate]) w, Raise e)
  ∧ main env config args w =
      send_mail env config args 1
        (set_sys_stdout (sys_stdout w +:+ describe e +:+ nl)
           (set_apt_calls (apt_calls w ++ [CallCache; CallUpdate]) w)).
Proof.
  intros Hu Hc Hs He.
  assert (Hr : report env config args w =
            (set_apt_calls (apt_calls w ++ [CallCache; CallUpdate]) w, Raise e)).
  { rewrite report_listing, Hc, Hs, He.
    rewrite (bind_ok _ _ _ _ _ (apt_ok _ _ _)).
    rewrite (bind_ok (call (inr false)) _ _ _ false eq_refl). cbn [negb].
    unfold bind, apt, call, raise. world_simpl. by rewrite <-(assoc_L (++)). }
  split; [done |]. by rewrite (main_raised _ _ _ _ _ _ Hu Hr).
Qed.

(** X15: a seen-cache that does not unpickle is fatal in only-new mode (line
    196): the error of [pickle.load] ends the guarded block before anything
    is printed, and the file is neither deleted nor overwritten. *)
Theorem corrupt_seen_cache_is_fatal env config args w skip pk content e :
  apt_Cache env = None ->
  getboolean config (section args) "no-update" = inr skip ->
  (skip = false -> apt_update env = None) ->
  apt_changes env = inr pk ->
  getboolean config (section args) "only-new" = inr true ->
  fs w = Dir (Some content) ->
  pickle_load env content = inl e ->
  exists w',
    report env config args w = (w', Raise e)
    ∧ sys_stdout w' = sys_stdout w
    ∧ fs w' = Dir (Some content)
    ∧ context w' !! "num" = Some (CInt (Z.of_nat (length pk))).
Proof.
  intros Hc Hs Hu Hp Ho Hf He. rewrite report_listing, Hc, Hs, Hp.
  rewrite (bind_ok _ _ _ _ _ (apt_ok _ _ _)).
  rewrite (bind_ok (call (inr skip)) _ _ _ skip eq_refl).
  set (w1 := set_apt_calls _ w).
  set (w2 := if skip then w1 else set_apt_calls (apt_calls w1 ++ [CallUpdate]) w1).
  assert (Hupd : (if negb skip
            then apt CallUpdate match apt_update env with
                                | Some e => inl e
                                | None => inr ()
                                end
            else ret ()) w1 = (w2, Ok tt)).
  { subst w2. destruct skip; [done |]. simpl. by rewrite Hu. }
  rewrite (bind_ok _ _ _ _ _ Hupd). clear Hupd.
  rewrite (bind_ok _ _ _ _ _ (apt_ok _ _ _)).
  unfold after_listing.
  rewrite (bind_ok (context_set _ _) _ _ _ tt eq_refl).
  set (w4 := set_context _ _).
  assert (Hf4 : fs w4 = Dir (Some content)).
  { subst w4 w2 w1. by destruct skip. }
  assert (Hl : load env config args pk w4 = (w4, Raise e)).
  { unfold load. rewrite Ho. unfold_monad. unfold exists_SEEN_CACHE. rewrite Hf4.
    cbv beta iota. by rewrite Hf4, He. }
  rewrite (bind_raise _ _ _ _ _ Hl). exists w4.
  split; [done |]. split; [subst w4 w2 w1; by destruct skip |].
  split; [done |]. subst w4. apply lookup_insert_eq.
Qed.

(** ** The seen-cache over several runs *)

Lemma filter_new_known (S B : list PackageUpdate) :
  filter_new S (B ++ filter_new S B) = [].
Proof.
  unfold filter_new.
  destruct (filter _ S) as [|p l] eqn:Hf; [done |].
  assert (Hp : p ∈ filter (fun p => p ∉ (B ++ filter (fun p => p ∉ B) S)%list) S)
    by (rewrite Hf; left).
  apply list_elem_of_filter in Hp as [Hn Hp]. destruct Hn.
  apply elem_of_app. destruct (decide (p ∈ B)); [by left | right].
  by apply list_elem_of_filter.
Qed.

(** X16: the filter keeps the order of the listing (line 197): the updates
    left to report are the pending ones in APT's order with the known ones
    struck out; filtering again changes nothing, and once the reported
    updates have joined the baseline nothing is left. *)
Theorem filter_new_keeps_order (S B : list PackageUpdate) :
  filter_new S B `sublist_of` S
  ∧ filter_new (filter_new S B) B = filter_new S B
  ∧ filter_new S (B ++ filter_new S B) = [].
Proof.
  split; [apply sublist_filter |]. split; [| apply filter_new_known].
  unfold filter_new. by apply list_filter_filter_l.
Qed.

(** X17: in only-new mode nothing is reported twice (lines 194-217).  After a
    run that found pending updates, a second run that finds the same updates
    has nothing to report, prints at most "No packages found." (with force),
    and leaves the seen-cache as the first run wrote it. *)
Theorem same_updates_are_not_reported_twice
    env config args w w2 skip forced pk B :
  pickle_roundtrip env ->
  apt_Cache env = None ->
  getboolean config (section args) "no-update" = inr skip ->
  (skip = false -> apt_update env = None) ->
  apt_changes env = inr pk ->
  getboolean config (section args) "only-new" = inr true ->
  getboolean config (section args) "force" = inr forced ->
  baseline env true (fs w) = inr B ->
  pk ≠ [] ->
  fs w2 = fs (report env config args w).1 ->
  exists w2',
    report env config args w2 = (w2', Ok tt)
    ∧ sys_stdout w2' =
        sys_stdout w2 +:+ (if forced then "No packages found." +:+ nl else "")
    ∧ fs w2' = fs w2
    ∧ fs w2 = Dir (Some (pickle_dump env (B ++ filter_new pk B)%list)).
Proof.
  intros Hrt Hc Hs Hu Hp Ho Hf Hb Hne Hfs.
  rewrite (report_run _ _ _ _ _ _ _ _ _ Hc Hs Hu Hp Ho Hf Hb) in Hfs.
  assert (Hz : (Z.of_nat (length pk) =? 0) = false).
  { apply Z.eqb_neq. destruct pk; [done | cbn [length]; lia]. }
  unfold reported, committed in Hfs. cbn [fst fs] in Hfs. rewrite Hz in Hfs.
  cbn [andb] in Hfs.
  assert (Hb2 : baseline env true (fs w2) = inr (B ++ filter_new pk B)%list).
  { rewrite Hfs. cbn [baseline]. apply Hrt. }
  eexists. split; [by eapply report_run |].
  unfold reported, committed, report_text. cbn [sys_stdout fs].
  rewrite filter_new_known, Hz, app_nil_r. cbn [andb].
  repeat split; [by destruct forced | done ..].
Qed.

(** ** The short host name *)

(** X18: the short host name of the subject (line 75) is the host name up to
    its first dot: it has no dot, it is followed in the host name by nothing
    or by a dot, and a host name without dot is its own short name. *)
Theorem shorthost_is_first_label (host : string) :
  has_dot (split_dot_head host) = false
  ∧ (exists rest, host = split_dot_head host +:+ rest
                  ∧ (rest = "" ∨ exists r, rest = String "."%char r))
  ∧ (has_dot host = false -> split_dot_head host = host).
Proof.
  induction host as [|c r (IH1 & (rest & IH2 & IH3) & IH4)].
  - split; [done |]. split; [| done]. exists "". split; [done | by left].
  - cbn [split_dot_head has_dot]. destruct (Ascii.eqb_spec c ".") as [-> | Hc].
    + split; [done |]. split; [| done].
      exists (String "." r). split; [done |]. right. by exists r.
    + cbn [has_dot orb]. apply Ascii.eqb_neq in Hc. rewrite Hc. cbn [orb].
      split; [done |]. split.
      * exists rest. rewrite append_cons. split; [by rewrite <-IH2 | done].
      * intros Hd. by rewrite IH4.
Qed.

(** ** Resolution failures *)

Lemma set_unknown_section config sec opt v :
  sec ≠ "" -> sec ≠ DEFAULTSECT -> sections config !! sec = None ->
  set config sec opt v = inl (NoSectionError sec).
Proof.
  intros H1 H2 H3. unfold set. apply String.eqb_neq in H1, H2.
  by rewrite H1, H2, H3.
Qed.

(** The overrides either go through without touching the world or stop at
    the first [config.set] on a section that is not there. *)
Lemma cli_overrides_outcome args config w :
  (exists config', cli_overrides args config w = (w, Ok config'))
  ∨ cli_overrides args config w = (w, Raise (NoSectionError (section args))).
Proof.
  assert (Hset : forall flag opt v c,
            (exists c', set_if flag args opt v c w = (w, Ok c'))
            ∨ set_if flag args opt v c w = (w, Raise (NoSectionError (section args)))).
  { intros flag opt v c. unfold set_if, set. destruct flag; [| left; by eexists].
    destruct (_ || _)%bool; [left; by eexists |].
    destruct (sections c !! section args); [left; by eexists | by right]. }
  unfold cli_overrides.
  repeat match goal with
  | |- context [bind (set_if ?flag args ?opt ?v ?c) ?k] =>
      destruct (Hset flag opt v c) as [[? Hok] | Hno];
        [rewrite (bind_ok _ _ _ _ _ Hok); clear Hok
        | right; by rewrite (bind_raise _ _ _ _ _ Hno)]
  end.
  apply Hset.
Qed.

(** X19: the only uncaught exception of the script after the files are read
    is the [NoSectionError] of lines 103-126: when a run ends by an exception
    it is this one, for the selected section, and it struck before the
    privilege check: nothing was printed, queried or sent. *)
Theorem only_resolution_is_uncaught env args files w e :
  (aptcron env args files w).2 = Raise e ->
  e = NoSectionError (section args) ∧ (aptcron env args files w).1 = w.
Proof.
  unfold aptcron.
  destruct (cli_overrides_outcome args (read (builtin_defaults env) files) w)
    as [[config Hok] | Hno].
  - rewrite (bind_ok _ _ _ _ _ Hok). intros He.
    destruct (main_outcome env config args w) as [H | [H | [H | H]]];
      rewrite H in He; discriminate.
  - rewrite (bind_raise _ _ _ _ _ Hno). cbn [fst snd]. by intros [= <-].
Qed.

(** A guard that is off: the configuration goes on as it is. *)
Ltac pass_flag config :=
  cbv beta iota; rewrite ?(bind_ok (ret config) _ _ _ config eq_refl); cbv beta.

(** X20: a section that no file declares (lines 103-126).  As soon as the
    command line supplies a value for some option, the first [config.set]
    raises [NoSectionError] outside of every handler and the run does not
    start; when it supplies none, no [config.set] is made and the run starts
    on the merged configuration. *)
Theorem unknown_section_and_overrides env args files w :
  let merged := read (builtin_defaults env) files in
  (section args ≠ "" -> section args ≠ DEFAULTSECT ->
   sections merged !! section args = None ->
   forall name v, supplied args name = Some v ->
     aptcron env args files w = (w, Raise (NoSectionError (section args))))
  ∧ ((forall name, supplied args name = None) ->
     aptcron env args files w = main env merged args w).
Proof.
  intros merged. split.
  - intros H1 H2 H3 name v Hsup.
    pose proof (fun opt v => set_unknown_section merged (section args) opt v H1 H2 H3)
      as Hset.
    unfold aptcron. fold merged.
    enough (Hr : cli_overrides args merged w = (w, Raise (NoSectionError (section args))))
      by (by rewrite (bind_raise _ _ _ _ _ Hr)).
    unfold cli_overrides, set_if.
    destruct (no_update args) eqn:F1; [by rewrite Hset | pass_flag merged].
    destruct (only_new args) eqn:F2; [by rewrite Hset | pass_flag merged].
    destruct (force args) eqn:F3; [by rewrite Hset | pass_flag merged].
    destruct (no_mail args) eqn:F4; [by rewrite Hset | pass_flag merged].
    destruct (truthy (mail_from args)) eqn:F5; [by rewrite Hset | pass_flag merged].
    destruct (truthy (mail_to args)) eqn:F6; [by rewrite Hset | pass_flag merged].
    destruct (truthy (mail_subject args)) eqn:F7; [by rewrite Hset | pass_flag merged].
    destruct (truthy (smtp_host args)) eqn:F8; [by rewrite Hset | pass_flag merged].
    destruct (truthy_int (smtp_port args)) eqn:F9; [by rewrite Hset | pass_flag merged].
    destruct (truthy (smtp_user args)) eqn:F10; [by rewrite Hset | pass_flag merged].
    destruct (truthy (smtp_password args)) eqn:F11; [by rewrite Hset | pass_flag merged].
    destruct (truthy (smtp_starttls args)) eqn:F12; [by rewrite Hset | pass_flag merged].
    exfalso. revert Hsup. unfold supplied.
    rewrite F1, F2, F3, F4, F5, F6, F7, F8, F9, F10, F11, F12.
    repeat case_match; discriminate.
  - intros Hnone. unfold aptcron. fold merged.
    enough (Hr : cli_overrides args merged w = (w, Ok merged))
      by (by rewrite (bind_ok _ _ _ _ _ Hr)).
    unfold cli_overrides, set_if.
    assert (F1 : no_update args = false) by flag_off Hnone "no-update".
    assert (F2 : only_new args = false) by flag_off Hnone "only-new".
    assert (F3 : force args = false) by flag_off Hnone "force".
    assert (F4 : no_mail args = false) by flag_off Hnone "no-mail".
    assert (F5 : truthy (mail_from args) = false) by flag_off Hnone "mail-from".
    assert (F6 : truthy (mail_to args) = false) by flag_off Hnone "mail-to".
    assert (F7 : truthy (mail_subject args) = false) by flag_off Hnone "mail-subject".
    assert (F8 : truthy (smtp_host args) = false) by flag_off Hnone "smtp-host".
    assert (F9 : truthy_int (smtp_port args) = false)
      by (flag_off Hnone "smtp-port"; by destruct (smtp_port args)).
    assert (F10 : truthy (smtp_user args) = false) by flag_off Hnone "smtp-user".
    assert (F11 : truthy (smtp_password args) = false)
      by flag_off Hnone "smtp-password".
    assert (F12 : truthy (smtp_starttls args) = false)
      by flag_off Hnone "smtp-starttls".
    rewrite F1, F2, F3, F4, F5, F6, F7, F8, F9, F10, F11, F12.
    cbv beta iota. by rewrite !(bind_ok (ret merged) _ _ _ merged eq_refl).
Qed.

(** ** Configuration files (lines 95-100) *)

Lemma assign_lookup d kvs k :
  foldl assign d kvs !! k =
    foldl (fun a kv => if String.eqb kv.1 k then Some kv.2 else a) (d !! k) kvs.
Proof.
  revert d. induction kvs as [|kv kvs IH]; intros d; [done |].
  cbn [foldl]. rewrite IH. f_equal. unfold assign.
  destruct (String.eqb_spec kv.1 k) as [-> | Hne].
  - by rewrite lookup_insert_eq.
  - by rewrite lookup_insert_ne.
Qed.

Lemma read_blocks_default config blocks k :
  defaults (foldl read_block config blocks) !! k
  = default_after blocks k (defaults config !! k).
Proof.
  unfold default_after. revert config.
  induction blocks as [|blk blocks IH]; intros config; [done |].
  cbn [foldl]. rewrite IH. f_equal. unfold read_block.
  destruct (String.eqb blk.1 DEFAULTSECT); [| done].
  cbn [defaults]. apply assign_lookup.
Qed.

Lemma last_assignment kvs k (a : option string) :
  foldl (fun a kv => if String.eqb kv.1 k then Some kv.2 else a) a kvs =
    match foldl (fun a kv => if String.eqb kv.1 k then Some kv.2 else a) None kvs with
    | Some v => Some v
    | None => a
    end.
Proof.
  induction kvs as [|kv kvs IH] using rev_ind; [done |].
  rewrite !foldl_snoc. destruct (String.eqb kv.1 k); [done | apply IH].
Qed.

Lemma default_after_before blocks k before :
  default_after blocks k before =
    match default_after blocks k None with
    | Some v => Some v
    | None => before
    end.
Proof.
  unfold default_after.
  induction blocks as [|blk blocks IH] using rev_ind; [done |].
  rewrite !foldl_snoc. destruct (String.eqb blk.1 DEFAULTSECT); [| apply IH].
  rewrite last_assignment, IH.
  rewrite (last_assignment _ _ (foldl _ None blocks)).
  by destruct (foldl _ None blk.2).
Qed.

Lemma read_files_app parse config l1 l2 :
  read_files parse config (l1 ++ l2) =
    match read_files parse config l1 with
    | inl e => inl e
    | inr config' => read_files parse config' l2
    end.
Proof.
  revert config. induction l1 as [|n l1 IH]; intros config; [done |].
  cbn [app read_files]. by destruct (read_file parse config n).
Qed.

Lemma read_files_readable parse config names :
  parses parse names = true ->
  read_files parse config names = inr (read config (readable parse names)).
Proof.
  revert config. induction names as [|n names IH]; intros config Hp; [done |].
  cbn [parses forallb] in Hp. apply andb_true_iff in Hp as [Hn Hp].
  cbn [read_files]. unfold read_file, readable. cbn [omap list_omap].
  destruct (parse n) as [[e|blocks]|]; [done | |]; by rewrite IH.
Qed.

Lemma read_files_error parse config names name e :
  name ∈ names -> parse name = Some (inl e) ->
  exists e', read_files parse config names = inl e'.
Proof.
  revert config. induction names as [|n names IH]; intros config Hin He.
  - by apply elem_of_nil in Hin.
  - cbn [read_files]. unfold read_file.
    destruct (parse n) as [[e0|blocks]|] eqn:Hn; [by eexists | |];
      (apply elem_of_cons in Hin as [-> | Hin]; [congruence | by apply IH]).
Qed.

(** Files that do not mention [k] in a [DEFAULT] block leave its default. *)
Lemma read_keeps_default config files k :
  (forall blocks, blocks ∈ files -> default_after blocks k None = None) ->
  defaults (read config files) !! k = defaults config !! k.
Proof.
  unfold read. revert config.
  induction files as [|f files IH]; intros config Hf; [done |].
  cbn [foldl]. rewrite IH by (intros b Hb; apply Hf; by right).
  rewrite read_blocks_default, default_after_before.
  rewrite (Hf f) by left. done.
Qed.

Lemma read_app config l1 l2 : read config (l1 ++ l2) = read (read config l1) l2.
Proof. unfold read. apply foldl_app. Qed.

Lemma readable_app parse l1 l2 :
  readable parse (l1 ++ l2) = (readable parse l1 ++ readable parse l2)%list.
Proof. unfold readable. apply omap_app. Qed.

Lemma elem_of_readable parse names blocks :
  blocks ∈ readable parse names ->
  exists name, name ∈ names ∧ parse name = Some (inr blocks).
Proof.
  unfold readable. intros (name & Hin & Hp)%list_elem_of_omap.
  exists name. split; [done |]. by destruct (parse name) as [[|]|]; simplify_eq.
Qed.

Lemma get_default config opt v :
  sections config !! DEFAULTSECT = None ->
  defaults config !! optionxform opt = Some v ->
  get_raw config DEFAULTSECT opt = inr v
  ∧ (has_reference v = false -> get config DEFAULTSECT opt = inr v).
Proof.
  intros Hs Hd.
  assert (Hr : get_raw config DEFAULTSECT opt = inr v)
    by (unfold get_raw; by rewrite Hs, Hd).
  split; [done |]. intros Hv. by apply get_plain.
Qed.

(** X21: files that cannot be opened are skipped without a word (line 100):
    as long as no listed file has a parse error, the script runs on the files
    that exist, read in the order of the list, and a host without any
    configuration file runs on the built-in defaults. *)
Theorem unreadable_files_are_skipped env args etc_d local_d parse :
  parses parse (configfiles args etc_d local_d) = true ->
  script env args etc_d local_d parse =
    aptcron env args (readable parse (configfiles args etc_d local_d))
  ∧ ((forall name, parse name = None) ->
     script env args etc_d local_d parse = aptcron env args []).
Proof.
  intros Hp.
  assert (Hs : script env args etc_d local_d parse =
            aptcron env args (readable parse (configfiles args etc_d local_d))).
  { unfold script, aptcron. by rewrite read_files_readable. }
  clear Hp.
  split; [done |]. intros Hnone. rewrite Hs. f_equal. clear Hs.
  unfold readable. induction (configfiles args etc_d local_d) as [|n l IH]; [done |].
  cbn [omap list_omap]. by rewrite Hnone.
Qed.

(** X22: a configuration file with a parse error ends the script at line 100,
    outside of every handler: an uncaught exception before the privilege
    check, with nothing printed, queried or sent. *)
Theorem parse_error_is_uncaught env args etc_d local_d parse name e w :
  name ∈ configfiles args etc_d local_d ->
  parse name = Some (inl e) ->
  exists e', script env args etc_d local_d parse w = (w, Raise e').
Proof.
  intros Hin He.
  destruct (read_files_error parse (builtin_defaults env) _ _ _ Hin He) as [e' Hr].
  exists e'. unfold script. by rewrite Hr.
Qed.

(** X23: [--config] replaces the discovery (lines 95-96): with a path given,
    that file is the only one opened; what lies in [/etc] or in the working
    directory has no influence on the run. *)
Theorem explicit_config_is_exclusive
    env args etc_d local_d etc_d' local_d' (parse parse' : file_system) path :
  config_file args = Some path ->
  path ≠ "" ->
  parse' path = parse path ->
  configfiles args etc_d local_d = [path]
  ∧ script env args etc_d local_d parse = script env args etc_d' local_d' parse'.
Proof.
  intros Hc Hne Hp.
  assert (Hl : forall e l, configfiles args e l = [path]).
  { intros e l. unfold configfiles. rewrite Hc. cbn [truthy default].
    apply String.eqb_neq in Hne. by rewrite Hne. }
  split; [apply Hl |]. unfold script. rewrite !Hl.
  cbn [read_files]. unfold read_file. by rewrite Hp.
Qed.

(** X24: the local file has the last word over the system files (lines
    98-100).  Without [--config], a default that [aptcron.conf] in the
    working directory sets, and that no local drop-in sets again, is the
    value stored after reading, whatever [/etc/aptcron.conf] and the
    drop-ins under [/etc/aptcron.d] say; [config.get] returns that value as
    it is unless it holds a [%(] reference. *)
Theorem local_file_overrides_system env args etc_d local_d parse blocks opt v :
  truthy (config_file args) = false ->
  parses parse (configfiles args etc_d local_d) = true ->
  parse "aptcron.conf" = Some (inr blocks) ->
  default_after blocks (optionxform opt) None = Some v ->
  (forall name later, name ∈ local_d -> parse name = Some (inr later) ->
     default_after later (optionxform opt) None = None) ->
  exists config,
    read_files parse (builtin_defaults env) (configfiles args etc_d local_d)
      = inr config
    ∧ get_raw config DEFAULTSECT opt = inr v
    ∧ (has_reference v = false -> get config DEFAULTSECT opt = inr v).
Proof.
  intros Hc Hp Hlocal Hv Hlater.
  rewrite read_files_readable by done. eexists. split; [reflexivity |].
  apply get_default; [apply read_default |]. set (k := optionxform opt) in *.
  unfold configfiles. rewrite Hc.
  rewrite readable_app, read_app.
  change ("aptcron.conf" :: sorted local_d)
    with (["aptcron.conf"] ++ sorted local_d)%list.
  rewrite readable_app, read_app.
  rewrite read_keeps_default.
  - assert (Hone : readable parse ["aptcron.conf"] = [blocks]).
    { unfold readable. cbn [omap list_omap]. by rewrite Hlocal. }
    rewrite Hone. unfold read at 1. cbn [foldl].
    rewrite read_blocks_default, default_after_before. by rewrite Hv.
  - intros later (name & Hin & Hparse)%elem_of_readable.
    apply (Hlater name); [| done].
    unfold sorted in Hin. by rewrite merge_sort_Permutation in Hin.
Qed.

(** Files that leave [k] alone or set it to [v] keep the default [v]. *)
Lemma read_keeps_value config files k v :
  (forall blocks, blocks ∈ files ->
     default_after blocks k None = None ∨ default_after blocks k None = Some v) ->
  defaults config !! k = Some v ->
  defaults (read config files) !! k = Some v.
Proof.
  unfold read. revert config.
  induction files as [|f files IH]; intros config Hf Hc; [done |].
  cbn [foldl]. apply IH; [intros b Hb; apply Hf; by right |].
  rewrite read_blocks_default, default_after_before.
  destruct (Hf f) as [-> | ->]; [left | |]; done.
Qed.

(** The names that follow [name] in the sorted listing are not below it. *)
Lemma sorted_split names name :
  name ∈ names ->
  exists l1 l2, sorted names = (l1 ++ name :: l2)%list
                ∧ Forall (String.le name) l2
                ∧ (forall other, other ∈ l2 -> other ∈ names).
Proof.
  intros Hin.
  assert (Hs : name ∈ sorted names)
    by (unfold sorted; by rewrite merge_sort_Permutation).
  apply list_elem_of_split in Hs as (l1 & l2 & Hs). exists l1, l2.
  split; [done |].
  pose proof (StronglySorted_merge_sort String.le names) as Hsorted.
  fold (sorted names) in Hsorted. rewrite Hs in Hsorted.
  apply StronglySorted_app_1_r in Hsorted. apply StronglySorted_cons in Hsorted as [Hall _].
  split; [done |]. intros other Ho.
  assert (Hin' : other ∈ sorted names).
  { rewrite Hs. apply elem_of_app. right. by right. }
  unfold sorted in Hin'. by rewrite merge_sort_Permutation in Hin'.
Qed.

(** X25: the drop-ins of the working directory are read in the order of
    their names (line 99), after everything else: a default set by one of
    them is the value stored after reading unless a drop-in with a greater
    name sets it again, whatever the system files, the local file and the
    drop-ins with smaller names say; [config.get] returns that value as it
    is unless it holds a [%(] reference. *)
Theorem last_dropin_has_the_last_word
    env args etc_d local_d parse name blocks opt v :
  truthy (config_file args) = false ->
  parses parse (configfiles args etc_d local_d) = true ->
  name ∈ local_d ->
  parse name = Some (inr blocks) ->
  default_after blocks (optionxform opt) None = Some v ->
  (forall other later, other ∈ local_d -> other ≠ name -> String.le name other ->
     parse other = Some (inr later) ->
     default_after later (optionxform opt) None = None) ->
  exists config,
    read_files parse (builtin_defaults env) (configfiles args etc_d local_d)
      = inr config
    ∧ get_raw config DEFAULTSECT opt = inr v
    ∧ (has_reference v = false -> get config DEFAULTSECT opt = inr v).
Proof.
  intros Hc Hp Hin Hparse Hv Hlater.
  rewrite read_files_readable by done. eexists. split; [reflexivity |].
  apply get_default; [apply read_default |]. set (k := optionxform opt) in *.
  unfold configfiles. rewrite Hc.
  destruct (sorted_split local_d name Hin) as (l1 & l2 & -> & Hle & Hl2).
  replace (("/etc/aptcron.conf" :: sorted etc_d) ++ "aptcron.conf" :: l1 ++ name :: l2)%list
    with ((("/etc/aptcron.conf" :: sorted etc_d) ++ "aptcron.conf" :: l1)
            ++ [name] ++ l2)%list
    by (by rewrite <-(assoc_L (++))).
  rewrite !readable_app, !read_app.
  apply read_keeps_value.
  - intros later (other & Ho & Hother)%elem_of_readable.
    destruct (decide (other = name)) as [-> | Hne].
    + right. congruence.
    + left. apply (Hlater other); [by apply Hl2 | done | | done].
      by eapply Forall_forall in Hle.
  - assert (Hone : readable parse [name] = [blocks]).
    { unfold readable. cbn [omap list_omap]. by rewrite Hparse. }
    rewrite Hone. unfold read at 1. cbn [foldl].
    rewrite read_blocks_default, default_after_before. by rewrite Hv.
Qed.

(** ** The failure notice and [--no-mail] *)

(** A run that failed before dispatch, as the call of [send_mail]. *)
Lemma main_failed env config args w w' line :
  failed_before_dispatch env config args w w' line ->
  main env config args w =
    send_mail env config args 1 (set_sys_stdout (sys_stdout w' +:+ line +:+ nl) w')
  ∧ blank line = false.
Proof.
  intros [Hu | w1 e Hu Hr].
  - split; [by apply main_not_root | done].
  - split; [by apply main_raised | apply blank_describe].
Qed.

(** X26: a failure is not mailed when the subject does not format (lines
    139, 163-165).  The subject template is formatted against the context as
    it is when the failure is dispatched; when that raises, as [{num}] does
    for every failure before line 192, no connection is made, the formatting
    error alone goes to stderr and the exit code is 2, not 1. *)
Theorem unformattable_subject_hides_failure env config args w w' line tpl e :
  no_mail args = false ->
  failed_before_dispatch env config args w w' line ->
  get config (section args) "mail-subject" = inr tpl ->
  format env tpl (context w') = inl e ->
  main env config args w =
    (set_stderr (stderr w' +:+ describe e +:+ nl)
       (set_sys_stdout (sys_stdout w' +:+ line +:+ nl) w'), Exit 2).
Proof.
  intros Hn Hf Ht He. destruct (main_failed _ _ _ _ _ _ Hf) as [-> Hb].
  set (w1 := set_sys_stdout _ w').
  assert (Hc : compose_message env config args w1 = (w1, Raise e)).
  { unfold compose_message, bind at 1, getvalue. cbv beta iota. rewrite strip_eqb.
    assert (Hw : blank (sys_stdout w1) = false).
    { subst w1. cbn [sys_stdout set_sys_stdout]. rewrite !blank_append, Hb.
      by rewrite andb_false_r. }
    rewrite Hw. unfold bind at 1, the_context. cbv beta iota. rewrite Ht.
    rewrite (bind_ok (call (inr tpl)) _ _ _ tpl eq_refl).
    replace (context w1) with (context w') by done. by rewrite He. }
  rewrite send_mail_by_mail by done. unfold deliver.
  by rewrite (bind_raise _ _ _ _ _ Hc).
Qed.

(** X27: with [--no-mail] the relay is out of the picture (lines 130-131,
    167): no call is made on an SMTP session, nothing is written to stderr,
    the exit code is 0 or 1, never 2, and after a guarded block that went
    through the stripped report is what is printed, followed by a newline. *)
Theorem no_mail_never_contacts_relay env config args w :
  no_mail args = true ->
  smtp_calls (main env config args w).1 = smtp_calls w
  ∧ stderr (main env config args w).1 = stderr w
  ∧ ((main env config args w).2 = Exit 0 ∨ (main env config args w).2 = Exit 1)
  ∧ (forall w', getuid env = 0 -> report env config args w = (w', Ok tt) ->
       main env config args w =
         (set_stdout (stdout w +:+ strip (sys_stdout w') +:+ nl) w', Exit 0)).
Proof.
  intros Hn.
  assert (Hfail : forall w' line,
            failed_before_dispatch env config args w w' line ->
            smtp_calls (main env config args w).1 = smtp_calls w
            ∧ stderr (main env config args w).1 = stderr w
            ∧ ((main env config args w).2 = Exit 0 ∨ (main env config args w).2 = Exit 1)).
  { intros w' line Hf. destruct (main_failed _ _ _ _ _ _ Hf) as [-> _].
    rewrite send_mail_by_print by done. cbn [fst snd].
    destruct Hf as [Hu | w1 e Hu Hr]; [by auto |].
    pose proof (report_keeps_smtp_calls env config args w) as H1.
    pose proof (report_keeps_stderr env config args w) as H2.
    rewrite Hr in H1, H2. cbn [fst] in H1, H2. by auto. }
  destruct (decide (getuid env = 0)) as [Hu | Hu].
  - destruct (report env config args w) as [w' [[]|e|c]] eqn:Hr.
    + rewrite (main_reported _ _ _ _ _ Hu Hr), send_mail_by_print by done.
      pose proof (report_keeps_smtp_calls env config args w) as H1.
      pose proof (report_keeps_stderr env config args w) as H2.
      pose proof (report_keeps_stdout env config args w) as H3.
      rewrite Hr in H1, H2, H3. cbn [fst] in H1, H2, H3. cbn [fst snd].
      repeat split; [done | done | by left |].
      intros w2 _ [= <-]. by rewrite H3.
    + destruct (Hfail w' (describe e)) as (H1 & H2 & H3); [by apply raised |].
      repeat split; [done .. |]. intros w2 _ [=].
    + by destruct (no_exit_report env config args w w' c).
  - destruct (Hfail w ROOT_REQUIRED) as (H1 & H2 & H3); [by apply not_root |].
    repeat split; [done .. |]. intros w2 Hu'. done.
Qed.

(** ** The reference serialization keeps the contract of [pickle] *)

Module ReferenceFacts.
Import Reference.

Lemma read_ones_ones n r : read_ones (ones n +:+ r) = Some (n, r).
Proof.
  induction n as [|n IH]; [done |].
  cbn [ones]. rewrite append_cons. cbn [read_ones]. by rewrite IH.
Qed.

Lemma take_length s r : take (String.length s) (s +:+ r) = Some (s, r).
Proof.
  induction s as [|c s IH]; [done |].
  cbn [String.length]. rewrite append_cons. cbn [take]. by rewrite IH.
Qed.

Lemma load_dump_str s r : load_str (dump_str s +:+ r) = Some (s, r).
Proof.
  unfold load_str, dump_str. rewrite append_assoc, read_ones_ones.
  apply take_length.
Qed.

Lemma load_dump_updates l :
  load_updates (length l) (dump_updates l) = Some l.
Proof.
  induction l as [|[[a b] c] l IH]; [done |].
  cbn [length load_updates dump_updates]. unfold dump_update. cbn [fst snd].
  rewrite !append_assoc, !load_dump_str. by rewrite IH.
Qed.

Lemma roundtrip changes : pickle_roundtrip (env changes).
Proof.
  intros l. cbn [pickle_load pickle_dump env]. unfold loads, dumps.
  by rewrite read_ones_ones, load_dump_updates.
Qed.

End ReferenceFacts.

(** ** The statements at concrete runs *)

Import Reference Runs.

(** C1: against the claim, at two runs at the defaults (no file, no flag).
    As an ordinary user the privilege notice is captured and no package
    query is made, as the claim says; as root with an index that cannot be
    refreshed the error is caught and its type name and message are
    captured, as the claim says.  But neither failure is dispatched with
    exit code 1: the subject template needs [{num}], which is put in the
    context at line 192 only, so that [send_mail] fails with a KeyError, no
    mail is sent and the exit code is 2. *)
Theorem early_failures_exit_2_unmailed :
  let user := aptcron (user_env [foo]) args [] (initial_world (user_env [foo]) NoDir) in
  let root := aptcron (offline_env [foo]) args []
                (initial_world (offline_env [foo]) NoDir) in
  (sys_stdout user.1 = "aptcron requires root-privileges to run." +:+ nl
   ∧ apt_calls user.1 = []
   ∧ smtp_calls user.1 = []
   ∧ stderr user.1 = "KeyError: 'num'" +:+ nl
   ∧ user.2 = Exit 2)
  ∧ (sys_stdout root.1 = "FetchFailedException: Could not resolve host" +:+ nl
     ∧ smtp_calls root.1 = []
     ∧ stderr root.1 = "KeyError: 'num'" +:+ nl
     ∧ root.2 = Exit 2).
Proof. repeat split; vm_compute; reflexivity. Qed.

(** C2: against the claim, at a run as root at the defaults with nothing to
    report.  Without [--no-mail] dispatch is the no-op of the claim: nothing
    is written and the script falls off its end.  With [--no-mail] the same
    empty report makes [send_mail] write an empty line to the real standard
    output and exit: the guard of line 135 is in the mail branch only. *)
Theorem empty_report_with_no_mail_prints :
  let e := env [] in
  let quiet := aptcron e args [] (initial_world e NoDir) in
  let printed := aptcron e (command_line false true "DEFAULT" None) []
                   (initial_world e NoDir) in
  (strip (sys_stdout quiet.1) = "" ∧ stdout quiet.1 = "" ∧ quiet.2 = Ok tt)
  ∧ (strip (sys_stdout printed.1) = "" ∧ stdout printed.1 = nl ∧ printed.2 = Exit 0).
Proof. repeat split; vm_compute; reflexivity. Qed.

(** An empty report, at the defaults: nothing happens and the status is 0. *)
Lemma empty_report_is_not_mailed_witness :
  let e := env [] in
  let w := initial_world e NoDir in
  let w' := (report e (plain e) args w).1 in
  (getuid e = 0
   ∧ no_mail args = false
   ∧ report e (plain e) args w = (w', Ok tt)
   ∧ strip (sys_stdout w') = "")
  ∧ main e (plain e) args w = (w', Ok tt)
  ∧ exit_status (main e (plain e) args w).2 = 0.
Proof.
  intros e w w'.
  assert (H1 : getuid e = 0) by reflexivity.
  assert (H0 : no_mail args = false) by reflexivity.
  assert (H2 : report e (plain e) args w = (w', Ok tt)) by (vm_compute; reflexivity).
  assert (H3 : strip (sys_stdout w') = "") by (vm_compute; reflexivity).
  split; [repeat split; assumption |].
  destruct (empty_report_is_not_mailed e (plain e) args w w' H1 H0 H2 H3)
    as (_ & Hm & Hx & _).
  split; assumption.
Defined.

(** Against C3 as the specification words it: in only-new mode, with a
    baseline file that holds no update, as a run without pending updates
    leaves it, and one pending update: a prior baseline exists, and the
    header is the plain one. *)
Lemma empty_baseline_gives_plain_header :
  let e := env [foo] in
  let w := initial_world e (Dir (Some (dumps []))) in
  let r := report e (tracking e) args w in
  exists_SEEN_CACHE (fs w) = true
  ∧ getboolean (tracking e) (section args) "only-new" = inr true
  ∧ r.2 = Ok tt
  ∧ sys_stdout r.1 =
      "1 available update(s):" +:+ nl +:+ "* foo: 2.0 -> 1.0" +:+ nl +:+ nl
      +:+ "Please update all packages at your earliest convenience." +:+ nl
  ∧ sys_stdout r.1 ≠
      "1 available update(s), new since the last mail:" +:+ nl
      +:+ "* foo: 2.0 -> 1.0" +:+ nl +:+ nl
      +:+ "Please update all packages at your earliest convenience." +:+ nl.
Proof.
  intros e w r. repeat split; vm_compute; first [reflexivity | discriminate].
Qed.

(** One update and no baseline: the plain header, the line and the reminder. *)
Lemma report_follows_header_rule_witness :
  let e := env [foo] in
  let w := initial_world e NoDir in
  (apt_Cache e = None
   ∧ getboolean (plain e) (section args) "no-update" = inr false
   ∧ apt_update e = None
   ∧ apt_changes e = inr [foo]
   ∧ getboolean (plain e) (section args) "only-new" = inr false
   ∧ getboolean (plain e) (section args) "force" = inr false
   ∧ baseline e false (fs w) = inr [])
  ∧ exists w',
      report e (plain e) args w = (w', Ok tt)
      ∧ sys_stdout w' =
          "1 available update(s):" +:+ nl +:+ "* foo: 2.0 -> 1.0" +:+ nl
          +:+ nl +:+ "Please update all packages at your earliest convenience." +:+ nl.
Proof.
  intros e w.
  assert (H1 : apt_Cache e = None) by reflexivity.
  assert (H2 : getboolean (plain e) (section args) "no-update" = inr false)
    by (vm_compute; reflexivity).
  assert (H3 : apt_update e = None) by reflexivity.
  assert (H4 : apt_changes e = inr [foo]) by reflexivity.
  assert (H5 : getboolean (plain e) (section args) "only-new" = inr false)
    by (vm_compute; reflexivity).
  assert (H6 : getboolean (plain e) (section args) "force" = inr false)
    by (vm_compute; reflexivity).
  assert (H7 : baseline e false (fs w) = inr []) by reflexivity.
  split; [repeat split; assumption |].
  destruct (report_follows_header_rule e (plain e) args w false false false [foo] []
              H1 H2 (fun _ => H3) H4 H5 H6 H7)
    as (w' & text & Hr & Hs & Ht & _).
  exists w'. split; [exact Hr |]. rewrite Hs, Ht. vm_compute. reflexivity.
Defined.

(** Nothing pending and a baseline on disk: commit deletes the file. *)
Lemma commit_resets_or_rewrites_witness :
  let e := env [] in
  let w := counted e (Dir (Some (dumps [foo]))) 0 in
  (getboolean (tracking e) (section args) "only-new" = inr true
   ∧ context w !! "num" = Some (CInt 0))
  ∧ exists w',
      commit e (tracking e) args [foo] [] w = (w', Ok tt)
      ∧ fs w' = Dir None.
Proof.
  intros e w.
  assert (H1 : getboolean (tracking e) (section args) "only-new" = inr true)
    by (vm_compute; reflexivity).
  assert (H2 : context w !! "num" = Some (CInt 0)) by (vm_compute; reflexivity).
  split; [split; assumption |].
  destruct (commit_resets_or_rewrites e (tracking e) args [foo] [] w 0 H1 H2)
    as (w' & Hc & Hreset & _).
  exists w'. split; [exact Hc |]. apply Hreset; reflexivity.
Defined.

(** [smtp-starttls = yes] with a relay that knows no STARTTLS: the mail goes
    out on the plain connection and the exit code is 0. *)
Lemma starttls_policy_witness :
  let e := plain_relay_env [foo] in
  let c := starttls_yes e in
  let w0 := after_report e in
  let w := called (CallSMTP "localhost" 25) w0 in
  let x := Exn "SMTPException" true "STARTTLS extension not supported by server." in
  (get c (section args) "smtp-starttls" = inr "yes"
   ∧ starttls e = Some x
   ∧ exn_smtp x = true
   ∧ no_mail args = false
   ∧ compose_message e c args w0 = (w, Ok (Some foo_mail))
   ∧ get c (section args) "smtp-user" = inr ""
   ∧ get c (section args) "smtp-password" = inr ""
   ∧ sendmail e = None
   ∧ quit e = None)
  ∧ exists final,
      send_mail e c args 0 w0 = (final, Exit 0)
      ∧ smtp_calls final =
          [CallSMTP "localhost" 25; CallStarttls;
           CallSendmail "root@mail.example.org" ["root@mail.example.org"] foo_mail;
           CallQuit].
Proof.
  intros e c w0 w x.
  assert (H1 : get c (section args) "smtp-starttls" = inr "yes")
    by (vm_compute; reflexivity).
  assert (H2 : starttls e = Some x) by reflexivity.
  assert (H3 : exn_smtp x = true) by reflexivity.
  assert (H4 : no_mail args = false) by reflexivity.
  assert (H5 : compose_message e c args w0 = (w, Ok (Some foo_mail)))
    by (vm_compute; reflexivity).
  assert (H6 : get c (section args) "smtp-user" = inr "")
    by (vm_compute; reflexivity).
  assert (H7 : get c (section args) "smtp-password" = inr "")
    by (vm_compute; reflexivity).
  assert (H8 : sendmail e = None) by reflexivity.
  assert (H9 : quit e = None) by reflexivity.
  split; [repeat split; assumption |].
  destruct (starttls_policy e c args w "yes" H1) as (_ & _ & Hyes & _).
  destruct (Hyes eq_refl x H2 H3) as [_ Hgo].
  destruct (Hgo w0 foo_mail 0 "" "" H4 H5 H6 H7 (fun _ => eq_refl) H8 H9)
    as (final & Hs & Hc & _).
  exists final. split; [exact Hs |]. rewrite Hc. vm_compute. reflexivity.
Defined.

(** One update known, two pending: after commit the baseline holds both. *)
Lemma commit_then_load_accumulates_witness :
  let e := env [foo; bar] in
  let w := counted e (Dir (Some (dumps [foo]))) 2 in
  (pickle_roundtrip e
   ∧ getboolean (tracking e) (section args) "only-new" = inr true
   ∧ context w !! "num" = Some (CInt 2)
   ∧ 2 > 0)
  ∧ exists w',
      commit e (tracking e) args [foo] (filter_new [foo; bar] [foo]) w = (w', Ok tt)
      ∧ exists loaded,
          load e (tracking e) args [] w' = (w', Ok (loaded, filter_new [] loaded))
          ∧ foo ∈ loaded ∧ bar ∈ loaded.
Proof.
  intros e w.
  assert (H1 : pickle_roundtrip e) by apply ReferenceFacts.roundtrip.
  assert (H2 : getboolean (tracking e) (section args) "only-new" = inr true)
    by (vm_compute; reflexivity).
  assert (H3 : context w !! "num" = Some (CInt 2)) by (vm_compute; reflexivity).
  assert (H4 : 2 > 0) by reflexivity.
  split; [repeat split; assumption |].
  destruct (commit_then_load_accumulates e (tracking e) args [foo] [foo; bar] w 2
              H1 H2 H3 H4) as (w' & Hc & Hl).
  exists w'. split; [exact Hc |].
  destruct (Hl []) as (loaded & Hload & _ & Hin).
  exists loaded. split; [exact Hload |].
  split; apply Hin; [left | right]; repeat constructor.
Defined.

(** With no file and [--only-new] alone, the flag is taken and everything
    else is the built-in default. *)
Lemma cli_overrides_precedence_witness :
  let e := env [] in
  let a := command_line true false "DEFAULT" None in
  (section a = DEFAULTSECT
   ∨ (section a ≠ "" ∧ is_Some (sections (read (builtin_defaults e) []) !! section a)))
  ∧ exists config,
      (forall w, cli_overrides a (read (builtin_defaults e) []) w = (w, Ok config))
      ∧ get_raw config (section a) "only-new" = inr "yes"
      ∧ get config (section a) "only-new" = inr "yes"
      ∧ get_raw config (section a) "smtp-starttls" = inr "force".
Proof.
  intros e a.
  assert (H : section a = DEFAULTSECT
     ∨ (section a ≠ "" ∧ is_Some (sections (read (builtin_defaults e) []) !! section a)))
    by (left; reflexivity).
  split; [exact H |].
  destruct (cli_overrides_precedence e a [] H) as (config & Hrun & Hraw & Hget & _).
  exists config. split; [exact Hrun |].
  split; [rewrite Hraw; reflexivity |].
  split; [apply Hget; reflexivity | rewrite Hraw; reflexivity].
Defined.

(** Against C8 as the specification words it: [--smtp-user ''] is supplied
    on the command line to clear the account named in a file, and the file
    value stays in force. *)
Lemma empty_cli_value_does_not_override :
  let e := env [] in
  let a := command_line false false "DEFAULT" (Some "") in
  let w := initial_world e NoDir in
  smtp_user a = Some ""
  ∧ get (read (builtin_defaults e) [account_conf]) (section a) "smtp-user" = inr "bob"
  ∧ exists config,
      cli_overrides a (read (builtin_defaults e) [account_conf]) w = (w, Ok config)
      ∧ get config (section a) "smtp-user" = inr "bob"
      ∧ get config (section a) "smtp-user" ≠ inr "".
Proof.
  intros e a w. split; [reflexivity |]. split; [vm_compute; reflexivity |].
  eexists. split; [reflexivity |]. split; [vm_compute; reflexivity |].
  vm_compute. discriminate.
Qed.


(** Nothing pending and no cache directory: the run leaves an empty baseline. *)
Lemma empty_run_creates_empty_baseline_witness :
  let e := env [] in
  let w := initial_world e NoDir in
  (apt_Cache e = None
   ∧ getboolean (tracking e) (section args) "no-update" = inr false
   ∧ apt_update e = None
   ∧ apt_changes e = inr []
   ∧ getboolean (tracking e) (section args) "only-new" = inr true
   ∧ getboolean (tracking e) (section args) "force" = inr false
   ∧ exists_SEEN_CACHE (fs w) = false)
  ∧ exists w',
      report e (tracking e) args w = (w', Ok tt)
      ∧ fs w' = Dir (Some (dumps []))
      ∧ pickle_load e (dumps []) = inr [].
Proof.
  intros e w.
  assert (H1 : apt_Cache e = None) by reflexivity.
  assert (H2 : getboolean (tracking e) (section args) "no-update" = inr false)
    by (vm_compute; reflexivity).
  assert (H3 : apt_update e = None) by reflexivity.
  assert (H4 : apt_changes e = inr []) by reflexivity.
  assert (H5 : getboolean (tracking e) (section args) "only-new" = inr true)
    by (vm_compute; reflexivity).
  assert (H6 : getboolean (tracking e) (section args) "force" = inr false)
    by (vm_compute; reflexivity).
  assert (H7 : exists_SEEN_CACHE (fs w) = false) by reflexivity.
  split; [repeat split; assumption |].
  destruct (empty_run_creates_empty_baseline e (tracking e) args w false false
              H1 H2 (fun _ => H3) H4 H5 H6 H7) as (w' & Hr & Hf & _).
  exists w'. split; [exact Hr |]. split; [exact Hf | reflexivity].
Defined.

(** A seen-cache that does not unpickle, at the defaults: the run does not
    look at it. *)
Lemma seen_cache_ignored_without_only_new_witness :
  let e := env [foo] in
  let w := initial_world e (Dir (Some "garbage")) in
  getboolean (plain e) (section args) "only-new" ≠ inr true
  ∧ fs (report e (plain e) args w).1 = Dir (Some "garbage").
Proof.
  intros e w.
  assert (H : getboolean (plain e) (section args) "only-new" ≠ inr true)
    by (vm_compute; discriminate).
  split; [exact H |].
  destruct (seen_cache_ignored_without_only_new e (plain e) args w H) as [_ Hfs].
  rewrite Hfs. reflexivity.
Defined.

(** As an ordinary user: APT is not called and the notice is the report. *)
Lemma not_root_does_nothing_witness :
  let e := user_env [foo] in
  let w := initial_world e NoDir in
  getuid e ≠ 0
  ∧ apt_calls (main e (plain e) args w).1 = []
  ∧ sys_stdout (main e (plain e) args w).1 = ROOT_REQUIRED +:+ nl.
Proof.
  intros e w.
  assert (H : getuid e ≠ 0) by (vm_compute; discriminate).
  split; [exact H |].
  destruct (not_root_does_nothing e (plain e) args w H) as (Ha & _ & _ & Hs).
  split; [rewrite Ha | rewrite Hs]; reflexivity.
Defined.

(** As an ordinary user the exit code is 1 or 2. *)
Lemma main_exit_codes_witness :
  let e := user_env [foo] in
  let w := initial_world e NoDir in
  getuid e ≠ 0
  ∧ ((main e (plain e) args w).2 = Exit 1 ∨ (main e (plain e) args w).2 = Exit 2).
Proof.
  intros e w.
  assert (H : getuid e ≠ 0) by (vm_compute; discriminate).
  split; [exact H |].
  destruct (main_exit_codes e (plain e) args w) as (_ & _ & Hu). exact (Hu H).
Defined.

(** With the account of [account_conf] the session starts with the login. *)
Lemma login_policy_witness :
  let e := env [foo] in
  let w := initial_world e NoDir in
  (get (with_account e) (section args) "smtp-user" = inr "bob"
   ∧ get (with_account e) (section args) "smtp-password" = inr "secret")
  ∧ exists rest,
      smtp_calls (transmit e (with_account e) args foo_mail w).1 =
        CallLogin "bob" "secret" :: rest.
Proof.
  intros e w.
  assert (H1 : get (with_account e) (section args) "smtp-user" = inr "bob")
    by (vm_compute; reflexivity).
  assert (H2 : get (with_account e) (section args) "smtp-password" = inr "secret")
    by (vm_compute; reflexivity).
  split; [split; assumption |].
  destruct (login_policy e (with_account e) args foo_mail w "bob" "secret" H1 H2)
    as [_ Hl].
  assert (Hu : "bob" ≠ "") by discriminate.
  assert (Hp : "secret" ≠ "") by discriminate.
  destruct (Hl Hu Hp) as (rest & Hr & _).
  exists rest. exact Hr.
Defined.

(** One update at the defaults, with a relay that accepts every step. *)
Lemma delivery_goes_through_witness :
  let e := env [foo] in
  let w0 := after_report e in
  let w := called (CallSMTP "localhost" 25) w0 in
  (no_mail args = false
   ∧ compose_message e (plain e) args w0 = (w, Ok (Some foo_mail))
   ∧ negotiate e (plain e) args w = (started w, Ok tt)
   ∧ get (plain e) (section args) "smtp-user" = inr ""
   ∧ get (plain e) (section args) "smtp-password" = inr ""
   ∧ sendmail e = None
   ∧ quit e = None)
  ∧ exists final,
      send_mail e (plain e) args 0 w0 = (final, Exit 0)
      ∧ smtp_calls final =
          [CallSMTP "localhost" 25; CallStarttls;
           CallSendmail "root@mail.example.org" ["root@mail.example.org"] foo_mail;
           CallQuit]
      ∧ stderr final = "".
Proof.
  intros e w0 w.
  assert (H1 : no_mail args = false) by reflexivity.
  assert (H2 : compose_message e (plain e) args w0 = (w, Ok (Some foo_mail)))
    by (vm_compute; reflexivity).
  assert (H3 : negotiate e (plain e) args w = (started w, Ok tt))
    by (vm_compute; reflexivity).
  assert (H4 : get (plain e) (section args) "smtp-user" = inr "")
    by (vm_compute; reflexivity).
  assert (H5 : get (plain e) (section args) "smtp-password" = inr "")
    by (vm_compute; reflexivity).
  assert (H6 : sendmail e = None) by reflexivity.
  assert (H7 : quit e = None) by reflexivity.
  split; [repeat split; assumption |].
  destruct (delivery_goes_through e (plain e) args 0 w0 w (started w) foo_mail "" ""
              H1 H2 H3 H4 H5 (fun _ => eq_refl) H6 H7)
    as (final & Hs & Hc & _ & He).
  exists final. split; [exact Hs |].
  split; [rewrite Hc | rewrite He]; vm_compute; reflexivity.
Defined.

(** The same run with a relay that hangs up at [quit]. *)
Lemma quit_failure_after_sending_witness :
  let e := hangup_env [foo] in
  let w0 := after_report e in
  let w := called (CallSMTP "localhost" 25) w0 in
  (no_mail args = false
   ∧ compose_message e (plain e) args w0 = (w, Ok (Some foo_mail))
   ∧ negotiate e (plain e) args w = (started w, Ok tt)
   ∧ get (plain e) (section args) "smtp-user" = inr ""
   ∧ get (plain e) (section args) "smtp-password" = inr ""
   ∧ sendmail e = None
   ∧ quit e = Some Disconnected)
  ∧ exists final,
      send_mail e (plain e) args 0 w0 = (final, Exit 2)
      ∧ CallSendmail "root@mail.example.org" ["root@mail.example.org"] foo_mail
          ∈ smtp_calls final
      ∧ stderr final = "SMTPServerDisconnected: Connection unexpectedly closed" +:+ nl.
Proof.
  intros e w0 w.
  assert (H1 : no_mail args = false) by reflexivity.
  assert (H2 : compose_message e (plain e) args w0 = (w, Ok (Some foo_mail)))
    by (vm_compute; reflexivity).
  assert (H3 : negotiate e (plain e) args w = (started w, Ok tt))
    by (vm_compute; reflexivity).
  assert (H4 : get (plain e) (section args) "smtp-user" = inr "")
    by (vm_compute; reflexivity).
  assert (H5 : get (plain e) (section args) "smtp-password" = inr "")
    by (vm_compute; reflexivity).
  assert (H6 : sendmail e = None) by reflexivity.
  assert (H7 : quit e = Some Disconnected) by reflexivity.
  split; [repeat split; assumption |].
  destruct (quit_failure_after_sending e (plain e) args 0 w0 w (started w) foo_mail
              "" "" Disconnected H1 H2 H3 H4 H5 (fun _ => eq_refl) H6 H7)
    as (final & Hs & Hc & He).
  exists final. split; [exact Hs |]. split; [exact Hc |].
  rewrite He. vm_compute. reflexivity.
Defined.

(** The defaults force STARTTLS: with a relay that has none the session ends
    after the attempt. *)
Lemma starttls_failure_aborts_witness :
  let e := plain_relay_env [foo] in
  let w0 := after_report e in
  let w := called (CallSMTP "localhost" 25) w0 in
  let x := Exn "SMTPException" true "STARTTLS extension not supported by server." in
  (no_mail args = false
   ∧ compose_message e (plain e) args w0 = (w, Ok (Some foo_mail))
   ∧ get (plain e) (section args) "smtp-starttls" = inr "force"
   ∧ starttls e = Some x)
  ∧ (send_mail e (plain e) args 0 w0).2 = Exit 2
  ∧ exists host port,
      smtp_calls (send_mail e (plain e) args 0 w0).1 =
        [CallSMTP host port; CallStarttls].
Proof.
  intros e w0 w x.
  assert (H1 : no_mail args = false) by reflexivity.
  assert (H2 : compose_message e (plain e) args w0 = (w, Ok (Some foo_mail)))
    by (vm_compute; reflexivity).
  assert (H3 : get (plain e) (section args) "smtp-starttls" = inr "force")
    by (vm_compute; reflexivity).
  assert (H4 : starttls e = Some x) by reflexivity.
  split; [repeat split; assumption |].
  pose proof (starttls_failure_aborts e (plain e) args 0 w0 w foo_mail "force" x
                H1 H2 H3 H4 (or_introl eq_refl)) as Hx.
  cbv zeta in Hx. destruct Hx as (Hs & host & port & Hc).
  split; [rewrite Hs; reflexivity |].
  exists host, port. exact Hc.
Defined.

(** [smtp-starttls = true] in a file: STARTTLS is not attempted. *)
Lemma other_starttls_values_disable_tls_witness :
  let e := plain_relay_env [foo] in
  let w := initial_world e NoDir in
  (get (starttls_true e) (section args) "smtp-starttls" = inr "true"
   ∧ "true" ≠ "yes" ∧ "true" ≠ "force")
  ∧ negotiate e (starttls_true e) args w = (w, Ok tt).
Proof.
  intros e w.
  assert (H1 : get (starttls_true e) (section args) "smtp-starttls" = inr "true")
    by (vm_compute; reflexivity).
  assert (H2 : "true" ≠ "yes") by discriminate.
  assert (H3 : "true" ≠ "force") by discriminate.
  split; [repeat split; assumption |].
  destruct (other_starttls_values_disable_tls e (starttls_true e) args w "true"
              H1 H2 H3) as [Hn _].
  exact Hn.
Defined.

(** A relay that refuses the connection: the error is printed on stderr and
    the session has seen the connection attempt alone. *)
Lemma composing_failure_sends_nothing_witness :
  let e := dead_relay_env [foo] in
  let w := after_report e in
  let x := Exn "error" false "[Errno 111] Connection refused" in
  (no_mail args = false
   ∧ compose_message e (plain e) args w = (called (CallSMTP "localhost" 25) w, Raise x))
  ∧ send_mail e (plain e) args 0 w =
      (set_stderr ("error: [Errno 111] Connection refused" +:+ nl)
         (called (CallSMTP "localhost" 25) w), Exit 2).
Proof.
  intros e w x.
  assert (H1 : no_mail args = false) by reflexivity.
  assert (H2 : compose_message e (plain e) args w =
                 (called (CallSMTP "localhost" 25) w, Raise x))
    by (vm_compute; reflexivity).
  split; [split; assumption |].
  destruct (composing_failure_sends_nothing e (plain e) args 0 w _ x H1 H2) as [Hs _].
  rewrite Hs. vm_compute. reflexivity.
Defined.

(** The mail of a run with one update at the defaults. *)
Lemma every_mail_is_the_report_witness :
  let e := env [foo] in
  let w0 := after_report e in
  let sent := CallSendmail "root@mail.example.org" ["root@mail.example.org"] foo_mail in
  (sent ∈ smtp_calls (send_mail e (plain e) args 0 w0).1 ∧ sent ∉ smtp_calls w0)
  ∧ payload foo_mail = strip (sys_stdout w0)
  ∧ exists tpl, get (plain e) (section args) "mail-subject" = inr tpl
                ∧ format e tpl (context w0) = inr "[aptcron] mail: 1 APT updates".
Proof.
  intros e w0 sent.
  assert (H1 : sent ∈ smtp_calls (send_mail e (plain e) args 0 w0).1)
    by (vm_compute; do 2 right; left).
  assert (H2 : sent ∉ smtp_calls w0)
    by (vm_compute; intros H; inversion H).
  split; [split; assumption |].
  destruct (every_mail_is_the_report e (plain e) args 0 w0 _ _ _ H1 H2)
    as (_ & _ & _ & Hp & _ & _ & _ & Hsub & _).
  split; [exact Hp | exact Hsub].
Defined.

(** [no-update = yes] in a file: APT opens the cache and lists the changes. *)
Lemma no_update_skips_refresh_witness :
  let e := env [foo] in
  let w := initial_world e NoDir in
  getboolean (without_refresh e) (section args) "no-update" = inr true
  ∧ apt_calls (report e (without_refresh e) args w).1 = [CallCache; CallChanges].
Proof.
  intros e w.
  assert (H : getboolean (without_refresh e) (section args) "no-update" = inr true)
    by (vm_compute; reflexivity).
  split; [exact H |].
  rewrite (no_update_skips_refresh e (without_refresh e) args w H). reflexivity.
Defined.

(** An index that cannot be refreshed: the guarded block stops there. *)
Lemma refresh_failure_is_fatal_witness :
  let e := offline_env [foo] in
  let w := initial_world e NoDir in
  (getuid e = 0
   ∧ apt_Cache e = None
   ∧ getboolean (plain e) (section args) "no-update" = inr false
   ∧ apt_update e = Some FetchFailed)
  ∧ report e (plain e) args w =
      (set_apt_calls [CallCache; CallUpdate] w, Raise FetchFailed).
Proof.
  intros e w.
  assert (H1 : getuid e = 0) by reflexivity.
  assert (H2 : apt_Cache e = None) by reflexivity.
  assert (H3 : getboolean (plain e) (section args) "no-update" = inr false)
    by (vm_compute; reflexivity).
  assert (H4 : apt_update e = Some FetchFailed) by reflexivity.
  split; [repeat split; assumption |].
  destruct (refresh_failure_is_fatal e (plain e) args w FetchFailed H1 H2 H3 H4)
    as [Hr _].
  exact Hr.
Defined.

(** In only-new mode with a seen-cache that does not unpickle. *)
Lemma corrupt_seen_cache_is_fatal_witness :
  let e := env [foo] in
  let w := initial_world e (Dir (Some "garbage")) in
  (apt_Cache e = None
   ∧ getboolean (tracking e) (section args) "no-update" = inr false
   ∧ apt_update e = None
   ∧ apt_changes e = inr [foo]
   ∧ getboolean (tracking e) (section args) "only-new" = inr true
   ∧ fs w = Dir (Some "garbage")
   ∧ pickle_load e "garbage" = inl UnpicklingError)
  ∧ exists w',
      report e (tracking e) args w = (w', Raise UnpicklingError)
      ∧ sys_stdout w' = ""
      ∧ fs w' = Dir (Some "garbage").
Proof.
  intros e w.
  assert (H1 : apt_Cache e = None) by reflexivity.
  assert (H2 : getboolean (tracking e) (section args) "no-update" = inr false)
    by (vm_compute; reflexivity).
  assert (H3 : apt_update e = None) by reflexivity.
  assert (H4 : apt_changes e = inr [foo]) by reflexivity.
  assert (H5 : getboolean (tracking e) (section args) "only-new" = inr true)
    by (vm_compute; reflexivity).
  assert (H6 : fs w = Dir (Some "garbage")) by reflexivity.
  assert (H7 : pickle_load e "garbage" = inl UnpicklingError)
    by (vm_compute; reflexivity).
  split; [repeat split; assumption |].
  destruct (corrupt_seen_cache_is_fatal e (tracking e) args w false [foo] "garbage"
              UnpicklingError H1 H2 (fun _ => H3) H4 H5 H6 H7)
    as (w' & Hr & Hs & Hf & _).
  exists w'. split; [exact Hr |]. split; [exact Hs | exact Hf].
Defined.

(** Two runs in a row that find the same update: the second one is silent. *)
Lemma same_updates_are_not_reported_twice_witness :
  let e := env [foo] in
  let w := initial_world e NoDir in
  let w2 := initial_world e (fs (report e (tracking e) args w).1) in
  (pickle_roundtrip e
   ∧ apt_Cache e = None
   ∧ getboolean (tracking e) (section args) "no-update" = inr false
   ∧ apt_update e = None
   ∧ apt_changes e = inr [foo]
   ∧ getboolean (tracking e) (section args) "only-new" = inr true
   ∧ getboolean (tracking e) (section args) "force" = inr false
   ∧ baseline e true (fs w) = inr []
   ∧ [foo] ≠ [])
  ∧ exists w2',
      report e (tracking e) args w2 = (w2', Ok tt)
      ∧ sys_stdout w2' = ""
      ∧ fs w2' = fs w2.
Proof.
  intros e w w2.
  assert (H0 : pickle_roundtrip e) by apply ReferenceFacts.roundtrip.
  assert (H1 : apt_Cache e = None) by reflexivity.
  assert (H2 : getboolean (tracking e) (section args) "no-update" = inr false)
    by (vm_compute; reflexivity).
  assert (H3 : apt_update e = None) by reflexivity.
  assert (H4 : apt_changes e = inr [foo]) by reflexivity.
  assert (H5 : getboolean (tracking e) (section args) "only-new" = inr true)
    by (vm_compute; reflexivity).
  assert (H6 : getboolean (tracking e) (section args) "force" = inr false)
    by (vm_compute; reflexivity).
  assert (H7 : baseline e true (fs w) = inr []) by reflexivity.
  assert (H8 : [foo] ≠ []) by discriminate.
  split; [repeat split; assumption |].
  destruct (same_updates_are_not_reported_twice e (tracking e) args w w2 false false
              [foo] [] H0 H1 H2 (fun _ => H3) H4 H5 H6 H7 H8 eq_refl)
    as (w2' & Hr & Hs & Hf & _).
  exists w2'. split; [exact Hr |]. split; [rewrite Hs; reflexivity | exact Hf].
Defined.

(** A host name without dot is its own short name. *)
Lemma shorthost_is_first_label_witness :
  has_dot "mail" = false ∧ split_dot_head "mail" = "mail".
Proof.
  assert (H : has_dot "mail" = false) by reflexivity.
  split; [exact H |].
  destruct (shorthost_is_first_label "mail") as (_ & _ & Hh). exact (Hh H).
Defined.

(** [--section bogus --no-mail] without any file: the run ends by the
    exception and has done nothing. *)
Lemma only_resolution_is_uncaught_witness :
  let e := env [foo] in
  let a := command_line false true "bogus" None in
  let w := initial_world e NoDir in
  (aptcron e a [] w).2 = Raise (NoSectionError "bogus")
  ∧ (aptcron e a [] w).1 = w.
Proof.
  intros e a w.
  assert (H : (aptcron e a [] w).2 = Raise (NoSectionError "bogus"))
    by (vm_compute; reflexivity).
  split; [exact H |].
  destruct (only_resolution_is_uncaught e a [] w _ H) as [_ Hw]. exact Hw.
Defined.

(** The same command line, by the flag that it supplies. *)
Lemma unknown_section_and_overrides_witness :
  let e := env [foo] in
  let a := command_line false true "bogus" None in
  let w := initial_world e NoDir in
  (section a ≠ ""
   ∧ section a ≠ DEFAULTSECT
   ∧ sections (read (builtin_defaults e) []) !! section a = None
   ∧ supplied a "no-mail" = Some "yes")
  ∧ aptcron e a [] w = (w, Raise (NoSectionError "bogus")).
Proof.
  intros e a w.
  assert (H1 : section a ≠ "") by (vm_compute; discriminate).
  assert (H2 : section a ≠ DEFAULTSECT) by (vm_compute; discriminate).
  assert (H3 : sections (read (builtin_defaults e) []) !! section a = None)
    by (vm_compute; reflexivity).
  assert (H4 : supplied a "no-mail" = Some "yes") by reflexivity.
  split; [repeat split; assumption |].
  pose proof (unknown_section_and_overrides e a [] w) as Hx.
  cbv zeta in Hx. destruct Hx as [Hx _].
  exact (Hx H1 H2 H3 "no-mail" "yes" H4).
Defined.

(** On [host_files] without drop-ins, the run is the one on the system file
    followed by the local file. *)
Lemma unreadable_files_are_skipped_witness :
  let e := env [foo] in
  parses host_files (configfiles args [] []) = true
  ∧ script e args [] [] host_files = aptcron e args [system_conf; local_conf].
Proof.
  intros e.
  assert (H : parses host_files (configfiles args [] []) = true)
    by (vm_compute; reflexivity).
  split; [exact H |].
  destruct (unreadable_files_are_skipped e args [] [] host_files H) as [Hs _].
  rewrite Hs. reflexivity.
Defined.

(** A system drop-in without section header ends the script at once. *)
Lemma parse_error_is_uncaught_witness :
  let e := env [foo] in
  let w := initial_world e NoDir in
  let broken := "/etc/aptcron.d/broken.conf" in
  (broken ∈ configfiles args [broken] []
   ∧ host_files broken = Some (inl MissingSectionHeaderError))
  ∧ exists x, script e args [broken] [] host_files w = (w, Raise x).
Proof.
  intros e w broken.
  assert (H1 : broken ∈ configfiles args [broken] [])
    by (vm_compute; right; left).
  assert (H2 : host_files broken = Some (inl MissingSectionHeaderError))
    by reflexivity.
  split; [split; assumption |].
  exact (parse_error_is_uncaught e args [broken] [] host_files broken _ w H1 H2).
Defined.

(** With [--config] the broken drop-in is not even opened. *)
Lemma explicit_config_is_exclusive_witness :
  let e := env [foo] in
  let a := config_line "/root/aptcron.conf" in
  (config_file a = Some "/root/aptcron.conf"
   ∧ "/root/aptcron.conf" ≠ ""
   ∧ host_files "/root/aptcron.conf" = host_files "/root/aptcron.conf")
  ∧ configfiles a ["/etc/aptcron.d/broken.conf"] [] = ["/root/aptcron.conf"]
  ∧ script e a ["/etc/aptcron.d/broken.conf"] [] host_files =
      script e a [] [] host_files.
Proof.
  intros e a.
  assert (H1 : config_file a = Some "/root/aptcron.conf") by reflexivity.
  assert (H2 : "/root/aptcron.conf" ≠ "") by discriminate.
  assert (H3 : host_files "/root/aptcron.conf" = host_files "/root/aptcron.conf")
    by reflexivity.
  split; [repeat split; assumption |].
  exact (explicit_config_is_exclusive e a ["/etc/aptcron.d/broken.conf"] [] [] []
           host_files host_files "/root/aptcron.conf" H1 H2 H3).
Defined.

(** The recipient of the local file wins over the one of the system file;
    the local drop-in names a relay only. *)
Lemma local_file_overrides_system_witness :
  let e := env [foo] in
  let drop_ins := ["aptcron.d/10-relay.conf"] in
  (truthy (config_file args) = false
   ∧ parses host_files (configfiles args [] drop_ins) = true
   ∧ host_files "aptcron.conf" = Some (inr local_conf)
   ∧ default_after local_conf "mail-to" None = Some "me@example.org")
  ∧ exists config,
      read_files host_files (builtin_defaults e) (configfiles args [] drop_ins)
        = inr config
      ∧ get_raw config DEFAULTSECT "mail-to" = inr "me@example.org"
      ∧ get config DEFAULTSECT "mail-to" = inr "me@example.org".
Proof.
  intros e drop_ins.
  assert (H1 : truthy (config_file args) = false) by reflexivity.
  assert (H2 : parses host_files (configfiles args [] drop_ins) = true)
    by (vm_compute; reflexivity).
  assert (H3 : host_files "aptcron.conf" = Some (inr local_conf)) by reflexivity.
  assert (H4 : default_after local_conf "mail-to" None = Some "me@example.org")
    by reflexivity.
  assert (H5 : forall name later, name ∈ drop_ins ->
            host_files name = Some (inr later) ->
            default_after later "mail-to" None = None).
  { intros name later ->%list_elem_of_singleton [= <-]. reflexivity. }
  split; [repeat split; assumption |].
  destruct (local_file_overrides_system e args [] drop_ins host_files local_conf
              "mail-to" "me@example.org" H1 H2 H3 H4 H5)
    as (config & Hr & Hraw & Hget).
  exists config. split; [exact Hr |]. split; [exact Hraw | exact (Hget eq_refl)].
Defined.

(** Two local drop-ins name a relay: the one of [20-backup.conf] is in
    force, in whatever order [glob] lists them. *)
Lemma last_dropin_has_the_last_word_witness :
  let e := env [foo] in
  let drop_ins := ["aptcron.d/20-backup.conf"; "aptcron.d/10-relay.conf"] in
  (truthy (config_file args) = false
   ∧ parses host_files (configfiles args [] drop_ins) = true
   ∧ "aptcron.d/20-backup.conf" ∈ drop_ins
   ∧ host_files "aptcron.d/20-backup.conf" = Some (inr backup_conf)
   ∧ default_after backup_conf "smtp-host" None = Some "backup.example.org")
  ∧ exists config,
      read_files host_files (builtin_defaults e) (configfiles args [] drop_ins)
        = inr config
      ∧ get_raw config DEFAULTSECT "smtp-host" = inr "backup.example.org"
      ∧ get config DEFAULTSECT "smtp-host" = inr "backup.example.org".
Proof.
  intros e drop_ins.
  assert (H1 : truthy (config_file args) = false) by reflexivity.
  assert (H2 : parses host_files (configfiles args [] drop_ins) = true)
    by (vm_compute; reflexivity).
  assert (H3 : "aptcron.d/20-backup.conf" ∈ drop_ins) by left.
  assert (H4 : host_files "aptcron.d/20-backup.conf" = Some (inr backup_conf))
    by reflexivity.
  assert (H5 : default_after backup_conf "smtp-host" None = Some "backup.example.org")
    by reflexivity.
  assert (H6 : forall other later, other ∈ drop_ins ->
            other ≠ "aptcron.d/20-backup.conf" ->
            String.le "aptcron.d/20-backup.conf" other ->
            host_files other = Some (inr later) ->
            default_after later "smtp-host" None = None).
  { intros other later [-> | ->%list_elem_of_singleton]%elem_of_cons Hne Hle _;
      [done | by vm_compute in Hle]. }
  split; [repeat split; assumption |].
  destruct (last_dropin_has_the_last_word e args [] drop_ins host_files
              "aptcron.d/20-backup.conf" backup_conf "smtp-host" "backup.example.org"
              H1 H2 H3 H4 H5 H6)
    as (config & Hr & Hraw & Hget).
  exists config. split; [exact Hr |]. split; [exact Hraw | exact (Hget eq_refl)].
Defined.

(** As an ordinary user at the defaults: the subject needs [{num}], which
    the context does not hold, and the notice is not mailed. *)
Lemma unformattable_subject_hides_failure_witness :
  let e := user_env [foo] in
  let w := initial_world e NoDir in
  let subject := "[aptcron] {shorthost}: {num} APT updates" in
  (no_mail args = false
   ∧ failed_before_dispatch e (plain e) args w w ROOT_REQUIRED
   ∧ get (plain e) (section args) "mail-subject" = inr subject
   ∧ format e subject (context w) = inl (KeyError "num"))
  ∧ main e (plain e) args w =
      (set_stderr ("KeyError: 'num'" +:+ nl)
         (set_sys_stdout (ROOT_REQUIRED +:+ nl) w), Exit 2).
Proof.
  intros e w subject.
  assert (H1 : no_mail args = false) by reflexivity.
  assert (H2 : failed_before_dispatch e (plain e) args w w ROOT_REQUIRED)
    by (apply not_root; discriminate).
  assert (H3 : get (plain e) (section args) "mail-subject" = inr subject)
    by (vm_compute; reflexivity).
  assert (H4 : format e subject (context w) = inl (KeyError "num"))
    by (vm_compute; reflexivity).
  split; [repeat split; assumption |].
  rewrite (unformattable_subject_hides_failure e (plain e) args w w ROOT_REQUIRED
             subject (KeyError "num") H1 H2 H3 H4).
  reflexivity.
Defined.

(** One update with [--no-mail]: the report is printed and the exit code
    is 0. *)
Lemma no_mail_never_contacts_relay_witness :
  let e := env [foo] in
  let a := command_line false true "DEFAULT" None in
  let w := initial_world e NoDir in
  no_mail a = true
  ∧ smtp_calls (main e (plain e) a w).1 = []
  ∧ stderr (main e (plain e) a w).1 = "".
Proof.
  intros e a w.
  assert (H : no_mail a = true) by reflexivity.
  split; [exact H |].
  destruct (no_mail_never_contacts_relay e (plain e) a w H) as (Hs & He & _).
  split; [rewrite Hs | rewrite He]; reflexivity.
Defined.

(** ** Scenarios *)

(** A value that refers to another option is stored as it is written and
    returned interpolated; what [--mail-from] supplies changes the recipient
    with it. *)
Example interpolated_recipient :
  let e := env [foo] in
  let merged := read (builtin_defaults e) [reply_conf] in
  let a := {| no_update := false; only_new := false; no_mail := false; force := false;
              section := "DEFAULT"; config_file := None;
              mail_from := Some "apt@example.org"; mail_to := None;
              mail_subject := None; smtp_host := None; smtp_port := None;
              smtp_user := None; smtp_password := None; smtp_starttls := None |} in
  get_raw merged "DEFAULT" "mail-to" = inr "%(mail-from)s"
  ∧ get merged "DEFAULT" "mail-to" = inr "root@mail.example.org"
  ∧ exists config,
      cli_overrides a merged (initial_world e NoDir) = (initial_world e NoDir, Ok config)
      ∧ get_raw config "DEFAULT" "mail-to" = inr "%(mail-from)s"
      ∧ get config "DEFAULT" "mail-to" = inr "apt@example.org".
Proof.
  split; [vm_compute; reflexivity |]. split; [vm_compute; reflexivity |].
  eexists. split; [reflexivity |]. split; vm_compute; reflexivity.
Qed.

(** A section that no file declares, without any other flag: the lookup
    fails in the guarded block and again in [send_mail]. *)
Example unknown_section_exit_2 :
  let e := env [foo] in
  let r := aptcron e (command_line false false "bogus" None) [] (initial_world e NoDir) in
  sys_stdout r.1 = "NoSectionError: No section: 'bogus'" +:+ nl
  ∧ stderr r.1 = "NoSectionError: No section: 'bogus'" +:+ nl
  ∧ r.2 = Exit 2.
Proof. repeat split; vm_compute; reflexivity. Qed.

(** The same section with [--no-mail]: line 110 raises outside of any
    handler. *)
Example unknown_section_uncaught :
  let e := env [foo] in
  let r := aptcron e (command_line false true "bogus" None) [] (initial_world e NoDir) in
  r.2 = Raise (NoSectionError "bogus") ∧ stdout r.1 = "" ∧ apt_calls r.1 = [].
Proof. repeat split; vm_compute; reflexivity. Qed.

(** Scenario B of the specification, with [force = yes] in a file. *)
Example forced_empty_report :
  let e := env [] in
  let r := aptcron e args [[("DEFAULT", [("force", "yes")])]] (initial_world e NoDir) in
  sys_stdout r.1 = "No packages found." +:+ nl ∧ r.2 = Exit 0.
Proof. repeat split; vm_compute; reflexivity. Qed.

(** Scenario D: the only pending update is in the baseline already; nothing
    is reported and the baseline is rewritten. *)
Example nothing_new_rewrites_baseline :
  let e := env [foo] in
  let r := aptcron e args [only_new_conf] (initial_world e (Dir (Some (dumps [foo])))) in
  sys_stdout r.1 = "" ∧ fs r.1 = Dir (Some (dumps [foo])) ∧ smtp_calls r.1 = []
  ∧ r.2 = Ok tt.
Proof. repeat split; vm_compute; reflexivity. Qed.

(** Scenario E: STARTTLS is forced by default and the relay has none. *)
Example forced_starttls_unsupported :
  let e := plain_relay_env [foo] in
  let r := aptcron e args [] (initial_world e NoDir) in
  smtp_calls r.1 = [CallSMTP "localhost" 25; CallStarttls]
  ∧ stderr r.1 = "RuntimeError: " +:+ STARTTLS_FORCED +:+ nl
  ∧ r.2 = Exit 2.
Proof. repeat split; vm_compute; reflexivity. Qed.

(** The same relay with [smtp-starttls = yes]: the mail goes out in plain. *)
Example optional_starttls_unsupported :
  let e := plain_relay_env [foo] in
  let r := aptcron e args [[("DEFAULT", [("smtp-starttls", "yes")])]]
             (initial_world e NoDir) in
  exists msg,
    smtp_calls r.1 = [CallSMTP "localhost" 25; CallStarttls;
                      CallSendmail "root@mail.example.org" ["root@mail.example.org"] msg;
                      CallQuit]
    ∧ Subject msg = "[aptcron] mail: 1 APT updates"
    ∧ r.2 = Exit 0.
Proof. eexists. repeat split; vm_compute; reflexivity. Qed.
